(** * EDGE (Sentinel-LEWS): the simulation core, embedded and verified

    The development follows the Python sources:
    - [fos.py]                       the infinite-slope Factor-of-Safety model;
    - [scripts/run_live_sim.py]      sensor filtering, IDW rainfall field,
                                     saturation memory, risk transform, the
                                     cycle loop and its web-mode wrapper;
    - [scripts/run_backtest.py]      the historical replay and its risk curve;
    - [scripts/run_quick_demo.py]    the single-shot stress test.
    The older command-line script [run_live_sim.py] at the top of the tree
    runs the same cycle without the web-mode wrapper.

    Numbers.  NumPy's float64 values are idealised as the real numbers [R]:
    rounding and overflow are not modelled.  The one place where IEEE special
    values are produced by the arithmetic itself, the division of the rainfall
    field by its own maximum, is modelled with an explicit type of results
    ([npfloat]) that keeps NaN and the infinities. *)

From Stdlib Require Import Ascii String Reals Lra List Bool Arith Lia.
Import ListNotations.
Open Scope string_scope.
Open Scope list_scope.
Open Scope R_scope.

(** ** NumPy primitives (element level) *)

Module Np.

(** [np.clip(a, lo, hi)] is [minimum(maximum(a, lo), hi)]. *)
Definition clip (a lo hi : R) : R := Rmin (Rmax a lo) hi.

(** [np.radians]. *)
Definition radians (deg : R) : R := deg * (PI / 180).

(** [np.max] of a 1-D array; NumPy raises [ValueError] on a zero-size
    array, which is [None] here. *)
Definition max (a : list R) : option R :=
  match a with
  | [] => None
  | x :: xs => Some (fold_left Rmax xs x)
  end.

End Np.

(** ** IEEE-754 results of the in-place rescaling

    Dividing by zero does not raise in NumPy: [0/0] is NaN and [x/0] is an
    infinity with the sign of [x].  The products that follow propagate them. *)

Inductive npfloat : Type :=
| Finite (r : R)
| PosInf
| NegInf
| NaN.

Definition np_div (x m : R) : npfloat :=
  if Req_dec_T m 0 then
    if Req_dec_T x 0 then NaN
    else if Rlt_dec 0 x then PosInf else NegInf
  else Finite (x / m).

Definition np_mul (a : npfloat) (v : R) : npfloat :=
  match a with
  | Finite r => Finite (r * v)
  | PosInf =>
      if Req_dec_T v 0 then NaN else if Rlt_dec 0 v then PosInf else NegInf
  | NegInf =>
      if Req_dec_T v 0 then NaN else if Rlt_dec 0 v then NegInf else PosInf
  | NaN => NaN
  end.

Definition is_finite (a : npfloat) : option R :=
  match a with Finite r => Some r | _ => None end.

(** Element-wise binary operation on two arrays of one shape. *)
Fixpoint map2 {A B C : Type} (f : A -> B -> C) (a : list A) (b : list B)
    : list C :=
  match a, b with
  | x :: a', y :: b' => f x y :: map2 f a' b'
  | _, _ => []
  end.

(** ** fos.py *)

Module Fos.

(** [soil_params]: a dict of column arrays. *)
Record SoilParams : Type := mkSoil {
  c : list R;       (* cohesion, kPa *)
  phi : list R;     (* friction angle, degrees *)
  gamma : list R;   (* unit weight, kN/m3 *)
  depth : list R;   (* soil depth, m *)
  ksat : list R     (* saturated conductivity, m/s *)
}.

Definition GAMMA_W : R := 9.81.

(** The body of [compute_fos_vectorized] at one index of its arrays,
    statement by statement.  [np.minimum] on an array and Python's [min] on
    a scalar [ksat] are both [Rmin]. *)
Definition fos_elem
    (slope_deg c phi_deg gamma z ksat current_saturation : R)
    (rainfall_intensity_mmph duration_hours : R) : R :=
  let slope_rad := Np.radians (Np.clip slope_deg 0.1 89.9) in
  let sin_a := sin slope_rad in
  let cos_a := cos slope_rad in
  let tan_phi := tan (Np.radians phi_deg) in
  let rain_rate_ms := rainfall_intensity_mmph * 2.777e-7 in
  let duration_s := duration_hours * 3600.0 in
  let ne := 0.3 in
  let inf_rate := Rmin rain_rate_ms ksat in
  let infiltration_depth_m := inf_rate * duration_s in
  let h_w_rise := infiltration_depth_m / ne in
  let h_w_initial := current_saturation * z in
  let h_w := Np.clip (h_w_initial + h_w_rise) 0.0 z in
  let sigma_n := gamma * z * (cos_a ^ 2) in
  let u := GAMMA_W * h_w * (cos_a ^ 2) in
  let sigma_prime := Rmax (sigma_n - u) 0.0 in
  let tau := gamma * z * sin_a * cos_a in
  let resisting := c + sigma_prime * tan_phi in
  let driving := Rmax tau 1e-5 in
  let fos := resisting / driving in
  Np.clip fos 0.0 10.0.

(** Lines 62-100 of the same body, from the infiltration depth on, with the
    value of [inf_rate] (line 61) left as an argument. *)
Definition fos_at_inf_rate
    (slope_deg c phi_deg gamma z current_saturation : R)
    (inf_rate duration_hours : R) : R :=
  let slope_rad := Np.radians (Np.clip slope_deg 0.1 89.9) in
  let sin_a := sin slope_rad in
  let cos_a := cos slope_rad in
  let tan_phi := tan (Np.radians phi_deg) in
  let duration_s := duration_hours * 3600.0 in
  let ne := 0.3 in
  let infiltration_depth_m := inf_rate * duration_s in
  let h_w_rise := infiltration_depth_m / ne in
  let h_w_initial := current_saturation * z in
  let h_w := Np.clip (h_w_initial + h_w_rise) 0.0 z in
  let sigma_n := gamma * z * (cos_a ^ 2) in
  let u := GAMMA_W * h_w * (cos_a ^ 2) in
  let sigma_prime := Rmax (sigma_n - u) 0.0 in
  let tau := gamma * z * sin_a * cos_a in
  let resisting := c + sigma_prime * tan_phi in
  let driving := Rmax tau 1e-5 in
  let fos := resisting / driving in
  Np.clip fos 0.0 10.0.

(** The arrays that take part in the element-wise arithmetic must have one
    shape, else NumPy raises; [elevation] is accepted and never read.
    Every caller passes columns of one table; scalars and length-one arrays,
    which NumPy would broadcast, are not modelled. *)
Definition same_shape (slope_deg : list R) (sp : SoilParams)
    (current_saturation : list R) : bool :=
  let n := length slope_deg in
  (length (c sp) =? n)%nat && (length (phi sp) =? n)%nat &&
  (length (gamma sp) =? n)%nat && (length (depth sp) =? n)%nat &&
  (length (ksat sp) =? n)%nat && (length current_saturation =? n)%nat.

(** The element-wise evaluation over arrays of one shape. *)
Fixpoint rows (slope_deg cs phis gammas zs ksats sats : list R)
    (rain dur : R) : list R :=
  match slope_deg, cs, phis, gammas, zs, ksats, sats with
  | s :: slope_deg', c0 :: cs', p :: phis', g :: gammas', z :: zs',
    k :: ksats', w :: sats' =>
      fos_elem s c0 p g z k w rain dur
        :: rows slope_deg' cs' phis' gammas' zs' ksats' sats' rain dur
  | _, _, _, _, _, _, _ => []
  end.

(** [compute_fos_vectorized]; [None] stands for the broadcasting error. *)
Definition compute_fos_vectorized
    (slope_deg elevation : list R) (soil_params : SoilParams)
    (current_saturation : list R)
    (rainfall_intensity_mmph duration_hours : R) : option (list R) :=
  if same_shape slope_deg soil_params current_saturation
  then Some (rows slope_deg (c soil_params) (phi soil_params)
               (gamma soil_params) (depth soil_params) (ksat soil_params)
               current_saturation rainfall_intensity_mmph duration_hours)
  else None.

End Fos.


(** ** Python control flow: printing, [return], exceptions

    A statement runs on a state (the text printed so far) and either falls
    through, executes a [return], or raises.  Exceptions are instances of
    [Exception]; [KeyboardInterrupt] and [SystemExit], which
    [except Exception] lets through, are outside the model. *)

Module Py.

(** What an f-string interpolates. *)
Inductive value : Type :=
| VReal (r : R)
| VNaN
| VNat (n : nat)
| VStr (s : string)
| VStrs (l : list string)
| VElapsed.

(** One printed line: the format text and the values put into it. *)
Record line : Type := Line { fmt : string; args : list value }.

Inductive exn : Type := Exception (what : string).

Inductive res (A : Type) : Type :=
| Ok (a : A)
| Raise (e : exn).
Arguments Ok {A} a.
Arguments Raise {A} e.

(** An external collaborator: it may print, then returns or raises. *)
Definition ext (A : Type) : Type := (list line * res A)%type.

Section Flow.
Variables S Ret : Type.

Inductive flow (A : Type) : Type :=
| Normal (a : A)
| Return (r : Ret)
| Raised (e : exn).

Definition M (A : Type) : Type := S -> S * flow A.

Definition ret {A} (a : A) : M A := fun s => (s, Normal A a).

Definition bind {A B} (m : M A) (k : A -> M B) : M B :=
  fun s =>
    match m s with
    | (s', Normal _ a) => k a s'
    | (s', Return _ r) => (s', Return B r)
    | (s', Raised _ e) => (s', Raised B e)
    end.

Definition return_ {A} (r : Ret) : M A := fun s => (s, Return A r).
Definition raise {A} (e : exn) : M A := fun s => (s, Raised A e).
Definition get : M S := fun s => (s, Normal S s).
Definition modify (f : S -> S) : M unit := fun s => (f s, Normal unit tt).

(** [try: body  except Exception as e: handler e  finally: fin]. *)
Definition try_except_finally {A} (body : M A) (handler : exn -> M A)
    (fin : S -> S) : M A :=
  fun s =>
    let (s1, f1) := body s in
    let (s2, f2) :=
      match f1 with
      | Raised _ e => handler e s1
      | _ => (s1, f1)
      end in
    (fin s2, f2).

(** A call of a function whose body is [m]: falling off the end returns
    [dflt] (Python's [None]). *)
Definition call (dflt : Ret) (m : M unit) (s : S) : S * res Ret :=
  match m s with
  | (s', Normal _ _) => (s', Ok dflt)
  | (s', Return _ r) => (s', Ok r)
  | (s', Raised _ e) => (s', Raise e)
  end.

(** The statement ends by raising. *)
Definition raises {A} (m : M A) (s : S) : bool :=
  match snd (m s) with Raised _ _ => true | _ => false end.

(** The statement never falls through: it ends in a [return] whose
    value satisfies [P], or raises. *)
Definition must_return {A} (P : S -> Ret -> Prop) (m : M A) : Prop :=
  forall s,
    match m s with
    | (_, Normal _ _) => False
    | (s', Return _ r) => P s' r
    | (_, Raised _ _) => True
    end.

(** The statement contains no [return] that is reached. *)
Definition no_return {A} (m : M A) : Prop :=
  forall s, match snd (m s) with Return _ _ => False | _ => True end.
End Flow.

Arguments Normal {Ret A} a.
Arguments Return {Ret A} r.
Arguments Raised {Ret A} e.
Arguments ret {S Ret A} a.
Arguments bind {S Ret A B} m k.
Arguments return_ {S Ret A} r.
Arguments raise {S Ret A} e.
Arguments get {S Ret}.
Arguments modify {S Ret} f.
Arguments try_except_finally {S Ret A} body handler fin.
Arguments call {S Ret} dflt m s.
Arguments raises {S Ret A} m s.
Arguments no_return {S Ret A} m.
Arguments must_return {S Ret A} P m.

End Py.

Declare Scope py_scope.
Delimit Scope py_scope with py.
Notation "x <- m ;; k" := (Py.bind m (fun x => k))
  (at level 61, m at next level, right associativity) : py_scope.
Notation "m ;;; k" := (Py.bind m (fun _ => k))
  (at level 61, right associativity) : py_scope.

(** ** The table handed over by the loader and the soil estimator *)

Module Frame.

Record Row : Type := mkRow {
  lat : R; lon : R; elevation : R; slope : R;
  c : R; phi : R; gamma : R; depth : R; ksat : R
}.

(** A DataFrame: its rows, and the further named columns it may carry
    (monthly rainfall, [R_30d], [R_7d]). *)
Record DataFrame : Type := mkFrame {
  rows : list Row;
  more : list (string * list R)
}.

Definition len (df : DataFrame) : nat := length (rows df).

(** [df.columns]; the order is the loader's, the core columns are put
    first here. *)
Definition columns (df : DataFrame) : list string :=
  ["lat"; "lon"; "elevation"; "slope"; "c"; "phi"; "gamma"; "depth"; "ksat"]
    ++ map fst (more df).
Definition column (f : Row -> R) (df : DataFrame) : list R :=
  map f (rows df).
Definition has_column (name : string) (df : DataFrame) : bool :=
  existsb (fun kv => String.eqb (fst kv) name) (more df).
Definition get_column (name : string) (df : DataFrame) : option (list R) :=
  option_map snd
    (find (fun kv => String.eqb (fst kv) name) (more df)).

Definition soil_params (df : DataFrame) : Fos.SoilParams :=
  Fos.mkSoil (column c df) (column phi df) (column gamma df)
             (column depth df) (column ksat df).

End Frame.

(** What the entry points return to the web layer. *)
Inductive extra : Type :=
| NoExtra
| Results (r : list (string * nat * R))
| Image (png : option string).

Record Response : Type := mkResponse {
  status : string;
  logs : list Py.line;
  payload : extra
}.

(** The collaborators outside the core. *)
Record Host : Type := mkHost {
  path_exists : string -> bool;                          (* os.path.exists *)
  current_dir : string;
  load_shimla_data : string -> Py.ext Frame.DataFrame;
  estimate_soil_parameters : Frame.DataFrame -> Py.ext Frame.DataFrame;
  random_tape : nat -> R;                                (* random.random() *)
  predict_residual : list (list R) -> Py.ext (list R);   (* MLResidual *)
  (** hotspot table, alert texts, metrics and heat map of the quick demo *)
  present : Frame.DataFrame -> list R -> list R -> bool
            -> Py.ext (option string)
}.

(** [sys.stdout] and the [io.StringIO] buffer of the running entry point. *)
Record world : Type := mkWorld {
  redirected : bool;            (* sys.stdout is captured_output *)
  console : list Py.line;       (* what reached the real stdout *)
  captured : list Py.line       (* captured_output.getvalue() *)
}.

Definition emit (l : Py.line) (w : world) : world :=
  if redirected w
  then mkWorld true (console w) (captured w ++ [l])
  else mkWorld false (console w ++ [l]) (captured w).

Definition fresh_buffer (web_mode : bool) (w : world) : world :=
  mkWorld (if web_mode then true else redirected w) (console w) [].

Definition restore_stdout (web_mode : bool) (w : world) : world :=
  if web_mode then mkWorld false (console w) (captured w) else w.

Definition ValueError (what : string) : Py.exn := Py.Exception what.

(** ** scripts/run_live_sim.py *)

Module LiveSim.
Import Py.
Local Open Scope py_scope.

Definition M := Py.M world (option Response).

Definition print (fmt : string) (args : list value) : M unit :=
  modify (emit (Line fmt args)).

Definition lift_ext {A} (e : ext A) : M A :=
  fun w =>
    (fold_left (fun w l => emit l w) (fst e) w,
     match snd e with Ok a => Normal a | Raise x => Raised x end).

Definition lift_res {A} (r : res A) : M A :=
  match r with Ok a => ret a | Raise x => raise x end.

Record Station : Type := mkStation { st_id : string; st_lat : R; st_lon : R }.

(** [{**s, "val": v}] *)
Record Reading : Type := mkReading {
  id : string; lat : R; lon : R; val : R
}.

(** The class defined in the [except ImportError] branch. *)
Module SensorFusionEngine.
Definition filter_anomalies (readings : list Reading) : list Reading :=
  readings.
End SensorFusionEngine.

Definition stations_meta : list Station :=
  [ mkStation "S1" 31.10 77.10;
    mkStation "S2" 31.20 77.20;
    mkStation "S3" 31.05 77.15 ].

Definition decay_rate : R := 0.985.

(** [random.uniform(a, b)] is [a + (b - a) * random()]. *)
Definition uniform (h : Host) (k : nat) (a b : R) : R :=
  a + (b - a) * random_tape h k.

(** The [for s in stations_meta] loop; each station draws twice. *)
Fixpoint simulate_readings (h : Host) (base_rain : R) (k : nat)
    (stations : list Station) : list Reading :=
  match stations with
  | [] => []
  | s :: rest =>
      let v := base_rain + uniform h k (-5) 5 in
      let v := if Rlt_dec (random_tape h (S k)) 0.1 then 9999.0 else v in
      mkReading (st_id s) (st_lat s) (st_lon s) (Rmax v 0.0)
        :: simulate_readings h base_rain (S (S k)) rest
  end.

(** One station's contribution at one cell. *)
Definition idw_term (s : Reading) (la lo : R) : R :=
  let d2 := (la - lat s) ^ 2 + (lo - lon s) ^ 2 in
  let d2 := Rmax d2 1e-6 in
  val s / d2.

(** [rain_grid = np.zeros(n)] followed by the [for s in clean] loop. *)
Definition accumulate (clean : list Reading) (lats lons : list R) (n : nat)
    : list R :=
  fold_left
    (fun rain_grid s => map2 Rplus rain_grid (map2 (idw_term s) lats lons))
    clean (repeat 0 n).

(** The [if not clean: ... else: ...] block that builds [rain_grid]. *)
Definition rainfall_field (clean : list Reading) (lats lons : list R)
    (n : nat) : res (list npfloat) :=
  match clean with
  | [] => Ok (map Finite (repeat 0 n))
  | s0 :: rest =>
      let rain_grid := accumulate clean lats lons n in
      match Np.max rain_grid with
      | None => Raise (ValueError "zero-size array to reduction operation maximum")
      | Some m =>
          let rain_grid := map (fun x => np_div x m) rain_grid in
          let vmax := fold_left Rmax (map val rest) (val s0) in
          Ok (map (fun x => np_mul x vmax) rain_grid)
      end
  end.

(** All cells finite, or the field has left the reals. *)
Fixpoint as_reals (g : list npfloat) : option (list R) :=
  match g with
  | [] => Some []
  | a :: g' =>
      match is_finite a, as_reals g' with
      | Some r, Some rs => Some (r :: rs)
      | _, _ => None
      end
  end.

(** Step 3 of a cycle. *)
Definition update_saturation (saturation rain_grid : list R) : list R :=
  let added_sat := map (fun r => (r / 100.0) * 0.08) rain_grid in
  let saturation :=
    map2 Rplus (map (fun s => s * decay_rate) saturation) added_sat in
  map (fun s => Np.clip s 0.05 1.0) saturation.

(** Step 5 of a cycle, per cell. *)
Definition risk (fos : R) : R := 1.0 / (1.0 + exp (10.0 * (fos - 1.0))).

Definition mean (a : list R) : R := fold_right Rplus 0 a / INR (length a).

Definition below_one (f : R) : R := if Rlt_dec f 1.0 then 1 else 0.

(** Step 4: the call of the stability model made by a cycle. *)
Definition cycle_fos (df : Frame.DataFrame) (saturation rain_grid : list R)
    : option (list R) :=
  match Np.max rain_grid with
  | None => None
  | Some rain_max =>
      Fos.compute_fos_vectorized
        (Frame.column Frame.slope df) (Frame.column Frame.elevation df)
        (Frame.soil_params df) saturation rain_max 6.0
  end.

(** The saturation memory: an array of reals, or all-NaN once a cycle's
    field was NaN (NaN times the decay rate plus anything stays NaN). *)
Inductive sat_state : Type :=
| Sat (saturation : list R)
| SatNaN.

Definition no_identity : exn :=
  ValueError "zero-size array to reduction operation maximum".
Definition shape_mismatch : exn :=
  ValueError "operands could not be broadcast together".

(** Steps 3 to 5 on a field of reals. *)
Definition advance (df : Frame.DataFrame) (st : sat_state)
    (rain_grid : list R) : M sat_state :=
  match Np.max rain_grid with
  | None => raise no_identity
  | Some rain_max =>
      print "  Max Rainfall: {:.1f} mm/hr" [VReal rain_max] ;;;
      match st with
      | Sat saturation =>
          let saturation := update_saturation saturation rain_grid in
          print "  Avg Saturation: {:.1f}%" [VReal (mean saturation * 100)] ;;;
          match cycle_fos df saturation rain_grid with
          | None => raise shape_mismatch
          | Some fos =>
              let risk := map risk fos in
              let unstable_frac := mean (map below_one fos) in
              print "  Unstable Area: {:.2f}%" [VReal (unstable_frac * 100)] ;;;
              (if Rlt_dec 0.05 unstable_frac
               then print " ALERT: Widespread slope instability detected" []
               else ret tt) ;;;
              ret (Sat saturation)
          end
      | SatNaN =>
          print "  Avg Saturation: {:.1f}%" [VNaN] ;;;
          print "  Unstable Area: {:.2f}%" [VReal 0] ;;;
          ret SatNaN
      end
  end.

(** One pass of the [while True] body after the stop test; the
    [time.sleep] of the command-line mode changes nothing here. *)
Definition cycle_body (h : Host) (df : Frame.DataFrame) (cycle k : nat)
    (st : sat_state) : M sat_state :=
  print "[CYCLE {}]" [VNat cycle] ;;;
  let base_rain := Rmax 0.0 (25.0 + 25.0 * sin (INR cycle * 0.4)) in
  let readings := simulate_readings h base_rain k stations_meta in
  let clean := SensorFusionEngine.filter_anomalies readings in
  print "  Sensors: {} -> {} valid"
        [VNat (length readings); VNat (length clean)] ;;;
  rain_grid <- lift_res
    (rainfall_field clean (Frame.column Frame.lat df)
       (Frame.column Frame.lon df) (Frame.len df)) ;;
  match as_reals rain_grid with
  | Some g => advance df st g
  | None =>
      print "  Max Rainfall: {:.1f} mm/hr" [VNaN] ;;;
      print "  Avg Saturation: {:.1f}%" [VNaN] ;;;
      print "  Unstable Area: {:.2f}%" [VReal 0] ;;;
      ret SatNaN
  end.

(** The [while True] loop of a bounded run; [remaining] is
    [max_cycles - cycle], so the stop test is [remaining = 0]. *)
Fixpoint loop (h : Host) (df : Frame.DataFrame) (max_cycles remaining : nat)
    (cycle k : nat) (st : sat_state) : M unit :=
  match remaining with
  | O => print "[STOP] Reached limit of {} cycles." [VNat max_cycles]
  | S remaining' =>
      let cycle := S cycle in
      st' <- cycle_body h df cycle k st ;;
      loop h df max_cycles remaining' cycle
           (k + 2 * length stations_meta) st'
  end.

Definition dataset_missing (h : Host) (csv_path : option string) : bool :=
  match csv_path with
  | None => true
  | Some p => String.eqb p "" || negb (path_exists h p)
  end.

Definition path_of (csv_path : option string) : string :=
  match csv_path with Some p => p | None => "" end.

Definition error_response (w : world) : option Response :=
  Some (mkResponse "Error" (captured w) NoExtra).

(** The [try] block. *)
Definition body (h : Host) (csv_path : option string) (max_cycles : nat)
    (web_mode : bool) : M unit :=
  print "=== Sentinel-LEWS LIVE SIMULATION ===" [] ;;;
  print "Mode: Rolling 6-Hour Forecast (10m x 10m)" [] ;;;
  print "Status: {}"
    [VStr (if web_mode then "API DEMO RUN" else "OFFLINE MODE (Edge Local)")] ;;;
  if dataset_missing h csv_path
  then
    print "Dataset missing." [] ;;;
    if web_mode then (w <- get ;; return_ (error_response w))
    else return_ None
  else
    df <- lift_ext (load_shimla_data h (path_of csv_path)) ;;
    df <- lift_ext (estimate_soil_parameters h df) ;;
    loop h df max_cycles max_cycles 0 0 (Sat (repeat 0.2 (Frame.len df))).

Definition handler (e : exn) : M unit :=
  print "Error during simulation: {}"
        [VStr (match e with Exception what => what end)] ;;;
  w <- get ;; return_ (error_response w).

(** [run_live_simulation] with a bounded [max_cycles]; the unbounded run
    of the command-line stub ([max_cycles=None]) does not return and is
    not modelled. *)
Definition run_live_simulation (h : Host) (csv_path : option string)
    (max_cycles : nat) (web_mode : bool) (w : world)
    : world * res (option Response) :=
  call None
    (modify (fresh_buffer web_mode) ;;;
     try_except_finally (body h csv_path max_cycles web_mode) handler
       (restore_stdout web_mode) ;;;
     if web_mode
     then (w <- get ;;
           return_ (Some (mkResponse "Success" (captured w) NoExtra)))
     else ret tt)
    w.

End LiveSim.

(** ** scripts/run_backtest.py *)

Module Backtest.
Import Py.
Local Open Scope py_scope.

(** The state is [sys.stdout] together with the local buffer [logs]. *)
Definition M := Py.M (world * list line) (option Response).

Definition output (fmt : string) (args : list value) : M unit :=
  modify (fun s => (fst s, snd s ++ [Line fmt args])).

Definition lift_ext {A} (e : ext A) : M A :=
  fun s =>
    ((fold_left (fun w l => emit l w) (fst e) (fst s), snd s),
     match snd e with Ok a => Normal a | Raise x => Raised x end).

Definition risk (fos : R) : R := 1.0 / (1.0 + exp (5.0 * (fos - 1.1))).

Definition months : list string := ["2023-06-01"; "2023-07-01"].

Definition candidates : list string :=
  [ "shimla_final_grid.csv";
    "../shimla_final_grid.csv";
    "../../shimla_final_grid.csv" ].

Definition path_join (a b : string) : string := (a ++ "/" ++ b)%string.

(** The [for p in candidates] search. *)
Fixpoint search (h : Host) (cands : list string) : option string :=
  match cands with
  | [] => None
  | p :: rest =>
      let possible_path := path_join (current_dir h) p in
      if path_exists h possible_path then Some possible_path
      else if path_exists h p then Some p
      else search h rest
  end.

Definition resolve (h : Host) (csv_path : option string) : option string :=
  if LiveSim.dataset_missing h csv_path
  then search h candidates
  else csv_path.

(** ['07-01' in month] *)
Definition is_july (month : string) : bool :=
  match String.index 0 "07-01" month with Some _ => true | None => false end.

Definition exceeds (x : R) (r : R) : bool :=
  if Rlt_dec x r then true else false.

(** One pass of [for month in available_months]; [monthly_rain] is read
    and never used. *)
Definition month_body (df : Frame.DataFrame) (month : string)
    : M (string * nat * R) :=
  output "Processing Historical Month: {}..." [VStr month] ;;;
  let intensity_mmph := if is_july month then 45.0 else 10.0 in
  let saturation_proxy := if is_july month then 0.8 else 0.4 in
  match Fos.compute_fos_vectorized
          (Frame.column Frame.slope df) (Frame.column Frame.elevation df)
          (Frame.soil_params df)
          (repeat saturation_proxy (Frame.len df)) intensity_mmph 6.0 with
  | None => raise LiveSim.shape_mismatch
  | Some fos_values =>
      let risk := map risk fos_values in
      let hotspots := length (filter (exceeds 0.8) risk) in
      output "  [Simulated] Intensity: {} mm/hr" [VReal intensity_mmph] ;;;
      output "  [Result] Hotspots Detected: {}" [VNat hotspots] ;;;
      output "  [Perf] Time: {:.3f}s" [VElapsed] ;;;
      ret (month, hotspots, intensity_mmph)
  end.

Fixpoint month_loop (df : Frame.DataFrame) (ms : list string)
    (results : list (string * nat * R)) : M (list (string * nat * R)) :=
  match ms with
  | [] => ret results
  | month :: rest =>
      r <- month_body df month ;;
      month_loop df rest (results ++ [r])
  end.

Fixpoint summary (results : list (string * nat * R)) : M unit :=
  match results with
  | [] => ret tt
  | (month, hotspots, intensity) :: rest =>
      output "{}: {} hotspots ({}) - {} mm/hr"
        [VStr month; VNat hotspots;
         VStr (if (10 <? hotspots)%nat then "ALERT TRIGGERED" else "No Alert");
         VReal intensity] ;;;
      summary rest
  end.

(** The [try] block. *)
Definition body (h : Host) (csv_path : string) : M unit :=
  df <- lift_ext (load_shimla_data h csv_path) ;;
  df <- lift_ext (estimate_soil_parameters h df) ;;
  let available_months :=
    filter (fun m => Frame.has_column m df) months in
  (match available_months with
   | [] =>
       output "Historical rainfall columns (2023-06-01, 2023-07-01) not found." [] ;;;
       output "Available columns: {}..."
         [VStrs (firstn 5 (Frame.columns df))]
   | _ => ret tt
   end) ;;;
  results <- month_loop df available_months [] ;;
  output "=== Backtest Summary ===" [] ;;;
  (match results with
   | [] => output "No historical data to process." []
   | _ => ret tt
   end) ;;;
  summary results ;;;
  (match results with
   | [] => ret tt
   | _ => output "Verification: July 2023 should have high alerts." []
   end) ;;;
  s <- get ;;
  return_ (Some (mkResponse "Success" (snd s) (Results results))).

Definition handler (e : exn) : M unit :=
  output "Execution Error: {}"
         [VStr (match e with Exception what => what end)] ;;;
  s <- get ;;
  return_ (Some (mkResponse "Error" (snd s) NoExtra)).

(** The lines written before the data set is looked for. *)
Definition prologue : M unit :=
  output "=== Sentinel-LEWS Historical Backtest ===" [] ;;;
  output "Event: Himachal Floods / Landslides (July 2023)" [] ;;;
  output "Goal: Verify detection > 4 hours before reported events." [].

Definition backtest_event (h : Host) (csv_path : option string) (w : world)
    : (world * list line) * res (option Response) :=
  call None
    (prologue ;;;
     match resolve h csv_path with
     | None =>
         output "Dataset not found!" [] ;;;
         s <- get ;;
         return_ (Some (mkResponse "Error" (snd s) NoExtra))
     | Some p =>
         try_except_finally (body h p) handler (fun s => s)
     end)
    (w, []).

End Backtest.

(** ** scripts/run_quick_demo.py *)

Module QuickDemo.
Import Py.
Local Open Scope py_scope.

Definition M := LiveSim.M.

Definition fos_to_risk (fos : R) : R :=
  1.0 / (1.0 + exp (10.0 * (fos - 1.0))).

(** [fos_values + residual] *)
Definition np_add (a b : list R) : res (list R) :=
  if (length a =? length b)%nat then Ok (map2 Rplus a b)
  else Raise LiveSim.shape_mismatch.

Definition initial_sat (df : Frame.DataFrame) : list R :=
  match Frame.get_column "R_30d" df with
  | Some r30 => map (fun x => Np.clip (x / 500.0) 0.0 0.9) r30
  | None => repeat 0.5 (Frame.len df)
  end.

Definition ml_feats (df : Frame.DataFrame) : list (list R) :=
  let feats :=
    map (fun r => [Frame.lat r; Frame.lon r; Frame.elevation r; Frame.slope r])
        (Frame.rows df) in
  match Frame.get_column "R_7d" df with
  | Some r7 => map2 (fun f x => f ++ [x]) feats r7
  | None => feats
  end.

(** [Series.min()], [.max()] and [.mean()], NaN on an empty column. *)
Definition stat (f : R -> R -> R) (a : list R) : value :=
  match a with
  | [] => VNaN
  | x :: xs => VReal (fold_left f xs x)
  end.

Definition mean_value (a : list R) : value :=
  match a with
  | [] => VNaN
  | _ => VReal (LiveSim.mean a)
  end.

Definition design_rain_mmph : R := 50.0.
Definition design_duration_h : R := 12.0.

(** The [try] block. *)
Definition body (h : Host) (csv_path : option string) (web_mode : bool)
    : M (option string) :=
  LiveSim.print "=== Sentinel-LEWS Edge Pipeline ===" [] ;;;
  if LiveSim.dataset_missing h csv_path
  then
    LiveSim.print "Error: Dataset not found at {}"
      [VStr (LiveSim.path_of csv_path)] ;;;
    if web_mode then (w <- get ;; return_ (LiveSim.error_response w))
    else return_ None
  else
    df <- LiveSim.lift_ext (load_shimla_data h (LiveSim.path_of csv_path)) ;;
    df <- LiveSim.lift_ext (estimate_soil_parameters h df) ;;
    LiveSim.print "Data Stats:" [] ;;;
    LiveSim.print "  Slope: Min {:.1f}, Max {:.1f}, Mean {:.1f}"
      [ stat Rmin (Frame.column Frame.slope df);
        stat Rmax (Frame.column Frame.slope df);
        mean_value (Frame.column Frame.slope df) ] ;;;
    LiveSim.print "  Elev:  Min {:.1f}, Max {:.1f}"
      [ stat Rmin (Frame.column Frame.elevation df);
        stat Rmax (Frame.column Frame.elevation df) ] ;;;
    match Fos.compute_fos_vectorized
            (Frame.column Frame.slope df) (Frame.column Frame.elevation df)
            (Frame.soil_params df) (initial_sat df)
            design_rain_mmph design_duration_h with
    | None => raise LiveSim.shape_mismatch
    | Some fos_values =>
        residual <- LiveSim.lift_ext (predict_residual h (ml_feats df)) ;;
        fos_final <- LiveSim.lift_res (np_add fos_values residual) ;;
        let risk_probs := map fos_to_risk fos_final in
        LiveSim.lift_ext (present h df fos_final risk_probs web_mode)
    end.

Definition handler (e : exn) : M (option string) :=
  LiveSim.print "Execution Error: {}"
        [VStr (match e with Exception what => what end)] ;;;
  w <- get ;; return_ (LiveSim.error_response w).

Definition run_demo_event (h : Host) (csv_path : option string)
    (web_mode : bool) (w : world) : world * res (option Response) :=
  call None
    (modify (fresh_buffer web_mode) ;;;
     heatmap_base64 <-
       try_except_finally (body h csv_path web_mode) handler
         (restore_stdout web_mode) ;;
     if web_mode
     then (w <- get ;;
           return_ (Some (mkResponse "Success" (captured w)
                            (Image heatmap_base64))))
     else ret tt)
    w.

End QuickDemo.

(** ** The specification's own formulas

    These follow the words of the specification and are what the code is
    compared with. *)

Module Spec.

(** "clamp result to [lo, hi]" *)
Definition clamp (x lo hi : R) : R :=
  if Rlt_dec x lo then lo else if Rlt_dec hi x then hi else x.

(** "risk = 1 / (1 + exp(k * (fos - 1)))", with the midpoint as a
    parameter. *)
Definition logistic_at (k mid fos : R) : R := 1 / (1 + exp (k * (fos - mid))).
Definition logistic (k fos : R) : R := logistic_at k 1 fos.

(** Section 4.1: the median-deviation policy. *)
Definition K : R := 4.
Definition CEILING : R := 200.

Fixpoint insert (x : R) (l : list R) : list R :=
  match l with
  | [] => [x]
  | y :: l' => if Rle_dec x y then x :: l else y :: insert x l'
  end.

Definition sort (l : list R) : list R := fold_right insert [] l.

(** The middle element, or the mean of the two middle ones. *)
Definition median (l : list R) : R :=
  let s := sort l in
  let n := length s in
  if Nat.even n
  then (nth (n / 2 - 1) s 0 + nth (n / 2) s 0) / 2
  else nth (n / 2) s 0.

Definition threshold (values : list R) : R :=
  Rmax (median values * K) CEILING.

Definition plausible (thr : R) (r : LiveSim.Reading) : bool :=
  if Rlt_dec thr (LiveSim.val r) then false else true.

Definition filter_anomalies (readings : list LiveSim.Reading)
    : list LiveSim.Reading :=
  filter (plausible (threshold (map LiveSim.val readings))) readings.

End Spec.

(** ** app_fastapi.py *)

Module App.
Import Py.

(** A value of the request's JSON object: a string, or anything else
    (number, boolean, null, array, object). *)
Inductive json : Type :=
| JStr (s : string)
| JOther.

Definition UPLOAD_DIR : string := "api/uploads".

Definition starts_with_slash (b : string) : bool :=
  match b with
  | String ch _ => Ascii.eqb ch "/"%char
  | EmptyString => false
  end.

Fixpoint ends_with_slash (a : string) : bool :=
  match a with
  | EmptyString => false
  | String ch EmptyString => Ascii.eqb ch "/"%char
  | String _ rest => ends_with_slash rest
  end.

(** [os.path.join(a, b)] of [posixpath]: an absolute [b] replaces [a]. *)
Definition os_path_join (a b : string) : string :=
  if starts_with_slash b then b
  else if String.eqb a "" || ends_with_slash a then (a ++ b)%string
  else (a ++ "/" ++ b)%string.

Definition KeyError (key : string) : exn := Exception key.
Definition TypeError (what : string) : exn := Exception what.

(** [os.path.join(UPLOAD_DIR, data["dataset_file"])] *)
Definition dataset_path (data : string -> option json) : res string :=
  match data "dataset_file" with
  | None => Raise (KeyError "dataset_file")
  | Some (JStr name) => Ok (os_path_join UPLOAD_DIR name)
  | Some JOther =>
      Raise (TypeError "expected str, bytes or os.PathLike object")
  end.

(** [POST /api/backtest]; the local buffer of the callee is gone when it
    returns. *)
Definition backtest (h : Host) (data : string -> option json) (w : world)
    : world * res (option Response) :=
  match dataset_path data with
  | Raise e => (w, Raise e)
  | Ok p =>
      let (s, r) := Backtest.backtest_event h (Some p) w in (fst s, r)
  end.

(** [POST /api/live_sim]; [max_cycles] keeps its default, 5. *)
Definition live_sim (h : Host) (data : string -> option json) (w : world)
    : world * res (option Response) :=
  match dataset_path data with
  | Raise e => (w, Raise e)
  | Ok p => LiveSim.run_live_simulation h (Some p) 5 true w
  end.

(** [POST /api/quick_demo] *)
Definition quick_demo (h : Host) (data : string -> option json) (w : world)
    : world * res (option Response) :=
  match dataset_path data with
  | Raise e => (w, Raise e)
  | Ok p => QuickDemo.run_demo_event h (Some p) true w
  end.

End App.

(** A statement that, while [sys.stdout] is the console, leaves it so and
    leaves the capture buffer alone. *)
Definition console_only {Ret A : Type} (m : Py.M world Ret A) : Prop :=
  forall w,
    redirected w = false ->
    redirected (fst (m w)) = false /\ captured (fst (m w)) = captured w.

(** The saturation memory fits the table: one value per row, each in
    [0.05, 1.0] or at its initial 0.2; or it is all NaN. *)
Definition memory_ok (df : Frame.DataFrame) (st : LiveSim.sat_state) : Prop :=
  match st with
  | LiveSim.Sat saturation =>
      length saturation = Frame.len df
      /\ Forall (fun s => 0.05 <= s <= 1.0) saturation
  | LiveSim.SatNaN => True
  end.

(** ** Inputs of the worked examples *)

Definition example_frame : Frame.DataFrame :=
  Frame.mkFrame
    [ Frame.mkRow 31.10 77.10 1500 30 10 30 18 2 1e-6;
      Frame.mkRow 31.12 77.18 1620 12 8 28 19 1.5 2e-6 ]
    [].

(** A host on which every path exists, the loader hands over [df], the soil
    estimator leaves it as it is, every draw is 0.5, the residual model is
    the fallback of run_quick_demo.py ([np.zeros(len(feats))]) and the
    reporting stage prints nothing. *)
Definition example_host (df : Frame.DataFrame) : Host :=
  mkHost (fun _ => true) "/srv/scripts"
         (fun _ => ([], Py.Ok df))
         (fun d => ([], Py.Ok d))
         (fun _ => 0.5)
         (fun feats => ([], Py.Ok (repeat 0 (length feats))))
         (fun _ _ _ _ => ([], Py.Ok None)).

(** * Properties *)

(** ** Primitives *)

Lemma clip_range (a lo hi : R) : lo <= hi -> lo <= Np.clip a lo hi <= hi.
Proof.
  intros Hle. unfold Np.clip, Rmin, Rmax.
  destruct (Rle_dec a lo); destruct (Rle_dec _ hi); lra.
Qed.

Lemma clip_mono (a b lo hi : R) : a <= b -> Np.clip a lo hi <= Np.clip b lo hi.
Proof.
  intros Hab. unfold Np.clip.
  apply Rle_min_compat_r. apply Rle_max_compat_r. exact Hab.
Qed.

Lemma clip_inside (a lo hi : R) : lo <= a <= hi -> Np.clip a lo hi = a.
Proof.
  intros [H1 H2]. unfold Np.clip, Rmin, Rmax.
  destruct (Rle_dec a lo); destruct (Rle_dec _ hi); lra.
Qed.

Lemma clip_is_clamp (a lo hi : R) :
  lo <= hi -> Np.clip a lo hi = Spec.clamp a lo hi.
Proof.
  intros Hle. unfold Np.clip, Spec.clamp, Rmin, Rmax.
  destruct (Rle_dec a lo); destruct (Rle_dec _ hi);
    destruct (Rlt_dec a lo); destruct (Rlt_dec hi a); lra.
Qed.

Lemma map2_length {A B C} (f : A -> B -> C) (a : list A) (b : list B) :
  length (map2 f a b) = Nat.min (length a) (length b).
Proof.
  revert b. induction a as [|x a IH]; intros [|y b]; simpl; auto.
Qed.

Lemma map2_map_l {A A' B C} (f : A' -> B -> C) (g : A -> A')
    (a : list A) (b : list B) :
  map2 f (map g a) b = map2 (fun x y => f (g x) y) a b.
Proof.
  revert b. induction a as [|x a IH]; intros [|y b]; simpl; auto.
  now rewrite IH.
Qed.

Lemma map2_map_r {A B B' C} (f : A -> B' -> C) (g : B -> B')
    (a : list A) (b : list B) :
  map2 f a (map g b) = map2 (fun x y => f x (g y)) a b.
Proof.
  revert b. induction a as [|x a IH]; intros [|y b]; simpl; auto.
  now rewrite IH.
Qed.

Lemma map_map2 {A B C D} (g : C -> D) (f : A -> B -> C)
    (a : list A) (b : list B) :
  map g (map2 f a b) = map2 (fun x y => g (f x y)) a b.
Proof.
  revert b. induction a as [|x a IH]; intros [|y b]; simpl; auto.
  now rewrite IH.
Qed.

Lemma map2_ext {A B C} (f g : A -> B -> C) (a : list A) (b : list B) :
  (forall x y, f x y = g x y) -> map2 f a b = map2 g a b.
Proof.
  intros E. revert b. induction a as [|x a IH]; intros [|y b]; simpl; auto.
  now rewrite E, IH.
Qed.

Lemma map2_Forall {A B C} (P : C -> Prop) (f : A -> B -> C)
    (a : list A) (b : list B) :
  (forall x y, P (f x y)) -> Forall P (map2 f a b).
Proof.
  intros HP. revert b. induction a as [|x a IH]; intros [|y b]; simpl; auto.
Qed.

Lemma map2_nth_error {A B C} (f : A -> B -> C) (a : list A) (b : list B)
    (i : nat) :
  nth_error (map2 f a b) i =
  match nth_error a i, nth_error b i with
  | Some x, Some y => Some (f x y)
  | _, _ => None
  end.
Proof.
  revert a b. induction i as [|i IH]; intros [|x a] [|y b]; simpl; auto.
  destruct (nth_error a i); reflexivity.
Qed.

(** ** The stability model *)

Section FosArrays.
Variables (rain dur : R).

Lemma rows_Forall (P : R -> Prop) (sl cs ph ga zs ks sa : list R) :
  (forall s c0 p g z k w, P (Fos.fos_elem s c0 p g z k w rain dur)) ->
  Forall P (Fos.rows sl cs ph ga zs ks sa rain dur).
Proof.
  intros HP. revert cs ph ga zs ks sa.
  induction sl as [|s sl IH]; intros [|c0 cs] [|p ph] [|g ga] [|z zs]
    [|k ks] [|w sa]; simpl; auto.
Qed.

Lemma rows_nth_error (sl cs ph ga zs ks sa : list R) (i : nat) :
  nth_error (Fos.rows sl cs ph ga zs ks sa rain dur) i =
  match nth_error sl i, nth_error cs i, nth_error ph i, nth_error ga i,
        nth_error zs i, nth_error ks i, nth_error sa i with
  | Some s, Some c0, Some p, Some g, Some z, Some k, Some w =>
      Some (Fos.fos_elem s c0 p g z k w rain dur)
  | _, _, _, _, _, _, _ => None
  end.
Proof.
  revert sl cs ph ga zs ks sa.
  induction i as [|i IH]; intros [|s sl] [|c0 cs] [|p ph] [|g ga] [|z zs]
    [|k ks] [|w sa]; simpl; auto;
    repeat match goal with |- context [nth_error ?l i] =>
             destruct (nth_error l i) end; reflexivity.
Qed.

Lemma rows_length (sl cs ph ga zs ks sa : list R) :
  length cs = length sl -> length ph = length sl ->
  length ga = length sl -> length zs = length sl ->
  length ks = length sl -> length sa = length sl ->
  length (Fos.rows sl cs ph ga zs ks sa rain dur) = length sl.
Proof.
  revert cs ph ga zs ks sa.
  induction sl as [|s sl IH]; intros [|c0 cs] [|p ph] [|g ga] [|z zs]
    [|k ks] [|w sa]; simpl; intros; try discriminate; auto.
Qed.
End FosArrays.

Lemma same_shape_true (sl : list R) (sp : Fos.SoilParams) (sa : list R) :
  Fos.same_shape sl sp sa = true <->
  length (Fos.c sp) = length sl /\ length (Fos.phi sp) = length sl /\
  length (Fos.gamma sp) = length sl /\ length (Fos.depth sp) = length sl /\
  length (Fos.ksat sp) = length sl /\ length sa = length sl.
Proof.
  unfold Fos.same_shape. cbv zeta.
  rewrite !andb_true_iff, !Nat.eqb_eq. tauto.
Qed.

Lemma fos_elem_range (s c0 p g z k w rain dur : R) :
  0 <= Fos.fos_elem s c0 p g z k w rain dur <= 10.
Proof.
  unfold Fos.fos_elem. cbv zeta.
  match goal with |- _ <= Np.clip ?x _ _ <= _ =>
    pose proof (clip_range x 0.0 10.0) as H end.
  lra.
Qed.

Lemma logistic_at_range (k mid x : R) : 0 <= Spec.logistic_at k mid x <= 1.
Proof.
  unfold Spec.logistic_at.
  pose proof (exp_pos (k * (x - mid))) as He.
  split.
  - apply Rlt_le, Rdiv_lt_0_compat; lra.
  - apply (Rmult_le_reg_r (1 + exp (k * (x - mid)))); [lra|].
    unfold Rdiv. rewrite Rmult_assoc, Rinv_l by lra. lra.
Qed.

Lemma live_risk_is_logistic (fos : R) :
  LiveSim.risk fos = Spec.logistic_at 10 1 fos.
Proof.
  unfold LiveSim.risk, Spec.logistic_at.
  replace (10.0 * (fos - 1.0)) with (10 * (fos - 1)) by lra.
  f_equal; lra.
Qed.

Lemma backtest_risk_is_logistic (fos : R) :
  Backtest.risk fos = Spec.logistic_at 5 1.1 fos.
Proof.
  unfold Backtest.risk, Spec.logistic_at.
  replace (5.0 * (fos - 1.1)) with (5 * (fos - 1.1)) by lra.
  f_equal; lra.
Qed.

Lemma demo_risk_is_logistic (fos : R) :
  QuickDemo.fos_to_risk fos = Spec.logistic_at 10 1 fos.
Proof. exact (live_risk_is_logistic fos). Qed.

(** Water height rises with saturation, whatever the sign of the depth. *)
Lemma water_height_mono (w1 w2 z rise : R) :
  w1 <= w2 ->
  Np.clip (w1 * z + rise) 0.0 z <= Np.clip (w2 * z + rise) 0.0 z.
Proof.
  intros Hw. destruct (Rle_dec 0 z) as [Hz|Hz].
  - apply clip_mono. nra.
  - unfold Np.clip, Rmin, Rmax.
    repeat match goal with |- context [Rle_dec ?a ?b] =>
             destruct (Rle_dec a b) end; lra.
Qed.

Lemma driving_pos (tau : R) : 0 < Rmax tau 1e-5.
Proof. pose proof (Rmax_r tau 1e-5). lra. Qed.

Lemma fos_elem_antitone (s c0 p g z k w1 w2 rain dur : R) :
  0 <= tan (Np.radians p) -> w1 <= w2 ->
  Fos.fos_elem s c0 p g z k w2 rain dur <= Fos.fos_elem s c0 p g z k w1 rain dur.
Proof.
  intros Ht Hw. unfold Fos.fos_elem. cbv zeta.
  apply clip_mono. unfold Rdiv at 1 3.
  apply Rmult_le_compat_r.
  - apply Rlt_le, Rinv_0_lt_compat, driving_pos.
  - apply Rplus_le_compat_l, Rmult_le_compat_r; [exact Ht|].
    apply Rle_max_compat_r.
    pose proof (water_height_mono w1 w2 z
                  (Rmin (rain * 2.777e-7) k * (dur * 3600.0) / 0.3) Hw) as Hh.
    pose proof (pow2_ge_0 (cos (Np.radians (Np.clip s 0.1 89.9)))) as Hc.
    unfold Fos.GAMMA_W. nra.
Qed.

Lemma fos_elem_rain_capped (s c0 p g z k w r1 r2 dur : R) :
  k <= r1 * 2.777e-7 -> r1 <= r2 ->
  Fos.fos_elem s c0 p g z k w r1 dur = Fos.fos_elem s c0 p g z k w r2 dur.
Proof.
  intros Hk Hr. unfold Fos.fos_elem. cbv zeta.
  rewrite (Rmin_right (r1 * 2.777e-7) k) by exact Hk.
  rewrite (Rmin_right (r2 * 2.777e-7) k) by lra.
  reflexivity.
Qed.

Lemma rows_antitone (rain dur : R) (sl cs ph ga zs ks s1 s2 : list R) :
  Forall (fun p => 0 <= tan (Np.radians p)) ph ->
  Forall2 Rle s1 s2 ->
  Forall2 Rle (Fos.rows sl cs ph ga zs ks s2 rain dur)
              (Fos.rows sl cs ph ga zs ks s1 rain dur).
Proof.
  intros Hph Hs. revert sl cs ph ga zs ks Hph.
  induction Hs as [|w1 w2 s1 s2 Hw Hs IH];
    intros [|s sl] [|c0 cs] [|p ph] [|g ga] [|z zs] [|k ks] Hph;
    simpl; try constructor.
  - apply fos_elem_antitone; [now inversion Hph | exact Hw].
  - apply IH. now inversion Hph.
Qed.

Lemma compute_fos_some (sl el : list R) (sp : Fos.SoilParams) (sa : list R)
    (rain dur : R) (fos : list R) :
  Fos.compute_fos_vectorized sl el sp sa rain dur = Some fos ->
  Fos.same_shape sl sp sa = true /\
  fos = Fos.rows sl (Fos.c sp) (Fos.phi sp) (Fos.gamma sp) (Fos.depth sp)
          (Fos.ksat sp) sa rain dur.
Proof.
  unfold Fos.compute_fos_vectorized.
  destruct (Fos.same_shape sl sp sa); [|discriminate].
  intros E. injection E as <-. auto.
Qed.

(** Angles used in the worked examples. *)
Lemma radians_45 : Np.radians 45 = PI / 4.
Proof. unfold Np.radians. field. Qed.

Lemma radians_minus_45 : Np.radians (-45) = - (PI / 4).
Proof. unfold Np.radians. field. Qed.

Lemma sin_cos_PI4 : sin (PI / 4) * cos (PI / 4) = 1 / 2.
Proof.
  rewrite sin_PI4, cos_PI4.
  assert (H2 : sqrt 2 * sqrt 2 = 2) by (apply sqrt_sqrt; lra).
  assert (Hn : sqrt 2 <> 0) by (intros E; rewrite E in H2; lra).
  replace (1 / sqrt 2 * (1 / sqrt 2)) with (1 / (sqrt 2 * sqrt 2))
    by (field; exact Hn).
  rewrite H2. reflexivity.
Qed.

Lemma cos2_PI4 : cos (PI / 4) ^ 2 = 1 / 2.
Proof.
  rewrite <- sin_cos_PI4, sin_PI4, cos_PI4. simpl. ring.
Qed.

Ltac eval_minmax :=
  repeat match goal with
    | |- context [Rmax ?a ?b] =>
        first [ rewrite (Rmax_left a b) by lra
              | rewrite (Rmax_right a b) by lra ]
    | |- context [Rmin ?a ?b] =>
        first [ rewrite (Rmin_left a b) by lra
              | rewrite (Rmin_right a b) by lra ]
    end.

(** A 45 degree slope with a friction angle of -45 degrees. *)
Lemma fos_elem_45 (c0 g z k w rain dur : R) :
  Fos.fos_elem 45 c0 (-45) g z k w rain dur =
  Np.clip
    ((c0 + Rmax (g * z * (1 / 2)
                 - 9.81 * Np.clip (w * z + Rmin (rain * 2.777e-7) k
                                              * (dur * 3600.0) / 0.3) 0.0 z
                   * (1 / 2)) 0.0 * -1)
     / Rmax (g * z * (1 / 2)) 1e-5) 0.0 10.0.
Proof.
  unfold Fos.fos_elem, Fos.GAMMA_W. cbv zeta.
  rewrite (clip_inside 45) by lra.
  rewrite radians_45, radians_minus_45, tan_neg, tan_PI4, cos2_PI4.
  replace (g * z * sin (PI / 4) * cos (PI / 4))
    with (g * z * (sin (PI / 4) * cos (PI / 4))) by ring.
  rewrite sin_cos_PI4.
  replace (-(1)) with (-1) by ring.
  reflexivity.
Qed.

(** ** C1 *)

(** C1. For every grid whose arrays have one shape, [compute_fos_vectorized]
    returns one value per cell, every value lies in [0, 10], and the live
    logistic transform of every value lies in [0, 1]. *)
Theorem fos_and_risk_in_range
    (slope_deg elevation : list R) (soil_params : Fos.SoilParams)
    (current_saturation : list R) (rain dur : R) :
  Fos.same_shape slope_deg soil_params current_saturation = true ->
  exists fos,
    Fos.compute_fos_vectorized slope_deg elevation soil_params
      current_saturation rain dur = Some fos
    /\ length fos = length slope_deg
    /\ Forall (fun f => 0 <= f <= 10) fos
    /\ Forall (fun r => 0 <= r <= 1) (map LiveSim.risk fos).
Proof.
  intros Hshape. unfold Fos.compute_fos_vectorized. rewrite Hshape.
  eexists. split; [reflexivity|].
  apply same_shape_true in Hshape.
  destruct Hshape as (H1 & H2 & H3 & H4 & H5 & H6).
  split; [now apply rows_length|]. split.
  - apply rows_Forall. intros. apply fos_elem_range.
  - apply Forall_map, Forall_forall. intros f _.
    rewrite live_risk_is_logistic. apply logistic_at_range.
Qed.

Lemma fos_and_risk_in_range_witness :
  exists fos,
    Fos.compute_fos_vectorized [30; 12] [1500; 1620]
      (Fos.mkSoil [10; 8] [30; 28] [18; 19] [2; 1.5] [1e-6; 2e-6])
      [0.2; 0.6] 50 6 = Some fos
    /\ length fos = 2%nat
    /\ Forall (fun f => 0 <= f <= 10) fos
    /\ Forall (fun r => 0 <= r <= 1) (map LiveSim.risk fos).
Proof.
  apply (fos_and_risk_in_range [30; 12] [1500; 1620]
           (Fos.mkSoil [10; 8] [30; 28] [18; 19] [2; 1.5] [1e-6; 2e-6])
           [0.2; 0.6] 50 6).
  reflexivity.
Defined.

(** ** C2 *)

(** C2. One cycle of the saturation memory is, cell by cell,
    [clamp(prev * 0.985 + (rainfall / 100) * 0.08, 0.05, 1.0)], so every
    cell ends in [0.05, 1.0] whatever the rainfall. *)
Theorem update_saturation_is_clamp (saturation rain_grid : list R) :
  LiveSim.update_saturation saturation rain_grid =
    map2 (fun prev rainfall_mm_per_hr =>
            Spec.clamp (prev * 0.985 + (rainfall_mm_per_hr / 100) * 0.08)
                       0.05 1.0)
         saturation rain_grid
  /\ Forall (fun s => 0.05 <= s <= 1.0)
            (LiveSim.update_saturation saturation rain_grid)
  /\ length (LiveSim.update_saturation saturation rain_grid) =
       Nat.min (length saturation) (length rain_grid).
Proof.
  unfold LiveSim.update_saturation, LiveSim.decay_rate. cbv zeta.
  rewrite map_map2, map2_map_l, map2_map_r.
  split; [|split].
  - apply map2_ext. intros prev r.
    rewrite clip_is_clamp by lra. f_equal. lra.
  - apply map2_Forall. intros prev r. apply clip_range. lra.
  - apply map2_length.
Qed.

(** ** C3 *)

(** C3, as stated, fails: on a 45 degree slope with friction angle -45
    degrees, raising the saturation from 0 to 1 raises the FoS from 0.5 to
    0.9905. *)
Lemma fos_rises_with_saturation :
  Fos.compute_fos_vectorized [45] [1500]
    (Fos.mkSoil [30] [-45] [20] [2] [1e-6]) [0] 0 6 = Some [0.5]
  /\ Fos.compute_fos_vectorized [45] [1500]
    (Fos.mkSoil [30] [-45] [20] [2] [1e-6]) [1] 0 6 = Some [0.9905]
  /\ 0 <= 1 /\ 0.5 < 0.9905.
Proof.
  unfold Fos.compute_fos_vectorized. simpl.
  rewrite !fos_elem_45. unfold Np.clip.
  split; [|split; [|lra]].
  - do 2 f_equal. eval_minmax. lra.
  - do 2 f_equal. eval_minmax. lra.
Qed.

(** C3, amended. Where the tangent of every friction angle is non-negative
    (friction angles in [0, 90) degrees), a saturation array that is
    cell-wise larger gives a FoS array that is cell-wise no larger. *)
Theorem fos_antitone_in_saturation
    (slope_deg elevation : list R) (soil_params : Fos.SoilParams)
    (s1 s2 : list R) (rain dur : R) (fos1 fos2 : list R) :
  Forall (fun p => 0 <= tan (Np.radians p)) (Fos.phi soil_params) ->
  Forall2 Rle s1 s2 ->
  Fos.compute_fos_vectorized slope_deg elevation soil_params s1 rain dur
    = Some fos1 ->
  Fos.compute_fos_vectorized slope_deg elevation soil_params s2 rain dur
    = Some fos2 ->
  Forall2 Rle fos2 fos1.
Proof.
  intros Hphi Hs E1 E2.
  apply compute_fos_some in E1. destruct E1 as [_ ->].
  apply compute_fos_some in E2. destruct E2 as [_ ->].
  now apply rows_antitone.
Qed.

Lemma fos_antitone_in_saturation_witness :
  Forall2 Rle
    (Fos.rows [45] [10] [45] [18] [2] [1e-6] [0.8] 50 6)
    (Fos.rows [45] [10] [45] [18] [2] [1e-6] [0.2] 50 6).
Proof.
  apply (fos_antitone_in_saturation [45] [1500]
           (Fos.mkSoil [10] [45] [18] [2] [1e-6]) [0.2] [0.8] 50 6).
  - constructor; [|constructor]. rewrite radians_45, tan_PI4. lra.
  - constructor; [lra|constructor].
  - reflexivity.
  - reflexivity.
Defined.

(** ** C7 *)

(** The body of [compute_fos_vectorized] reads the rainfall intensity and
    the conductivity in one place, the minimum of line 61. *)
Lemma fos_elem_at_inf_rate (s c0 p g z k w rain dur : R) :
  Fos.fos_elem s c0 p g z k w rain dur
  = Fos.fos_at_inf_rate s c0 p g z w (Rmin (rain * 2.777e-7) k) dur.
Proof. reflexivity. Qed.

Lemma cos_clipped_slope_pos (s : R) :
  0 < cos (Np.radians (Np.clip s 0.1 89.9)).
Proof.
  pose proof (clip_range s 0.1 89.9 ltac:(lra)) as [Hlo Hhi].
  pose proof PI_RGT_0 as Hpi.
  apply cos_gt_0; unfold Np.radians; nra.
Qed.

(** While the water table stays inside the soil and the effective stress
    stays positive, a larger infiltration rate gives a strictly smaller
    FoS, unless the smaller rate already returns the ceiling 10. *)
Lemma fos_at_inf_rate_strict (s c0 p g z w m1 m2 dur : R) :
  0 < tan (Np.radians p) -> 0 <= c0 -> 0 < dur -> 0 <= w -> 0 <= z ->
  0 <= m1 < m2 ->
  w * z + m2 * (dur * 3600.0) / 0.3 <= z ->
  9.81 * (w * z + m2 * (dur * 3600.0) / 0.3) < g * z ->
  Fos.fos_at_inf_rate s c0 p g z w m1 dur < 10 ->
  Fos.fos_at_inf_rate s c0 p g z w m2 dur
  < Fos.fos_at_inf_rate s c0 p g z w m1 dur.
Proof.
  intros Ht Hc Hdur Hw Hz [Hm1 Hm] Hin Heff.
  unfold Fos.fos_at_inf_rate, Fos.GAMMA_W. cbv zeta.
  pose proof (cos_clipped_slope_pos s) as Hcos.
  set (a := Np.radians (Np.clip s 0.1 89.9)) in *.
  assert (Hc2 : 0 < cos a ^ 2) by (simpl; nra).
  set (h1 := w * z + m1 * (dur * 3600.0) / 0.3) in *.
  set (h2 := w * z + m2 * (dur * 3600.0) / 0.3) in *.
  assert (Hh : h1 < h2) by (unfold h1, h2; nra).
  assert (Hh1 : 0 <= h1) by (unfold h1; nra).
  rewrite (clip_inside h1 0.0 z) by lra.
  rewrite (clip_inside h2 0.0 z) by lra.
  set (c2 := cos a ^ 2) in *.
  assert (Hs2 : 0 < g * z * c2 - 9.81 * h2 * c2) by nra.
  assert (Hs1 : g * z * c2 - 9.81 * h2 * c2 < g * z * c2 - 9.81 * h1 * c2)
    by nra.
  rewrite (Rmax_left (g * z * c2 - 9.81 * h1 * c2) 0.0) by lra.
  rewrite (Rmax_left (g * z * c2 - 9.81 * h2 * c2) 0.0) by lra.
  set (e1 := g * z * c2 - 9.81 * h1 * c2) in *.
  set (e2 := g * z * c2 - 9.81 * h2 * c2) in *.
  pose proof (driving_pos (g * z * sin a * cos a)) as Hd.
  set (d := Rmax (g * z * sin a * cos a) 1e-5) in *.
  set (t := tan (Np.radians p)) in *.
  assert (Hx : (c0 + e2 * t) / d < (c0 + e1 * t) / d).
  { unfold Rdiv. apply Rmult_lt_compat_r; [now apply Rinv_0_lt_compat|].
    nra. }
  assert (Hx1 : 0 < (c0 + e1 * t) / d).
  { unfold Rdiv. apply Rmult_lt_0_compat; [nra|].
    now apply Rinv_0_lt_compat. }
  set (x1 := (c0 + e1 * t) / d) in *. set (x2 := (c0 + e2 * t) / d) in *.
  intros Hceil.
  unfold Np.clip, Rmin, Rmax in *.
  repeat match goal with
         | H : context [Rle_dec ?u ?v] |- _ => destruct (Rle_dec u v)
         | |- context [Rle_dec ?u ?v] => destruct (Rle_dec u v)
         end; lra.
Qed.

(** The columns of a table of one shape have an entry wherever the
    conductivity column has one. *)
Lemma cell_of_conductivity (sl el : list R) (sp : Fos.SoilParams)
    (sa : list R) (rain dur : R) (fos : list R) (i : nat) (k : R) :
  Fos.compute_fos_vectorized sl el sp sa rain dur = Some fos ->
  nth_error (Fos.ksat sp) i = Some k ->
  exists s c0 p g z w,
    nth_error sl i = Some s /\ nth_error (Fos.c sp) i = Some c0
    /\ nth_error (Fos.phi sp) i = Some p
    /\ nth_error (Fos.gamma sp) i = Some g
    /\ nth_error (Fos.depth sp) i = Some z
    /\ nth_error sa i = Some w.
Proof.
  intros E Hk. apply compute_fos_some in E. destruct E as [Hshape _].
  apply same_shape_true in Hshape.
  destruct Hshape as (Hc & Hp & Hg & Hz & Hks & Hsa).
  assert (Hi : (i < length (Fos.ksat sp))%nat)
    by (apply nth_error_Some; congruence).
  assert (Hget : forall l : list R, length l = length sl ->
                   exists x, nth_error l i = Some x).
  { intros l Hl. destruct (nth_error l i) as [x|] eqn:Hx; [now exists x|].
    apply nth_error_None in Hx. lia. }
  destruct (Hget sl eq_refl) as [s Hs].
  destruct (Hget _ Hc) as [c0 Hc0]. destruct (Hget _ Hp) as [p Hp0].
  destruct (Hget _ Hg) as [g Hg0]. destruct (Hget _ Hz) as [z Hz0].
  destruct (Hget _ Hsa) as [w Hw0].
  exists s, c0, p, g, z, w. repeat split; assumption.
Qed.

(** C7. The infiltration rate is [min(rain_rate_ms, ksat)]: at every cell
    the returned FoS is the value of lines 62-100 at that minimum.  So at a
    cell whose conductivity is at most the rainfall rate in m/s a larger
    rainfall intensity returns the same FoS; and where the minimum does
    grow with the rainfall (the rate was below the conductivity), the water
    table stays inside the soil and the effective stress stays positive,
    the FoS strictly drops, unless it was at the ceiling 10. *)
Theorem fos_capped_by_conductivity
    (slope_deg elevation : list R) (soil_params : Fos.SoilParams)
    (current_saturation : list R) (r1 r2 dur : R) (fos1 fos2 : list R)
    (i : nat) (k : R) :
  nth_error (Fos.ksat soil_params) i = Some k ->
  Fos.compute_fos_vectorized slope_deg elevation soil_params
    current_saturation r1 dur = Some fos1 ->
  Fos.compute_fos_vectorized slope_deg elevation soil_params
    current_saturation r2 dur = Some fos2 ->
  exists s c0 p g z w f1 f2,
    nth_error slope_deg i = Some s
    /\ nth_error (Fos.c soil_params) i = Some c0
    /\ nth_error (Fos.phi soil_params) i = Some p
    /\ nth_error (Fos.gamma soil_params) i = Some g
    /\ nth_error (Fos.depth soil_params) i = Some z
    /\ nth_error current_saturation i = Some w
    /\ nth_error fos1 i = Some f1 /\ nth_error fos2 i = Some f2
    /\ f1 = Fos.fos_at_inf_rate s c0 p g z w (Rmin (r1 * 2.777e-7) k) dur
    /\ f2 = Fos.fos_at_inf_rate s c0 p g z w (Rmin (r2 * 2.777e-7) k) dur
    /\ (k <= r1 * 2.777e-7 -> r1 <= r2 -> f1 = f2)
    /\ (0 < tan (Np.radians p) -> 0 <= c0 -> 0 < dur -> 0 <= w -> 0 <= z ->
        0 <= Rmin (r1 * 2.777e-7) k < Rmin (r2 * 2.777e-7) k ->
        w * z + Rmin (r2 * 2.777e-7) k * (dur * 3600.0) / 0.3 <= z ->
        9.81 * (w * z + Rmin (r2 * 2.777e-7) k * (dur * 3600.0) / 0.3)
        < g * z ->
        f1 < 10 -> f2 < f1).
Proof.
  intros Hk E1 E2.
  destruct (cell_of_conductivity _ _ _ _ _ _ _ _ _ E1 Hk)
    as (s & c0 & p & g & z & w & Hs & Hc & Hp & Hg & Hz & Hw).
  apply compute_fos_some in E1. destruct E1 as [_ ->].
  apply compute_fos_some in E2. destruct E2 as [_ ->].
  exists s, c0, p, g, z, w, (Fos.fos_elem s c0 p g z k w r1 dur),
    (Fos.fos_elem s c0 p g z k w r2 dur).
  rewrite !rows_nth_error, Hs, Hc, Hp, Hg, Hz, Hk, Hw.
  repeat (split; [reflexivity|]).
  split; [now apply fos_elem_rain_capped|].
  rewrite !fos_elem_at_inf_rate.
  intros Ht Hc0 Hdur Hw0 Hz0 Hm Hin Heff Hceil.
  now apply fos_at_inf_rate_strict.
Qed.

(** A 45 degree slope with a friction angle of 45 degrees. *)
Lemma fos_elem_45_45 (c0 g z k w rain dur : R) :
  Fos.fos_elem 45 c0 45 g z k w rain dur =
  Np.clip
    ((c0 + Rmax (g * z * (1 / 2)
                 - 9.81 * Np.clip (w * z + Rmin (rain * 2.777e-7) k
                                              * (dur * 3600.0) / 0.3) 0.0 z
                   * (1 / 2)) 0.0 * 1)
     / Rmax (g * z * (1 / 2)) 1e-5) 0.0 10.0.
Proof.
  unfold Fos.fos_elem, Fos.GAMMA_W. cbv zeta.
  rewrite (clip_inside 45) by lra.
  rewrite radians_45, tan_PI4, cos2_PI4.
  replace (g * z * sin (PI / 4) * cos (PI / 4))
    with (g * z * (sin (PI / 4) * cos (PI / 4))) by ring.
  rewrite sin_cos_PI4. reflexivity.
Qed.

Lemma fos_light_rain_below_ceiling :
  Fos.fos_elem 45 10 45 18 2 1e-6 0.2 1 6 < 10.
Proof.
  rewrite fos_elem_45_45.
  rewrite (Rmin_left (1 * 2.777e-7) 1e-6) by lra.
  rewrite (clip_inside (0.2 * 2 + 1 * 2.777e-7 * (6 * 3600.0) / 0.3)) by lra.
  rewrite (Rmax_left _ 0.0) by lra.
  rewrite (Rmax_left _ 1e-5) by lra.
  replace (18 * 2 * (1 / 2)) with 18 by lra.
  apply Rle_lt_trans with
    ((10 + (18 - 9.81 * (0.2 * 2 + 1 * 2.777e-7 * (6 * 3600.0) / 0.3)
                 * (1 / 2)) * 1) / 18); [|lra].
  unfold Np.clip.
  rewrite Rmax_left by lra. apply Rmin_l.
Qed.

Lemma fos_capped_by_conductivity_witness :
  Fos.fos_elem 45 10 45 18 2 1e-6 0.2 50 6
  = Fos.fos_elem 45 10 45 18 2 1e-6 0.2 100 6
  /\ Fos.fos_elem 45 10 45 18 2 1e-6 0.2 50 6
     < Fos.fos_elem 45 10 45 18 2 1e-6 0.2 1 6.
Proof.
  split.
  - destruct (fos_capped_by_conductivity [45] [1500]
                (Fos.mkSoil [10] [45] [18] [2] [1e-6]) [0.2] 50 100 6
                (Fos.rows [45] [10] [45] [18] [2] [1e-6] [0.2] 50 6)
                (Fos.rows [45] [10] [45] [18] [2] [1e-6] [0.2] 100 6)
                0%nat 1e-6 eq_refl eq_refl eq_refl)
      as (s & c0 & p & g & z & w & f1 & f2 & Hs & Hc & Hp & Hg & Hz & Hw
          & H1 & H2 & _ & _ & Hcap & _).
    injection H1 as <-. injection H2 as <-.
    apply Hcap; lra.
  - destruct (fos_capped_by_conductivity [45] [1500]
                (Fos.mkSoil [10] [45] [18] [2] [1e-6]) [0.2] 1 50 6
                (Fos.rows [45] [10] [45] [18] [2] [1e-6] [0.2] 1 6)
                (Fos.rows [45] [10] [45] [18] [2] [1e-6] [0.2] 50 6)
                0%nat 1e-6 eq_refl eq_refl eq_refl)
      as (s & c0 & p & g & z & w & f1 & f2 & Hs & Hc & Hp & Hg & Hz & Hw
          & H1 & H2 & _ & _ & _ & Hstrict).
    injection Hs as <-. injection Hc as <-. injection Hp as <-.
    injection Hg as <-. injection Hz as <-. injection Hw as <-.
    injection H1 as <-. injection H2 as <-.
    rewrite (Rmin_left (1 * 2.777e-7) 1e-6) in Hstrict by lra.
    rewrite (Rmin_right (50 * 2.777e-7) 1e-6) in Hstrict by lra.
    apply Hstrict; try lra.
    + rewrite radians_45, tan_PI4. lra.
    + exact fos_light_rain_below_ceiling.
Defined.

(** ** C8 *)

(** C8, as stated, fails for the backtest: at FoS 1.1 the backtest's risk is
    1/2, the value of a curve centred at 1.1, while the curve centred at 1
    with steepness 5 is below 1/2 there. *)
Lemma backtest_risk_midpoint :
  Backtest.risk 1.1 = 1 / 2 /\ Spec.logistic 5 1.1 < 1 / 2.
Proof.
  split.
  - unfold Backtest.risk.
    replace (5.0 * (1.1 - 1.1)) with 0 by lra. rewrite exp_0. lra.
  - unfold Spec.logistic, Spec.logistic_at.
    assert (He : 1 < exp (5 * (1.1 - 1))).
    { pose proof (exp_increasing 0 (5 * (1.1 - 1))) as Hi.
      rewrite exp_0 in Hi. apply Hi. lra. }
    apply (Rmult_lt_reg_r (1 + exp (5 * (1.1 - 1)))); [lra|].
    unfold Rdiv. rewrite Rmult_assoc, Rinv_l by lra. lra.
Qed.

(** C8, amended. The live transform is the logistic curve with steepness 10
    and offset [fos - 1]; the backtest's has steepness 5 and offset
    [fos - 1.1]. *)
Theorem risk_transforms (fos : R) :
  LiveSim.risk fos = Spec.logistic 10 fos
  /\ Backtest.risk fos = Spec.logistic_at 5 1.1 fos.
Proof.
  split.
  - apply live_risk_is_logistic.
  - apply backtest_risk_is_logistic.
Qed.

(** ** The rainfall field *)

Lemma fold_max_ge_init (l : list R) (x : R) : x <= fold_left Rmax l x.
Proof.
  revert x. induction l as [|y l IH]; intros x; simpl; [lra|].
  eapply Rle_trans; [apply (Rmax_l x y)|apply IH].
Qed.

Lemma fold_max_ge_elem (l : list R) (x y : R) :
  In y l -> y <= fold_left Rmax l x.
Proof.
  revert x. induction l as [|z l IH]; intros x; simpl; [tauto|].
  intros [->|Hin]; [|now apply IH].
  eapply Rle_trans; [apply (Rmax_r x y)|apply fold_max_ge_init].
Qed.

Lemma fold_max_in (l : list R) (x : R) :
  fold_left Rmax l x = x \/ In (fold_left Rmax l x) l.
Proof.
  revert x. induction l as [|y l IH]; intros x; simpl; [now left|].
  destruct (IH (Rmax x y)) as [E|Hin]; [|now right; right].
  rewrite E. unfold Rmax. destruct (Rle_dec x y); [right; now left|now left].
Qed.

Lemma np_max_spec (l : list R) (m : R) :
  Np.max l = Some m -> In m l /\ Forall (fun y => y <= m) l.
Proof.
  destruct l as [|x l]; simpl; [discriminate|].
  intros E. injection E as <-. split.
  - destruct (fold_max_in l x) as [->|Hin]; [now left|now right].
  - constructor; [apply fold_max_ge_init|].
    apply Forall_forall. intros y Hy. now apply fold_max_ge_elem.
Qed.

Lemma np_max_some (l : list R) : l <> [] -> exists m, Np.max l = Some m.
Proof. destruct l as [|x l]; [congruence|]. intros _. simpl. eauto. Qed.

Lemma np_max_of_peak (l : list R) (x : R) :
  In x l -> Forall (fun y => y <= x) l -> Np.max l = Some x.
Proof.
  intros Hin Hall.
  destruct (np_max_some l) as [m Hm]; [now destruct l|].
  destruct (np_max_spec l m Hm) as [Hmin Hmall].
  rewrite Forall_forall in Hall, Hmall.
  pose proof (Hall m Hmin). pose proof (Hmall x Hin).
  rewrite Hm. f_equal. lra.
Qed.

Lemma zeros_plus (b : list R) : map2 Rplus (repeat 0 (length b)) b = b.
Proof. induction b as [|y b IH]; simpl; [reflexivity|]. rewrite IH. f_equal. lra. Qed.

Lemma floor_pos (d2 : R) : 0 < Rmax d2 1e-6.
Proof. pose proof (Rmax_r d2 1e-6). lra. Qed.

Lemma idw_term_zero (s : LiveSim.Reading) (la lo : R) :
  LiveSim.val s = 0 -> LiveSim.idw_term s la lo = 0.
Proof. intros E. unfold LiveSim.idw_term. cbv zeta. rewrite E. unfold Rdiv. ring. Qed.

Lemma idw_term_nonneg (s : LiveSim.Reading) (la lo : R) :
  0 <= LiveSim.val s -> 0 <= LiveSim.idw_term s la lo.
Proof.
  intros H. unfold LiveSim.idw_term. cbv zeta. unfold Rdiv.
  apply Rmult_le_pos; [exact H|].
  apply Rlt_le, Rinv_0_lt_compat, floor_pos.
Qed.

Lemma idw_term_le_peak (s : LiveSim.Reading) (la lo : R) :
  0 <= LiveSim.val s ->
  LiveSim.idw_term s la lo <= LiveSim.val s / 1e-6.
Proof.
  intros H. unfold LiveSim.idw_term. cbv zeta. unfold Rdiv.
  apply Rmult_le_compat_l; [exact H|].
  apply Rinv_le_contravar; [lra|apply Rmax_r].
Qed.

Lemma idw_term_at_station (s : LiveSim.Reading) :
  LiveSim.idw_term s (LiveSim.lat s) (LiveSim.lon s) = LiveSim.val s / 1e-6.
Proof.
  unfold LiveSim.idw_term. cbv zeta.
  replace ((LiveSim.lat s - LiveSim.lat s) ^ 2
           + (LiveSim.lon s - LiveSim.lon s) ^ 2) with 0 by ring.
  rewrite Rmax_right by lra. reflexivity.
Qed.

Lemma accumulate_single (s : LiveSim.Reading) (lats lons : list R) :
  length lats = length lons ->
  LiveSim.accumulate [s] lats lons (length lats) =
  map2 (LiveSim.idw_term s) lats lons.
Proof.
  intros Hlen. unfold LiveSim.accumulate. simpl.
  replace (length lats)
    with (length (map2 (LiveSim.idw_term s) lats lons))
    by (rewrite map2_length, <- Hlen; apply Nat.min_id).
  apply zeros_plus.
Qed.

Lemma accumulate_zero (clean : list LiveSim.Reading) (lats lons : list R) :
  Forall (fun s => LiveSim.val s = 0) clean ->
  length lats = length lons ->
  LiveSim.accumulate clean lats lons (length lats) = repeat 0 (length lats).
Proof.
  intros Hz Hlen. unfold LiveSim.accumulate.
  induction Hz as [|s clean Hs Hz IH]; simpl; [reflexivity|].
  replace (map2 Rplus (repeat 0 (length lats))
             (map2 (LiveSim.idw_term s) lats lons))
    with (repeat 0 (length lats)); [exact IH|].
  clear IH. revert lons Hlen.
  induction lats as [|la lats IHl]; intros [|lo lons] Hlen; simpl;
    try discriminate; [reflexivity|].
  rewrite <- IHl by (simpl in Hlen; congruence).
  f_equal. rewrite idw_term_zero by exact Hs. lra.
Qed.

Lemma fold_max_zeros (n : nat) : fold_left Rmax (repeat 0 n) 0 = 0.
Proof.
  induction n as [|n IH]; simpl; [reflexivity|].
  rewrite Rmax_left by lra. exact IH.
Qed.

Lemma fold_max_const (l : list R) (x : R) :
  Forall (fun y => y = x) l -> fold_left Rmax l x = x.
Proof.
  induction 1 as [|y l -> _ IH]; simpl; [reflexivity|].
  rewrite Rmax_left by lra. exact IH.
Qed.

Lemma np_div_0_0 : np_div 0 0 = NaN.
Proof.
  unfold np_div. destruct (Req_dec_T 0 0) as [_|N]; [|congruence].
  reflexivity.
Qed.

Lemma np_div_finite (x m : R) : m <> 0 -> np_div x m = Finite (x / m).
Proof.
  intros N. unfold np_div. destruct (Req_dec_T m 0); [contradiction|reflexivity].
Qed.

Lemma map_repeat {A B} (f : A -> B) (x : A) (n : nat) :
  map f (repeat x n) = repeat (f x) n.
Proof. induction n; simpl; congruence. Qed.

(** The empty reading set gives the all-zero field. *)
Lemma rainfall_field_empty (lats lons : list R) (n : nat) :
  LiveSim.rainfall_field [] lats lons n = Py.Ok (repeat (Finite 0) n).
Proof. unfold LiveSim.rainfall_field. now rewrite map_repeat. Qed.

(** One station with a positive value, standing on a cell: that cell gets
    the station's value. *)
Lemma rainfall_field_single_station (s : LiveSim.Reading) (lats lons : list R)
    (i : nat) :
  0 < LiveSim.val s ->
  length lats = length lons ->
  nth_error lats i = Some (LiveSim.lat s) ->
  nth_error lons i = Some (LiveSim.lon s) ->
  exists g,
    LiveSim.rainfall_field [s] lats lons (length lats) = Py.Ok g
    /\ nth_error g i = Some (Finite (LiveSim.val s)).
Proof.
  intros Hv Hlen Hla Hlo. unfold LiveSim.rainfall_field.
  rewrite accumulate_single by exact Hlen.
  set (acc := map2 (LiveSim.idw_term s) lats lons).
  assert (Hi : nth_error acc i = Some (LiveSim.val s / 1e-6)).
  { unfold acc. rewrite map2_nth_error, Hla, Hlo.
    now rewrite idw_term_at_station. }
  assert (Hmax : Np.max acc = Some (LiveSim.val s / 1e-6)).
  { apply np_max_of_peak.
    - eapply nth_error_In; exact Hi.
    - unfold acc. apply map2_Forall. intros la lo.
      apply idw_term_le_peak. lra. }
  rewrite Hmax. simpl. eexists. split; [reflexivity|].
  rewrite !nth_error_map, Hi. simpl.
  rewrite np_div_finite by lra. simpl. do 2 f_equal. field. lra.
Qed.

Lemma rescale_zero_field (n : nat) (vmax : R) :
  map (fun x => np_mul x vmax) (map (fun x => np_div x 0) (repeat 0 n)) =
  repeat NaN n.
Proof. rewrite !map_repeat, np_div_0_0. reflexivity. Qed.

(** A non-empty set of readings that are all zero, on a non-empty grid:
    the field's maximum is zero and every cell becomes 0/0. *)
Lemma field_of_zero_readings (clean : list LiveSim.Reading)
    (lats lons : list R) :
  clean <> [] ->
  Forall (fun s => LiveSim.val s = 0) clean ->
  length lats = length lons ->
  lats <> [] ->
  LiveSim.rainfall_field clean lats lons (length lats) =
  Py.Ok (repeat NaN (length lats)).
Proof.
  intros Hne Hz Hlen Hgrid. unfold LiveSim.rainfall_field.
  destruct clean as [|s0 rest]; [congruence|].
  rewrite accumulate_zero by assumption.
  destruct lats as [|la lats]; [congruence|].
  simpl length. simpl repeat. unfold Np.max.
  rewrite fold_max_zeros.
  change (0 :: repeat 0 (length lats)) with (repeat 0 (S (length lats))).
  now rewrite rescale_zero_field.
Qed.

Lemma as_reals_nan (n : nat) : LiveSim.as_reals (repeat NaN (S n)) = None.
Proof. reflexivity. Qed.

Lemma as_reals_finite {A} (f : A -> R) (l : list A) :
  LiveSim.as_reals (map (fun x => Finite (f x)) l) = Some (map f l).
Proof. induction l as [|x l IH]; simpl; [reflexivity|]. now rewrite IH. Qed.

Lemma accumulate_nonneg (clean : list LiveSim.Reading) (lats lons : list R)
    (n : nat) :
  Forall (fun s => 0 <= LiveSim.val s) clean ->
  Forall (fun x => 0 <= x) (LiveSim.accumulate clean lats lons n).
Proof.
  intros Hv. unfold LiveSim.accumulate.
  assert (H0 : Forall (fun x => 0 <= x) (repeat 0 n)).
  { apply Forall_forall. intros x Hx. apply repeat_spec in Hx. lra. }
  revert H0. generalize (repeat 0 n) as grid.
  induction Hv as [|s clean Hs Hv IH]; intros grid Hg; simpl; [exact Hg|].
  apply IH. clear IH.
  revert lats lons. induction Hg as [|x grid Hx Hg IHg];
    intros [|la lats] [|lo lons]; simpl; constructor.
  - pose proof (idw_term_nonneg s la lo Hs). lra.
  - apply IHg.
Qed.

(** With non-negative readings the field is either finite and non-negative
    in every cell, or NaN in every cell. *)
Lemma rainfall_field_finite_or_nan (clean : list LiveSim.Reading)
    (lats lons : list R) (n : nat) (g : list npfloat) :
  Forall (fun s => 0 <= LiveSim.val s) clean ->
  LiveSim.rainfall_field clean lats lons n = Py.Ok g ->
  (exists rs, LiveSim.as_reals g = Some rs /\ Forall (fun x => 0 <= x) rs)
  \/ Forall (fun a => a = NaN) g.
Proof.
  intros Hv. unfold LiveSim.rainfall_field.
  destruct clean as [|s0 rest].
  - intros E. injection E as <-. left.
    rewrite (as_reals_finite (fun x => x)), map_id. eexists. split; [reflexivity|].
    apply Forall_forall. intros x Hx. apply repeat_spec in Hx. lra.
  - pose proof (accumulate_nonneg (s0 :: rest) lats lons n Hv) as Hacc.
    destruct (Np.max (LiveSim.accumulate (s0 :: rest) lats lons n))
      as [m|] eqn:Hm; [|discriminate].
    intros E. injection E as <-.
    destruct (np_max_spec _ _ Hm) as [Hin Hle].
    rewrite Forall_forall in Hacc, Hle.
    assert (Hm0 : 0 <= m) by now apply Hacc.
    assert (Hvmax : 0 <= fold_left Rmax (map LiveSim.val rest) (LiveSim.val s0)).
    { eapply Rle_trans; [|apply fold_max_ge_init]. now inversion Hv. }
    destruct (Req_dec_T m 0) as [E0|N0].
    + right. rewrite map_map. apply Forall_map, Forall_forall. intros x Hx.
      assert (x = 0) as -> by (pose proof (Hacc x Hx); pose proof (Hle x Hx); lra).
      subst m. now rewrite np_div_0_0.
    + left. rewrite map_map.
      rewrite (map_ext _ (fun x => Finite (x / m *
                 fold_left Rmax (map LiveSim.val rest) (LiveSim.val s0))))
        by (intros x; now rewrite np_div_finite).
      rewrite as_reals_finite. eexists. split; [reflexivity|].
      apply Forall_map, Forall_forall. intros x Hx.
      apply Rmult_le_pos; [|exact Hvmax].
      unfold Rdiv. apply Rmult_le_pos; [now apply Hacc|].
      apply Rlt_le, Rinv_0_lt_compat. lra.
Qed.

(** What the simulated stations report is never negative. *)
Lemma simulate_readings_nonneg (h : Host) (base_rain : R) (k : nat)
    (stations : list LiveSim.Station) :
  Forall (fun s => 0 <= LiveSim.val s)
         (LiveSim.simulate_readings h base_rain k stations).
Proof.
  revert k. induction stations as [|s rest IH]; intros k; simpl; constructor.
  - simpl. eapply Rle_trans; [|apply Rmax_r]. lra.
  - apply IH.
Qed.

(** When the base rain is low and the draws are unlucky, every station
    reports exactly zero: negative values are raised to [0.0]. *)
Lemma simulate_readings_all_zero (h : Host) (base_rain : R) (k : nat)
    (stations : list LiveSim.Station) :
  (forall j, random_tape h j = 0.1) ->
  base_rain <= 4 ->
  Forall (fun s => LiveSim.val s = 0)
         (LiveSim.simulate_readings h base_rain k stations).
Proof.
  intros Htape Hbase. revert k.
  induction stations as [|s rest IH]; intros k; simpl; constructor.
  - simpl. unfold LiveSim.uniform. rewrite !Htape.
    destruct (Rlt_dec 0.1 0.1) as [Hlt|_]; [lra|].
    rewrite Rmax_right by lra. lra.
  - apply IH.
Qed.

(** ** C5 *)

(** C5. The empty reading set gives the all-zero field, and a station of
    positive value [V] standing on a cell gives that cell the value [V]; for
    [V = 0] the code does not: a single station reporting 0 mm/hr at the
    coordinates of the first cell makes that cell, and every other cell,
    NaN. *)
Theorem single_zero_station_gives_nan :
  LiveSim.rainfall_field [LiveSim.mkReading "S1" 31.10 77.10 0]
    [31.10; 31.20] [77.10; 77.20] 2
  = Py.Ok [NaN; NaN].
Proof.
  apply (field_of_zero_readings [LiveSim.mkReading "S1" 31.10 77.10 0]
           [31.10; 31.20] [77.10; 77.20]).
  - discriminate.
  - constructor; [reflexivity|constructor].
  - reflexivity.
  - discriminate.
Qed.

(** ** C6 *)

(** C6. The rescaling divides by the field's maximum without a guard: for
    every non-empty reading set whose values are all zero and every
    non-empty grid, the call returns a field of the grid's size in which no
    cell is a number. *)
Theorem zero_readings_field_is_nan (clean : list LiveSim.Reading)
    (lats lons : list R) :
  clean <> [] ->
  Forall (fun s => LiveSim.val s = 0) clean ->
  length lats = length lons ->
  lats <> [] ->
  exists g,
    LiveSim.rainfall_field clean lats lons (length lats) = Py.Ok g
    /\ length g = length lats
    /\ Forall (fun a => a = NaN) g
    /\ LiveSim.as_reals g = None.
Proof.
  intros Hne Hz Hlen Hgrid.
  exists (repeat NaN (length lats)).
  split; [now apply field_of_zero_readings|].
  split; [apply repeat_length|]. split.
  - apply Forall_forall. intros a Ha. now apply repeat_spec in Ha.
  - destruct lats; [congruence|]. reflexivity.
Qed.

Lemma zero_readings_field_is_nan_witness :
  exists g,
    LiveSim.rainfall_field
      [ LiveSim.mkReading "S1" 31.10 77.10 0;
        LiveSim.mkReading "S2" 31.20 77.20 0;
        LiveSim.mkReading "S3" 31.05 77.15 0 ]
      [31.10; 31.12] [77.10; 77.18] (length [31.10; 31.12]) = Py.Ok g
    /\ length g = length [31.10; 31.12]
    /\ Forall (fun a => a = NaN) g
    /\ LiveSim.as_reals g = None.
Proof.
  apply (zero_readings_field_is_nan
           [ LiveSim.mkReading "S1" 31.10 77.10 0;
             LiveSim.mkReading "S2" 31.20 77.20 0;
             LiveSim.mkReading "S3" 31.05 77.15 0 ]
           [31.10; 31.12] [77.10; 77.18]).
  - discriminate.
  - repeat constructor.
  - reflexivity.
  - discriminate.
Defined.

(** ** C10 *)

Lemma update_saturation_nth_error (saturation rain_grid : list R) (i : nat) :
  nth_error (LiveSim.update_saturation saturation rain_grid) i =
  match nth_error saturation i, nth_error rain_grid i with
  | Some prev, Some r =>
      Some (Np.clip (prev * LiveSim.decay_rate + r / 100.0 * 0.08) 0.05 1.0)
  | _, _ => None
  end.
Proof.
  unfold LiveSim.update_saturation. cbv zeta.
  rewrite map_map2, map2_map_l, map2_map_r. apply map2_nth_error.
Qed.

(** On a non-empty grid, with arrays of the grid's size, the call returns. *)
Lemma cycle_fos_returns (df : Frame.DataFrame) (saturation rain_grid : list R) :
  rain_grid <> [] ->
  length saturation = Frame.len df ->
  exists fos, LiveSim.cycle_fos df saturation rain_grid = Some fos
              /\ length fos = Frame.len df.
Proof.
  intros Hne Hsat. unfold LiveSim.cycle_fos.
  destruct (np_max_some rain_grid Hne) as [m ->].
  unfold Fos.compute_fos_vectorized.
  assert (Hshape : Fos.same_shape (Frame.column Frame.slope df)
                     (Frame.soil_params df) saturation = true).
  { apply same_shape_true. unfold Frame.soil_params, Frame.column. simpl.
    rewrite !length_map. unfold Frame.len in Hsat. repeat split; auto. }
  rewrite Hshape. eexists. split; [reflexivity|].
  apply same_shape_true in Hshape.
  destruct Hshape as (H1 & H2 & H3 & H4 & H5 & H6).
  rewrite rows_length by assumption.
  unfold Frame.column, Frame.len. apply length_map.
Qed.



(** ** C4 *)

(** Decide the comparisons of constants that guard a branch, innermost
    first. *)
Ltac decide_R :=
  repeat (simpl;
          match goal with
          | |- context [Rle_dec ?a ?b] =>
              first
                [ let H := fresh in
                  assert (H : a <= b) by lra;
                  destruct (Rle_dec a b); [clear H|contradiction]
                | let H := fresh in
                  assert (H : ~ a <= b) by lra;
                  destruct (Rle_dec a b); [contradiction|clear H] ]
          | |- context [Rlt_dec ?a ?b] =>
              first
                [ let H := fresh in
                  assert (H : a < b) by lra;
                  destruct (Rlt_dec a b); [clear H|contradiction]
                | let H := fresh in
                  assert (H : ~ a < b) by lra;
                  destruct (Rlt_dec a b); [contradiction|clear H] ]
          end).

(** The policy of the specification on its two examples. *)
Lemma spec_policy_examples :
  Spec.filter_anomalies
    [ LiveSim.mkReading "S1" 31.10 77.10 20;
      LiveSim.mkReading "S2" 31.20 77.20 22;
      LiveSim.mkReading "S3" 31.05 77.15 18;
      LiveSim.mkReading "S4" 31.15 77.05 9999 ]
  = [ LiveSim.mkReading "S1" 31.10 77.10 20;
      LiveSim.mkReading "S2" 31.20 77.20 22;
      LiveSim.mkReading "S3" 31.05 77.15 18 ]
  /\ Spec.filter_anomalies
       [ LiveSim.mkReading "S1" 31.10 77.10 30;
         LiveSim.mkReading "S2" 31.20 77.20 30;
         LiveSim.mkReading "S3" 31.05 77.15 30 ]
     = [ LiveSim.mkReading "S1" 31.10 77.10 30;
         LiveSim.mkReading "S2" 31.20 77.20 30;
         LiveSim.mkReading "S3" 31.05 77.15 30 ].
Proof.
  split.
  - unfold Spec.filter_anomalies, Spec.threshold, Spec.median, Spec.sort,
      Spec.K, Spec.CEILING, Spec.plausible.
    unfold Rmax. decide_R. reflexivity.
  - unfold Spec.filter_anomalies, Spec.threshold, Spec.median, Spec.sort,
      Spec.K, Spec.CEILING, Spec.plausible.
    unfold Rmax. decide_R. reflexivity.
Qed.

Lemma filter_all {A} (f : A -> bool) (l : list A) :
  Forall (fun x => f x = true) l -> filter f l = l.
Proof.
  induction 1 as [|x l Hx _ IH]; simpl; [reflexivity|].
  now rewrite Hx, IH.
Qed.

Lemma filter_id_Forall {A} (f : A -> bool) (l : list A) :
  filter f l = l -> Forall (fun x => f x = true) l.
Proof.
  induction l as [|x l IH]; simpl; [constructor|].
  destruct (f x) eqn:Hx.
  - intros E. injection E as E. constructor; auto.
  - intros E. pose proof (filter_length_le f l) as Hlen.
    rewrite E in Hlen. simpl in Hlen. lia.
Qed.

Lemma plausible_true (thr : R) (r : LiveSim.Reading) :
  Spec.plausible thr r = true <-> LiveSim.val r <= thr.
Proof.
  unfold Spec.plausible. destruct (Rlt_dec thr (LiveSim.val r)); split;
    intros H; try discriminate; try reflexivity; lra.
Qed.

Lemma threshold_ge_ceiling (values : list R) : 200 <= Spec.threshold values.
Proof. unfold Spec.threshold, Spec.CEILING. apply Rmax_r. Qed.

(** C4, as stated, fails on the class that the source defines: the reading
    9999 exceeds the threshold [max(median * K, CEILING) = 200] of its cycle
    and is still in the output. *)
Lemma fallback_filter_keeps_fault :
  Spec.threshold [20; 22; 18; 9999] = 200
  /\ In (LiveSim.mkReading "S4" 31.15 77.05 9999)
        (LiveSim.SensorFusionEngine.filter_anomalies
           [ LiveSim.mkReading "S1" 31.10 77.10 20;
             LiveSim.mkReading "S2" 31.20 77.20 22;
             LiveSim.mkReading "S3" 31.05 77.15 18;
             LiveSim.mkReading "S4" 31.15 77.05 9999 ]).
Proof.
  split.
  - unfold Spec.threshold, Spec.median, Spec.sort, Spec.K, Spec.CEILING.
    decide_R. simpl. apply Rmax_right. lra.
  - unfold LiveSim.SensorFusionEngine.filter_anomalies. simpl. tauto.
Qed.

(** C4, amended. The [filter_anomalies] of the source returns the readings
    unchanged, in their order; its output is that of the median policy
    exactly on the cycles in which no reading exceeds
    [max(median * K, CEILING)]. *)
Theorem fallback_filter_is_identity (readings : list LiveSim.Reading) :
  LiveSim.SensorFusionEngine.filter_anomalies readings = readings
  /\ (LiveSim.SensorFusionEngine.filter_anomalies readings
        = Spec.filter_anomalies readings
      <-> Forall (fun r => LiveSim.val r
                           <= Spec.threshold (map LiveSim.val readings))
                 readings).
Proof.
  unfold LiveSim.SensorFusionEngine.filter_anomalies.
  split; [reflexivity|].
  unfold Spec.filter_anomalies. split.
  - intros E. symmetry in E. apply filter_id_Forall in E.
    eapply Forall_impl; [|exact E].
    intros r Hr. now apply plausible_true.
  - intros Hok. symmetry. apply filter_all.
    eapply Forall_impl; [|exact Hok].
    intros r Hr. now apply plausible_true.
Qed.

Lemma fallback_filter_is_identity_witness :
  LiveSim.SensorFusionEngine.filter_anomalies
    [ LiveSim.mkReading "S1" 31.10 77.10 30;
      LiveSim.mkReading "S2" 31.20 77.20 30;
      LiveSim.mkReading "S3" 31.05 77.15 30 ]
  = Spec.filter_anomalies
      [ LiveSim.mkReading "S1" 31.10 77.10 30;
        LiveSim.mkReading "S2" 31.20 77.20 30;
        LiveSim.mkReading "S3" 31.05 77.15 30 ].
Proof.
  apply (proj2 (proj2 (fallback_filter_is_identity
           [ LiveSim.mkReading "S1" 31.10 77.10 30;
             LiveSim.mkReading "S2" 31.20 77.20 30;
             LiveSim.mkReading "S3" 31.05 77.15 30 ]))).
  repeat (apply Forall_cons;
          [ simpl; eapply Rle_trans; [|apply threshold_ge_ceiling]; lra | ]).
  apply Forall_nil.
Defined.

(** ** Control flow of the entry points *)

Section FlowFacts.
Context {S Ret : Type}.
Local Open Scope py_scope.

Lemma no_return_ret {A} (a : A) : Py.no_return (@Py.ret S Ret A a).
Proof. intros s. exact I. Qed.

Lemma no_return_raise {A} (e : Py.exn) : Py.no_return (@Py.raise S Ret A e).
Proof. intros s. exact I. Qed.

Lemma no_return_modify (f : S -> S) : Py.no_return (@Py.modify S Ret f).
Proof. intros s. exact I. Qed.

Lemma no_return_bind {A B} (m : Py.M S Ret A) (k : A -> Py.M S Ret B) :
  Py.no_return m -> (forall a, Py.no_return (k a)) ->
  Py.no_return (Py.bind m k).
Proof.
  intros Hm Hk s. unfold Py.bind. specialize (Hm s).
  destruct (m s) as [s' [a|r|e]]; simpl in *; [apply Hk|contradiction|exact I].
Qed.

(** A statement that cannot [return] falls through or raises. *)
Lemma no_return_cases {A} (m : Py.M S Ret A) (s : S) :
  Py.no_return m ->
  (exists s' a, m s = (s', Py.Normal a) /\ Py.raises m s = false)
  \/ (exists s' e, m s = (s', Py.Raised e) /\ Py.raises m s = true).
Proof.
  intros Hm. specialize (Hm s). unfold Py.raises.
  destruct (m s) as [s' [a|r|e]]; simpl in *;
    [left; eauto|contradiction|right; eauto].
Qed.
End FlowFacts.

Lemma live_no_return_print (fmt : string) (args : list Py.value) :
  Py.no_return (LiveSim.print fmt args).
Proof. apply no_return_modify. Qed.

Lemma live_no_return_lift_ext {A} (e : Py.ext A) :
  Py.no_return (LiveSim.lift_ext e).
Proof. intros s. unfold LiveSim.lift_ext. simpl. now destruct (snd e). Qed.

Lemma live_no_return_lift_res {A} (r : Py.res A) :
  Py.no_return (LiveSim.lift_res r).
Proof. destruct r; [apply no_return_ret|apply no_return_raise]. Qed.

Ltac flow_step :=
  first [ apply no_return_bind; [|intros ?]
        | apply live_no_return_print
        | apply live_no_return_lift_ext
        | apply live_no_return_lift_res
        | apply no_return_ret
        | apply no_return_raise
        | apply no_return_modify ].

Lemma live_no_return_advance (df : Frame.DataFrame) (st : LiveSim.sat_state)
    (g : list R) : Py.no_return (LiveSim.advance df st g).
Proof.
  unfold LiveSim.advance. destruct (Np.max g); [|flow_step].
  flow_step; [flow_step|]. destruct st.
  - flow_step; [flow_step|].
    destruct (LiveSim.cycle_fos _ _ _); [|flow_step].
    cbv zeta. flow_step; [flow_step|]. flow_step; [|flow_step].
    destruct (Rlt_dec _ _); flow_step.
  - repeat flow_step.
Qed.

Lemma live_no_return_cycle (h : Host) (df : Frame.DataFrame) (cycle k : nat)
    (st : LiveSim.sat_state) : Py.no_return (LiveSim.cycle_body h df cycle k st).
Proof.
  unfold LiveSim.cycle_body. cbv zeta.
  flow_step; [flow_step|]. flow_step; [flow_step|].
  flow_step; [flow_step|].
  destruct (LiveSim.as_reals _); [apply live_no_return_advance|].
  repeat flow_step.
Qed.

Lemma live_no_return_loop (h : Host) (df : Frame.DataFrame)
    (max_cycles remaining cycle k : nat) (st : LiveSim.sat_state) :
  Py.no_return (LiveSim.loop h df max_cycles remaining cycle k st).
Proof.
  revert cycle k st. induction remaining as [|remaining IH]; intros; simpl.
  - flow_step.
  - flow_step; [apply live_no_return_cycle|apply IH].
Qed.

(** How the [try] block of the live simulation can end, in web mode. *)
Lemma live_body_outcome (h : Host) (csv_path : option string)
    (max_cycles : nat) (w0 : world) :
  match LiveSim.body h csv_path max_cycles true w0 with
  | (w1, Py.Normal _) => LiveSim.dataset_missing h csv_path = false
  | (w1, Py.Return r) =>
      LiveSim.dataset_missing h csv_path = true
      /\ r = LiveSim.error_response w1
  | (w1, Py.Raised _) => LiveSim.dataset_missing h csv_path = false
  end.
Proof.
  unfold LiveSim.body.
  destruct (LiveSim.dataset_missing h csv_path) eqn:Hmiss.
  - unfold Py.bind, LiveSim.print, Py.modify, Py.get, Py.return_. simpl. auto.
  - set (rest := Py.bind (LiveSim.lift_ext _) _).
    assert (Hrest : Py.no_return rest).
    { unfold rest. flow_step; [flow_step|]. flow_step; [flow_step|].
      apply live_no_return_loop. }
    unfold Py.bind at 1 2 3. unfold LiveSim.print, Py.modify. simpl.
    match goal with |- context [rest ?s] => specialize (Hrest s);
      destruct (rest s) as [w1 [a|r|e]] end; simpl in *; auto; contradiction.
Qed.

Lemma must_return_bind {S Ret A B} (P : S -> Ret -> Prop)
    (m : Py.M S Ret A) (k : A -> Py.M S Ret B) :
  Py.no_return m -> (forall a, Py.must_return P (k a)) ->
  Py.must_return P (Py.bind m k).
Proof.
  intros Hm Hk s. unfold Py.bind. specialize (Hm s).
  destruct (m s) as [s' [a|r|e]]; simpl in *; [apply Hk|contradiction|exact I].
Qed.

Lemma backtest_no_return_output (fmt : string) (args : list Py.value) :
  Py.no_return (Backtest.output fmt args).
Proof. apply no_return_modify. Qed.

Lemma backtest_no_return_lift_ext {A} (e : Py.ext A) :
  Py.no_return (Backtest.lift_ext e).
Proof. intros s. unfold Backtest.lift_ext. simpl. now destruct (snd e). Qed.

Ltac backtest_step :=
  first [ apply no_return_bind; [|intros ?]
        | apply backtest_no_return_output
        | apply backtest_no_return_lift_ext
        | apply no_return_ret
        | apply no_return_raise ].

Lemma backtest_no_return_month (df : Frame.DataFrame) (month : string) :
  Py.no_return (Backtest.month_body df month).
Proof.
  unfold Backtest.month_body. cbv zeta.
  backtest_step; [backtest_step|].
  destruct (Fos.compute_fos_vectorized _ _ _ _ _ _); repeat backtest_step.
Qed.

Lemma backtest_no_return_months (df : Frame.DataFrame) (ms : list string)
    (results : list (string * nat * R)) :
  Py.no_return (Backtest.month_loop df ms results).
Proof.
  revert results. induction ms as [|m ms IH]; intros results; simpl.
  - backtest_step.
  - backtest_step; [apply backtest_no_return_month|apply IH].
Qed.

Lemma backtest_no_return_summary (results : list (string * nat * R)) :
  Py.no_return (Backtest.summary results).
Proof.
  induction results as [|[[month hotspots] intensity] rest IH]; simpl.
  - backtest_step.
  - backtest_step; [backtest_step|exact IH].
Qed.

(** The [try] block of the backtest ends in [return {"status": "Success",
    ...}] with the log as it then stands, or raises. *)
Lemma backtest_body_outcome (h : Host) (p : string) :
  Py.must_return
    (fun s r => exists results,
       r = Some (mkResponse "Success" (snd s) (Results results)))
    (Backtest.body h p).
Proof.
  unfold Backtest.body.
  apply must_return_bind; [backtest_step|intros df0].
  apply must_return_bind; [backtest_step|intros df].
  cbv zeta.
  apply must_return_bind;
    [destruct (filter _ _); repeat backtest_step|intros _].
  apply must_return_bind; [apply backtest_no_return_months|intros results].
  apply must_return_bind; [backtest_step|intros _].
  apply must_return_bind; [destruct results; backtest_step|intros _].
  apply must_return_bind; [apply backtest_no_return_summary|intros _].
  apply must_return_bind; [destruct results; backtest_step|intros _].
  intros s. simpl. eauto.
Qed.

(** How the [try] block of the quick demo can end, in web mode. *)
Lemma demo_body_outcome (h : Host) (csv_path : option string) (w0 : world) :
  match QuickDemo.body h csv_path true w0 with
  | (w1, Py.Normal _) => LiveSim.dataset_missing h csv_path = false
  | (w1, Py.Return r) =>
      LiveSim.dataset_missing h csv_path = true
      /\ r = LiveSim.error_response w1
  | (w1, Py.Raised _) => LiveSim.dataset_missing h csv_path = false
  end.
Proof.
  unfold QuickDemo.body.
  destruct (LiveSim.dataset_missing h csv_path) eqn:Hmiss.
  - unfold Py.bind, LiveSim.print, Py.modify, Py.get, Py.return_. simpl. auto.
  - set (rest := Py.bind (LiveSim.lift_ext _) _).
    assert (Hrest : Py.no_return rest).
    { unfold rest. flow_step; [flow_step|]. flow_step; [flow_step|].
      do 3 (flow_step; [flow_step|]).
      destruct (Fos.compute_fos_vectorized _ _ _ _ _ _); [|flow_step].
      flow_step; [flow_step|]. flow_step; [flow_step|].
      cbv zeta. flow_step. }
    unfold Py.bind at 1. unfold LiveSim.print, Py.modify. simpl.
    match goal with |- context [rest ?s] => specialize (Hrest s);
      destruct (rest s) as [w1 [a|r|e]] end; simpl in *; auto; contradiction.
Qed.

Lemma restore_captured (w : world) : captured (restore_stdout true w) = captured w.
Proof. reflexivity. Qed.

(** ** C9 *)

(** C9. Called from the web layer, each entry point returns a record and
    never raises: the status is "Error" when the data set is missing or the
    [try] block raises, "Success" when it completes, and the record carries
    the log accumulated up to the return. *)
Theorem entry_points_return_status (h : Host) (csv_path : option string)
    (max_cycles : nat) (w : world) :
  (exists s' r,
     Backtest.backtest_event h csv_path w = (s', Py.Ok (Some r))
     /\ logs r = snd s'
     /\ status r =
        match Backtest.resolve h csv_path with
        | None => "Error"
        | Some p =>
            if Py.raises (Backtest.body h p) (fst (Backtest.prologue (w, [])))
            then "Error" else "Success"
        end)
  /\ (exists w' r,
        LiveSim.run_live_simulation h csv_path max_cycles true w
          = (w', Py.Ok (Some r))
        /\ redirected w' = false
        /\ logs r = captured w'
        /\ status r =
           if LiveSim.dataset_missing h csv_path then "Error"
           else if Py.raises (LiveSim.body h csv_path max_cycles true)
                     (fresh_buffer true w)
                then "Error" else "Success")
  /\ (exists w' r,
        QuickDemo.run_demo_event h csv_path true w = (w', Py.Ok (Some r))
        /\ redirected w' = false
        /\ logs r = captured w'
        /\ status r =
           if LiveSim.dataset_missing h csv_path then "Error"
           else if Py.raises (QuickDemo.body h csv_path true)
                     (fresh_buffer true w)
                then "Error" else "Success").
Proof.
  split; [|split].
  - unfold Backtest.backtest_event, Py.call.
    unfold Py.bind at 1.
    destruct (Backtest.prologue (w, [])) as [s0 f0] eqn:Hpro.
    assert (Hf0 : f0 = Py.Normal tt) by (inversion Hpro; reflexivity).
    subst f0. simpl fst.
    destruct (Backtest.resolve h csv_path) as [p|].
    + unfold Py.try_except_finally, Py.raises.
      pose proof (backtest_body_outcome h p s0) as Hb.
      destruct (Backtest.body h p s0) as [s1 [a|r|e]]; simpl in *.
      * contradiction.
      * destruct Hb as [results ->]. eexists _, _. repeat split.
      * eexists _, _. repeat split.
    + simpl. eexists _, _. repeat split.
  - unfold LiveSim.run_live_simulation, Py.call, Py.raises.
    unfold Py.bind at 1 2. unfold Py.modify at 1. simpl.
    unfold Py.try_except_finally.
    pose proof (live_body_outcome h csv_path max_cycles (fresh_buffer true w))
      as Hb.
    destruct (LiveSim.body h csv_path max_cycles true (fresh_buffer true w))
      as [w1 [a|r|e]]; simpl in *.
    + rewrite Hb. eexists _, _. repeat split.
    + destruct Hb as [-> ->]. eexists _, _. repeat split.
    + rewrite Hb. eexists _, _. repeat split.
  - unfold QuickDemo.run_demo_event, Py.call, Py.raises.
    unfold Py.bind at 1 2. unfold Py.modify at 1. simpl.
    unfold Py.try_except_finally.
    pose proof (demo_body_outcome h csv_path (fresh_buffer true w)) as Hb.
    destruct (QuickDemo.body h csv_path true (fresh_buffer true w))
      as [w1 [a|r|e]]; simpl in *.
    + rewrite Hb. eexists _, _. repeat split.
    + destruct Hb as [-> ->]. eexists _, _. repeat split.
    + rewrite Hb. eexists _, _. repeat split.
Qed.

(** * Further properties of the code *)

(** ** fos.py: the stability model cell by cell *)

(** What a returned array holds at an index. *)
Lemma compute_fos_nth (sl el : list R) (sp : Fos.SoilParams) (sa : list R)
    (rain dur : R) (fos : list R) (i : nat) (f : R) :
  Fos.compute_fos_vectorized sl el sp sa rain dur = Some fos ->
  nth_error fos i = Some f ->
  exists s c0 p g z k w,
    nth_error sl i = Some s /\ nth_error (Fos.c sp) i = Some c0
    /\ nth_error (Fos.phi sp) i = Some p
    /\ nth_error (Fos.gamma sp) i = Some g
    /\ nth_error (Fos.depth sp) i = Some z
    /\ nth_error (Fos.ksat sp) i = Some k
    /\ nth_error sa i = Some w
    /\ f = Fos.fos_elem s c0 p g z k w rain dur.
Proof.
  intros E Hf. apply compute_fos_some in E. destruct E as [_ ->].
  rewrite rows_nth_error in Hf.
  destruct (nth_error sl i) as [s|]; [|discriminate].
  destruct (nth_error (Fos.c sp) i) as [c0|]; [|discriminate].
  destruct (nth_error (Fos.phi sp) i) as [p|]; [|discriminate].
  destruct (nth_error (Fos.gamma sp) i) as [g|]; [|discriminate].
  destruct (nth_error (Fos.depth sp) i) as [z|]; [|discriminate].
  destruct (nth_error (Fos.ksat sp) i) as [k|]; [|discriminate].
  destruct (nth_error sa i) as [w|]; [|discriminate].
  injection Hf as <-. exists s, c0, p, g, z, k, w. repeat split.
Qed.

(** Two calls on the same arrays are compared cell by cell. *)
Ltac same_cell E1 H1 E2 H2 :=
  destruct (compute_fos_nth _ _ _ _ _ _ _ _ _ E1 H1)
    as (s & c0 & p & g & z & k & w & Hs & Hc & Hp & Hg & Hz & Hk & Hw & ->);
  destruct (compute_fos_nth _ _ _ _ _ _ _ _ _ E2 H2)
    as (s' & c0' & p' & g' & z' & k' & w' & Hs' & Hc' & Hp' & Hg' & Hz'
        & Hk' & Hw' & ->);
  rewrite Hs in Hs'; rewrite Hc in Hc'; rewrite Hp in Hp';
  rewrite Hg in Hg'; rewrite Hz in Hz'; rewrite Hk in Hk';
  injection Hs' as <-; injection Hc' as <-; injection Hp' as <-;
  injection Hg' as <-; injection Hz' as <-; injection Hk' as <-.

Lemma div_le_compat (a b d : R) : 0 < d -> a <= b -> a / d <= b / d.
Proof.
  intros Hd Hab. unfold Rdiv. apply Rmult_le_compat_r; [|exact Hab].
  now apply Rlt_le, Rinv_0_lt_compat.
Qed.

Lemma div_nonneg (a d : R) : 0 < d -> 0 <= a -> 0 <= a / d.
Proof.
  intros Hd Ha. unfold Rdiv. apply Rmult_le_pos; [exact Ha|].
  now apply Rlt_le, Rinv_0_lt_compat.
Qed.

Lemma rise_nonneg (rain k dur : R) :
  0 <= rain -> 0 <= k -> 0 <= dur ->
  0 <= Rmin (rain * 2.777e-7) k * (dur * 3600.0) / 0.3.
Proof.
  intros Hr Hk Hd.
  assert (0 <= Rmin (rain * 2.777e-7) k) by (apply Rmin_glb; lra).
  apply div_nonneg; [lra|]. apply Rmult_le_pos; lra.
Qed.

Lemma fos_elem_antitone_rain (s c0 p g z k w r1 r2 dur : R) :
  0 <= tan (Np.radians p) -> 0 <= dur -> r1 <= r2 ->
  Fos.fos_elem s c0 p g z k w r2 dur <= Fos.fos_elem s c0 p g z k w r1 dur.
Proof.
  intros Ht Hd Hr. unfold Fos.fos_elem. cbv zeta.
  apply clip_mono. unfold Rdiv at 1 4.
  apply Rmult_le_compat_r.
  - apply Rlt_le, Rinv_0_lt_compat, driving_pos.
  - apply Rplus_le_compat_l, Rmult_le_compat_r; [exact Ht|].
    apply Rle_max_compat_r.
    assert (Hmin : Rmin (r1 * 2.777e-7) k <= Rmin (r2 * 2.777e-7) k)
      by (apply Rle_min_compat_r; lra).
    assert (Hh : Np.clip (w * z + Rmin (r1 * 2.777e-7) k * (dur * 3600.0) / 0.3) 0.0 z
                 <= Np.clip (w * z + Rmin (r2 * 2.777e-7) k * (dur * 3600.0) / 0.3) 0.0 z).
    { apply clip_mono. apply Rplus_le_compat_l.
      apply div_le_compat; [lra|].
      apply Rmult_le_compat_r; [lra|exact Hmin]. }
    pose proof (pow2_ge_0 (cos (Np.radians (Np.clip s 0.1 89.9)))) as Hc.
    unfold Fos.GAMMA_W. nra.
Qed.

Lemma water_at_depth (x z : R) : 0 <= z -> z <= x -> Np.clip x 0.0 z = z.
Proof.
  intros Hz Hx. unfold Np.clip.
  rewrite Rmax_left by lra. apply Rmin_right. exact Hx.
Qed.

Lemma fos_elem_saturated (s c0 p g z k w r1 r2 d1 d2 : R) :
  1 <= w -> 0 <= z -> 0 <= k ->
  0 <= r1 -> 0 <= r2 -> 0 <= d1 -> 0 <= d2 ->
  Fos.fos_elem s c0 p g z k w r1 d1 = Fos.fos_elem s c0 p g z k w r2 d2.
Proof.
  intros Hw Hz Hk Hr1 Hr2 Hd1 Hd2. unfold Fos.fos_elem. cbv zeta.
  pose proof (rise_nonneg r1 k d1 Hr1 Hk Hd1) as H1.
  pose proof (rise_nonneg r2 k d2 Hr2 Hk Hd2) as H2.
  assert (Hwz : z <= w * z) by nra.
  rewrite (water_at_depth
             (w * z + Rmin (r1 * 2.777e-7) k * (d1 * 3600.0) / 0.3) z) by lra.
  rewrite (water_at_depth
             (w * z + Rmin (r2 * 2.777e-7) k * (d2 * 3600.0) / 0.3) z) by lra.
  reflexivity.
Qed.

Lemma fos_elem_dry (s c0 p g z k w d1 d2 : R) :
  0 <= k ->
  Fos.fos_elem s c0 p g z k w 0 d1 = Fos.fos_elem s c0 p g z k w 0 d2.
Proof.
  intros Hk. unfold Fos.fos_elem. cbv zeta.
  rewrite Rmult_0_l, Rmin_left by exact Hk.
  unfold Rdiv. rewrite !Rmult_0_l. reflexivity.
Qed.

Lemma fos_elem_zero_depth (s c0 p g k w rain dur : R) :
  Fos.fos_elem s c0 p g 0 k w rain dur = Np.clip (c0 / 1e-5) 0.0 10.0.
Proof.
  unfold Fos.fos_elem. cbv zeta.
  assert (Hw : forall x, Np.clip x 0.0 0 = 0).
  { intros x. unfold Np.clip. apply Rmin_right.
    eapply Rle_trans; [|apply Rmax_r]. lra. }
  rewrite Hw.
  replace (g * 0 * cos (Np.radians (Np.clip s 0.1 89.9)) ^ 2
           - Fos.GAMMA_W * 0 * cos (Np.radians (Np.clip s 0.1 89.9)) ^ 2)
    with 0 by ring.
  replace (g * 0 * sin (Np.radians (Np.clip s 0.1 89.9))
           * cos (Np.radians (Np.clip s 0.1 89.9))) with 0 by ring.
  rewrite (Rmax_left 0 0.0) by lra.
  rewrite (Rmax_right 0 1e-5) by lra.
  rewrite Rmult_0_l, Rplus_0_r. reflexivity.
Qed.

(** X1. More rain never raises the FoS of a cell whose friction angle has a
    non-negative tangent, for a non-negative storm duration. *)
Theorem fos_antitone_in_rainfall
    (slope_deg elevation : list R) (soil_params : Fos.SoilParams)
    (current_saturation : list R) (r1 r2 dur : R) (fos1 fos2 : list R)
    (i : nat) (phi_deg f1 f2 : R) :
  nth_error (Fos.phi soil_params) i = Some phi_deg ->
  0 <= tan (Np.radians phi_deg) ->
  0 <= dur ->
  r1 <= r2 ->
  Fos.compute_fos_vectorized slope_deg elevation soil_params
    current_saturation r1 dur = Some fos1 ->
  Fos.compute_fos_vectorized slope_deg elevation soil_params
    current_saturation r2 dur = Some fos2 ->
  nth_error fos1 i = Some f1 ->
  nth_error fos2 i = Some f2 ->
  f2 <= f1.
Proof.
  intros Hphi Ht Hd Hr E1 E2 H1 H2.
  same_cell E1 H1 E2 H2.
  rewrite Hw in Hw'. injection Hw' as <-.
  rewrite Hphi in Hp. injection Hp as <-.
  now apply fos_elem_antitone_rain.
Qed.

Lemma fos_antitone_in_rainfall_witness :
  Fos.fos_elem 45 10 45 18 2 1e-6 0.2 80 6
  <= Fos.fos_elem 45 10 45 18 2 1e-6 0.2 1 6.
Proof.
  apply (fos_antitone_in_rainfall [45] [1500]
           (Fos.mkSoil [10] [45] [18] [2] [1e-6]) [0.2] 1 80 6
           (Fos.rows [45] [10] [45] [18] [2] [1e-6] [0.2] 1 6)
           (Fos.rows [45] [10] [45] [18] [2] [1e-6] [0.2] 80 6)
           0%nat 45 _ _).
  - reflexivity.
  - rewrite radians_45, tan_PI4. lra.
  - lra.
  - lra.
  - reflexivity.
  - reflexivity.
  - reflexivity.
  - reflexivity.
Defined.

(** X2. A cell that is already fully saturated (saturation at least 1, on
    non-negative depth and conductivity) has its water table at the soil
    depth: its FoS is the same for every non-negative rainfall intensity and
    storm duration. *)
Theorem fos_of_saturated_cell_ignores_storm
    (slope_deg elevation : list R) (soil_params : Fos.SoilParams)
    (current_saturation : list R) (r1 r2 d1 d2 : R) (fos1 fos2 : list R)
    (i : nat) (w z k : R) :
  nth_error current_saturation i = Some w ->
  nth_error (Fos.depth soil_params) i = Some z ->
  nth_error (Fos.ksat soil_params) i = Some k ->
  1 <= w -> 0 <= z -> 0 <= k ->
  0 <= r1 -> 0 <= r2 -> 0 <= d1 -> 0 <= d2 ->
  Fos.compute_fos_vectorized slope_deg elevation soil_params
    current_saturation r1 d1 = Some fos1 ->
  Fos.compute_fos_vectorized slope_deg elevation soil_params
    current_saturation r2 d2 = Some fos2 ->
  nth_error fos1 i = nth_error fos2 i.
Proof.
  intros Hsat Hdepth Hksat Hw1 Hz0 Hk0 Hr1 Hr2 Hd1 Hd2 E1 E2.
  apply compute_fos_some in E1. destruct E1 as [_ ->].
  apply compute_fos_some in E2. destruct E2 as [_ ->].
  rewrite !rows_nth_error, Hsat, Hdepth, Hksat.
  repeat match goal with |- context [nth_error ?l i] =>
           destruct (nth_error l i) end; try reflexivity.
  f_equal. now apply fos_elem_saturated.
Qed.

Lemma fos_of_saturated_cell_ignores_storm_witness :
  nth_error (Fos.rows [30] [10] [30] [18] [2] [1e-6] [1] 0 6) 0 =
  nth_error (Fos.rows [30] [10] [30] [18] [2] [1e-6] [1] 50 12) 0.
Proof.
  apply (fos_of_saturated_cell_ignores_storm [30] [1500]
           (Fos.mkSoil [10] [30] [18] [2] [1e-6]) [1] 0 50 6 12
           (Fos.rows [30] [10] [30] [18] [2] [1e-6] [1] 0 6)
           (Fos.rows [30] [10] [30] [18] [2] [1e-6] [1] 50 12)
           0%nat 1 2 1e-6);
    try reflexivity; lra.
Defined.

(** X3. Without rain the storm duration plays no part: at a cell of
    non-negative conductivity the FoS at zero intensity is the same for every
    duration. *)
Theorem fos_without_rain_ignores_duration
    (slope_deg elevation : list R) (soil_params : Fos.SoilParams)
    (current_saturation : list R) (d1 d2 : R) (fos1 fos2 : list R)
    (i : nat) (k : R) :
  nth_error (Fos.ksat soil_params) i = Some k ->
  0 <= k ->
  Fos.compute_fos_vectorized slope_deg elevation soil_params
    current_saturation 0 d1 = Some fos1 ->
  Fos.compute_fos_vectorized slope_deg elevation soil_params
    current_saturation 0 d2 = Some fos2 ->
  nth_error fos1 i = nth_error fos2 i.
Proof.
  intros Hksat Hk0 E1 E2.
  apply compute_fos_some in E1. destruct E1 as [_ ->].
  apply compute_fos_some in E2. destruct E2 as [_ ->].
  rewrite !rows_nth_error, Hksat.
  repeat match goal with |- context [nth_error ?l i] =>
           destruct (nth_error l i) end; try reflexivity.
  f_equal. now apply fos_elem_dry.
Qed.

Lemma fos_without_rain_ignores_duration_witness :
  nth_error (Fos.rows [30] [10] [30] [18] [2] [1e-6] [0.2] 0 6) 0 =
  nth_error (Fos.rows [30] [10] [30] [18] [2] [1e-6] [0.2] 0 12) 0.
Proof.
  apply (fos_without_rain_ignores_duration [30] [1500]
           (Fos.mkSoil [10] [30] [18] [2] [1e-6]) [0.2] 6 12
           (Fos.rows [30] [10] [30] [18] [2] [1e-6] [0.2] 0 6)
           (Fos.rows [30] [10] [30] [18] [2] [1e-6] [0.2] 0 12)
           0%nat 1e-6);
    try reflexivity; lra.
Defined.

(** X4. A cell without soil ([depth = 0]) has no driving stress, so the
    floor [1e-5] is the divisor: its FoS is [clip(c / 1e-5, 0, 10)], that is
    10 as soon as the cohesion reaches 1e-4 kPa and 0 when the cohesion is
    not positive. *)
Theorem fos_of_cell_without_soil
    (slope_deg elevation : list R) (soil_params : Fos.SoilParams)
    (current_saturation : list R) (rain dur : R) (fos : list R)
    (i : nat) (c0 f : R) :
  nth_error (Fos.depth soil_params) i = Some 0 ->
  nth_error (Fos.c soil_params) i = Some c0 ->
  Fos.compute_fos_vectorized slope_deg elevation soil_params
    current_saturation rain dur = Some fos ->
  nth_error fos i = Some f ->
  f = Np.clip (c0 / 1e-5) 0.0 10.0
  /\ (1e-4 <= c0 -> f = 10)
  /\ (c0 <= 0 -> f = 0).
Proof.
  intros Hdepth Hc E Hf.
  destruct (compute_fos_nth _ _ _ _ _ _ _ _ _ E Hf)
    as (s & c1 & p & g & z & k & w & Hs & Hc' & Hp & Hg & Hz & Hk & Hw & ->).
  rewrite Hdepth in Hz. injection Hz as <-.
  rewrite Hc in Hc'. injection Hc' as <-.
  rewrite fos_elem_zero_depth. split; [reflexivity|]. split.
  - intros Hbig. unfold Np.clip.
    assert (10 <= c0 / 1e-5) by (unfold Rdiv; lra).
    rewrite Rmax_left by lra. rewrite Rmin_right by lra. lra.
  - intros Hneg. unfold Np.clip.
    assert (c0 / 1e-5 <= 0) by (unfold Rdiv; lra).
    rewrite Rmax_right by lra. rewrite Rmin_left by lra. lra.
Qed.

Lemma fos_of_cell_without_soil_witness :
  Fos.fos_elem 30 5 30 18 0 1e-6 0.2 50 6 = Np.clip (5 / 1e-5) 0.0 10.0
  /\ (1e-4 <= 5 -> Fos.fos_elem 30 5 30 18 0 1e-6 0.2 50 6 = 10)
  /\ (5 <= 0 -> Fos.fos_elem 30 5 30 18 0 1e-6 0.2 50 6 = 0).
Proof.
  apply (fos_of_cell_without_soil [30] [1500]
           (Fos.mkSoil [5] [30] [18] [0] [1e-6]) [0.2] 50 6
           (Fos.rows [30] [5] [30] [18] [0] [1e-6] [0.2] 50 6)
           0%nat 5 _); reflexivity.
Defined.

(** ** The risk transforms *)

Lemma logistic_at_decreasing (k mid x y : R) :
  0 < k -> x < y -> Spec.logistic_at k mid y < Spec.logistic_at k mid x.
Proof.
  intros Hk Hxy. unfold Spec.logistic_at, Rdiv. rewrite !Rmult_1_l.
  pose proof (exp_pos (k * (x - mid))) as Hx.
  apply Rinv_lt_contravar.
  - pose proof (exp_pos (k * (y - mid))). nra.
  - apply Rplus_lt_compat_l, exp_increasing. nra.
Qed.

(** The curve is above a level [t] exactly below the FoS at which it
    crosses that level. *)
Lemma logistic_at_above (k mid t x : R) :
  0 < k -> 0 < t < 1 ->
  (t < Spec.logistic_at k mid x <-> x < mid + ln (1 / t - 1) / k).
Proof.
  intros Hk [Ht0 Ht1]. unfold Spec.logistic_at.
  set (e := exp (k * (x - mid))).
  assert (He : 0 < e) by apply exp_pos.
  assert (Hq : 0 < 1 / t - 1).
  { assert (1 < 1 / t); [|lra].
    apply (Rmult_lt_reg_r t); [exact Ht0|].
    unfold Rdiv. rewrite Rmult_assoc, Rinv_l by lra. lra. }
  assert (Hstep1 : t < 1 / (1 + e) <-> e < 1 / t - 1).
  { split; intros H.
    - assert (t * (1 + e) < 1).
      { apply (Rmult_lt_compat_r (1 + e)) in H; [|lra].
        unfold Rdiv in H. rewrite Rmult_assoc, Rinv_l in H by lra. lra. }
      assert (1 + e < 1 / t); [|lra].
      apply (Rmult_lt_reg_r t); [exact Ht0|].
      unfold Rdiv. rewrite (Rmult_assoc 1), Rinv_l by lra. lra.
    - assert (1 + e < 1 / t) by lra.
      assert (t * (1 + e) < 1).
      { apply (Rmult_lt_compat_r t) in H0; [|lra].
        unfold Rdiv in H0. rewrite (Rmult_assoc 1), Rinv_l in H0 by lra. lra. }
      apply (Rmult_lt_reg_r (1 + e)); [lra|].
      unfold Rdiv. rewrite Rmult_assoc, Rinv_l by lra. lra. }
  assert (Hstep2 : e < 1 / t - 1 <-> k * (x - mid) < ln (1 / t - 1)).
  { unfold e. split; intros H.
    - apply exp_lt_inv. now rewrite exp_ln.
    - rewrite <- (exp_ln (1 / t - 1)) by exact Hq. now apply exp_increasing. }
  assert (Hstep3 : k * (x - mid) < ln (1 / t - 1)
                   <-> x < mid + ln (1 / t - 1) / k).
  { split; intros H.
    - assert (x - mid < ln (1 / t - 1) / k); [|lra].
      apply (Rmult_lt_reg_l k); [exact Hk|].
      unfold Rdiv. rewrite <- Rmult_assoc, Rinv_r_simpl_m by lra. exact H.
    - assert (x - mid < ln (1 / t - 1) / k) by lra.
      apply (Rmult_lt_compat_l k) in H0; [|exact Hk].
      unfold Rdiv in H0. rewrite <- Rmult_assoc, Rinv_r_simpl_m in H0 by lra.
      exact H0. }
  tauto.
Qed.

(** X5. In the live cycle a cell counts as unstable ([fos < 1.0]) exactly
    when its risk is above one half. *)
Theorem unstable_iff_risk_above_half (fos : R) :
  LiveSim.below_one fos = 1 <-> 1 / 2 < LiveSim.risk fos.
Proof.
  rewrite live_risk_is_logistic.
  rewrite (logistic_at_above 10 1 (1 / 2) fos) by lra.
  replace (1 / (1 / 2) - 1) with 1 by field.
  rewrite ln_1. unfold LiveSim.below_one.
  destruct (Rlt_dec fos 1.0); split; intros H; try lra.
Qed.

(** X6. The backtest counts a cell as a hotspot ([risk > 0.8]) exactly when
    its FoS is below [1.1 - ln(4) / 5]; no cell with FoS of 1.1 or more is
    ever one. *)
Theorem backtest_hotspot_iff_fos_below (fos : R) :
  (Backtest.exceeds 0.8 (Backtest.risk fos) = true
   <-> fos < 1.1 - ln 4 / 5)
  /\ (1.1 <= fos -> Backtest.exceeds 0.8 (Backtest.risk fos) = false).
Proof.
  assert (Hln : 0 < ln 4).
  { rewrite <- ln_1. apply ln_increasing; lra. }
  cut (Backtest.exceeds 0.8 (Backtest.risk fos) = true
       <-> fos < 1.1 - ln 4 / 5).
  { intros Hiff. split; [exact Hiff|]. intros Hbig.
    destruct (Backtest.exceeds 0.8 (Backtest.risk fos)); [|reflexivity].
    assert (fos < 1.1 - ln 4 / 5) by now apply Hiff.
    assert (0 < ln 4 / 5) by (apply Rdiv_lt_0_compat; lra). lra. }
  assert (Hiff : 0.8 < Backtest.risk fos <-> fos < 1.1 - ln 4 / 5).
  { rewrite backtest_risk_is_logistic.
    rewrite (logistic_at_above 5 1.1 0.8 fos) by lra.
    replace (1 / 0.8 - 1) with (/ 4) by lra.
    rewrite ln_Rinv by lra.
    replace (1.1 + - ln 4 / 5) with (1.1 - ln 4 / 5) by (unfold Rdiv; ring).
    tauto. }
  unfold Backtest.exceeds.
  destruct (Rlt_dec 0.8 (Backtest.risk fos)); split; intros H;
    try reflexivity; try discriminate; tauto.
Qed.

(** X7. Both transforms are strictly decreasing: a larger FoS always gives
    a smaller risk, in the live cycle, the quick demo and the backtest. *)
Theorem risk_strictly_decreasing (f1 f2 : R) :
  f1 < f2 ->
  LiveSim.risk f2 < LiveSim.risk f1
  /\ QuickDemo.fos_to_risk f2 < QuickDemo.fos_to_risk f1
  /\ Backtest.risk f2 < Backtest.risk f1.
Proof.
  intros H.
  repeat split.
  - rewrite !live_risk_is_logistic. apply logistic_at_decreasing; lra.
  - rewrite !demo_risk_is_logistic. apply logistic_at_decreasing; lra.
  - rewrite !backtest_risk_is_logistic. apply logistic_at_decreasing; lra.
Qed.

Lemma risk_strictly_decreasing_witness :
  LiveSim.risk 1.5 < LiveSim.risk 0.9
  /\ QuickDemo.fos_to_risk 1.5 < QuickDemo.fos_to_risk 0.9
  /\ Backtest.risk 1.5 < Backtest.risk 0.9.
Proof. apply (risk_strictly_decreasing 0.9 1.5). lra. Defined.

(** ** run_live_sim.py: readings and the rainfall field *)

Lemma map2_Forall_both {A B C} (P : A -> Prop) (P' : B -> Prop)
    (Q : C -> Prop) (f : A -> B -> C) (a : list A) (b : list B) :
  Forall P a -> Forall P' b -> (forall x y, P x -> P' y -> Q (f x y)) ->
  Forall Q (map2 f a b).
Proof.
  intros Ha Hb HQ. revert b Hb.
  induction Ha as [|x a Hx Ha IH]; intros b Hb; destruct Hb as [|y b Hy Hb];
    simpl; constructor; auto.
Qed.

Lemma idw_term_pos (s : LiveSim.Reading) (la lo : R) :
  0 < LiveSim.val s -> 0 < LiveSim.idw_term s la lo.
Proof.
  intros H. unfold LiveSim.idw_term. cbv zeta.
  apply Rdiv_lt_0_compat; [exact H|apply floor_pos].
Qed.

Lemma accumulate_length (clean : list LiveSim.Reading) (lats lons : list R) :
  length lats = length lons ->
  length (LiveSim.accumulate clean lats lons (length lats)) = length lats.
Proof.
  intros Hlen. unfold LiveSim.accumulate.
  assert (H0 : length (repeat 0 (length lats)) = length lats)
    by apply repeat_length.
  revert H0. generalize (repeat 0 (length lats)) as grid.
  induction clean as [|s clean IH]; intros grid Hg; simpl; [exact Hg|].
  apply IH. rewrite !map2_length, Hg, <- Hlen, !Nat.min_id. reflexivity.
Qed.

(** Adding a station keeps positive cells positive, and a station with a
    positive value makes non-negative cells positive. *)
Lemma add_station_keeps_pos (s : LiveSim.Reading) (grid lats lons : list R) :
  0 <= LiveSim.val s ->
  Forall (fun x => 0 < x) grid ->
  Forall (fun x => 0 < x)
         (map2 Rplus grid (map2 (LiveSim.idw_term s) lats lons)).
Proof.
  intros Hs Hg.
  apply (map2_Forall_both (fun x => 0 < x) (fun y => 0 <= y)); auto.
  - apply map2_Forall. intros. now apply idw_term_nonneg.
  - intros x y Hx Hy. lra.
Qed.

Lemma add_station_makes_pos (s : LiveSim.Reading) (grid lats lons : list R) :
  0 < LiveSim.val s ->
  Forall (fun x => 0 <= x) grid ->
  Forall (fun x => 0 < x)
         (map2 Rplus grid (map2 (LiveSim.idw_term s) lats lons)).
Proof.
  intros Hs Hg.
  apply (map2_Forall_both (fun x => 0 <= x) (fun y => 0 < y)); auto.
  - apply map2_Forall. intros. now apply idw_term_pos.
  - intros x y Hx Hy. lra.
Qed.

Lemma add_station_keeps_nonneg (s : LiveSim.Reading)
    (grid lats lons : list R) :
  0 <= LiveSim.val s ->
  Forall (fun x => 0 <= x) grid ->
  Forall (fun x => 0 <= x)
         (map2 Rplus grid (map2 (LiveSim.idw_term s) lats lons)).
Proof.
  intros Hs Hg.
  apply (map2_Forall_both (fun x => 0 <= x) (fun y => 0 <= y)); auto.
  - apply map2_Forall. intros. now apply idw_term_nonneg.
  - intros x y Hx Hy. lra.
Qed.

(** Once a station with a positive value has been added, every cell is
    positive. *)
Lemma accumulate_pos (clean : list LiveSim.Reading) (lats lons : list R)
    (n : nat) :
  Forall (fun s => 0 <= LiveSim.val s) clean ->
  Exists (fun s => 0 < LiveSim.val s) clean ->
  Forall (fun x => 0 < x) (LiveSim.accumulate clean lats lons n).
Proof.
  intros Hv Hex. unfold LiveSim.accumulate.
  assert (H0 : Forall (fun x => 0 <= x) (repeat 0 n)).
  { apply Forall_forall. intros x Hx. apply repeat_spec in Hx. lra. }
  revert H0. generalize (repeat 0 n) as grid.
  assert (Hkeep : forall rest grid,
             Forall (fun s => 0 <= LiveSim.val s) rest ->
             Forall (fun x => 0 < x) grid ->
             Forall (fun x => 0 < x)
               (fold_left
                  (fun rain_grid s =>
                     map2 Rplus rain_grid (map2 (LiveSim.idw_term s) lats lons))
                  rest grid)).
  { induction rest as [|s rest IH]; intros grid Hr Hg; simpl; [exact Hg|].
    apply IH; [now inversion Hr|].
    apply add_station_keeps_pos; [now inversion Hr|exact Hg]. }
  induction Hex as [s rest Hs|s rest Hex IH]; intros grid Hg; simpl.
  - apply Hkeep; [now inversion Hv|].
    now apply add_station_makes_pos.
  - apply IH; [now inversion Hv|].
    apply add_station_keeps_nonneg; [now inversion Hv|exact Hg].
Qed.

Lemma np_max_map_val (s0 : LiveSim.Reading) (rest : list LiveSim.Reading) :
  Np.max (map LiveSim.val (s0 :: rest))
  = Some (fold_left Rmax (map LiveSim.val rest) (LiveSim.val s0)).
Proof. reflexivity. Qed.

(** X8. The rescaling anchors the field to the stations: with non-negative
    readings of which one is positive, on a non-empty grid, every cell is a
    positive number not above the largest station value, and the largest
    cell equals that value. *)
Theorem rainfall_field_peak_is_station_maximum
    (clean : list LiveSim.Reading) (lats lons : list R) :
  Forall (fun s => 0 <= LiveSim.val s) clean ->
  Exists (fun s => 0 < LiveSim.val s) clean ->
  length lats = length lons ->
  lats <> [] ->
  exists g rain_grid vmax,
    LiveSim.rainfall_field clean lats lons (length lats) = Py.Ok g
    /\ LiveSim.as_reals g = Some rain_grid
    /\ length rain_grid = length lats
    /\ Np.max (map LiveSim.val clean) = Some vmax
    /\ Np.max rain_grid = Some vmax
    /\ Forall (fun x => 0 < x <= vmax) rain_grid.
Proof.
  intros Hv Hex Hlen Hgrid. unfold LiveSim.rainfall_field.
  destruct clean as [|s0 rest]; [inversion Hex|].
  pose proof (accumulate_pos (s0 :: rest) lats lons (length lats) Hv Hex)
    as Hpos.
  pose proof (accumulate_length (s0 :: rest) lats lons Hlen) as Hacc.
  set (acc := LiveSim.accumulate (s0 :: rest) lats lons (length lats)) in *.
  set (vmax := fold_left Rmax (map LiveSim.val rest) (LiveSim.val s0)).
  destruct (np_max_some acc) as [m Hm].
  { intros E. rewrite E in Hacc. destruct lats; [congruence|discriminate]. }
  rewrite Hm. cbv zeta.
  destruct (np_max_spec _ _ Hm) as [Hin Hle].
  rewrite Forall_forall in Hpos, Hle.
  assert (Hm0 : 0 < m) by now apply Hpos.
  assert (Hvmax : 0 < vmax).
  { apply Exists_exists in Hex. destruct Hex as (s & Hs & Hsv).
    eapply Rlt_le_trans; [exact Hsv|]. unfold vmax.
    destruct Hs as [<-|Hs]; [apply fold_max_ge_init|].
    apply fold_max_ge_elem. now apply in_map. }
  exists (map (fun x => Finite (x / m * vmax)) acc),
         (map (fun x => x / m * vmax) acc), vmax.
  split.
  { f_equal. rewrite map_map. apply map_ext. intros x.
    now rewrite np_div_finite by lra. }
  split; [apply as_reals_finite|].
  split; [now rewrite length_map|].
  split; [reflexivity|].
  assert (Hcells : Forall (fun x => 0 < x <= vmax)
                     (map (fun x => x / m * vmax) acc)).
  { apply Forall_map, Forall_forall. intros x Hx.
    pose proof (Hpos x Hx). pose proof (Hle x Hx).
    assert (0 < x / m) by (apply Rdiv_lt_0_compat; lra).
    assert (x / m <= 1).
    { apply (Rmult_le_reg_r m); [exact Hm0|].
      unfold Rdiv. rewrite Rmult_assoc, Rinv_l by lra. lra. }
    split; nra. }
  split; [|exact Hcells].
  apply np_max_of_peak.
  - apply in_map_iff. exists m. split; [field; lra|exact Hin].
  - eapply Forall_impl; [|exact Hcells]. intros x Hx. simpl in Hx. lra.
Qed.

Lemma rainfall_field_peak_is_station_maximum_witness :
  exists g rain_grid vmax,
    LiveSim.rainfall_field
      [ LiveSim.mkReading "S1" 31.10 77.10 20;
        LiveSim.mkReading "S2" 31.20 77.20 0 ]
      [31.10; 31.12] [77.10; 77.18] (length [31.10; 31.12]) = Py.Ok g
    /\ LiveSim.as_reals g = Some rain_grid
    /\ length rain_grid = length [31.10; 31.12]
    /\ Np.max (map LiveSim.val
                 [ LiveSim.mkReading "S1" 31.10 77.10 20;
                   LiveSim.mkReading "S2" 31.20 77.20 0 ]) = Some vmax
    /\ Np.max rain_grid = Some vmax
    /\ Forall (fun x => 0 < x <= vmax) rain_grid.
Proof.
  apply (rainfall_field_peak_is_station_maximum
           [ LiveSim.mkReading "S1" 31.10 77.10 20;
             LiveSim.mkReading "S2" 31.20 77.20 0 ]
           [31.10; 31.12] [77.10; 77.18]).
  - apply Forall_cons; [simpl; lra|].
    apply Forall_cons; [simpl; lra|apply Forall_nil].
  - apply Exists_cons_hd. simpl. lra.
  - reflexivity.
  - discriminate.
Defined.

Lemma accumulate_empty_grid (clean : list LiveSim.Reading) :
  LiveSim.accumulate clean [] [] 0 = [].
Proof.
  unfold LiveSim.accumulate. simpl.
  induction clean as [|s clean IH]; simpl; [reflexivity|exact IH].
Qed.

Lemma rainfall_field_returns (clean : list LiveSim.Reading)
    (lats lons : list R) :
  length lats = length lons ->
  clean = [] \/ lats <> [] ->
  exists g, LiveSim.rainfall_field clean lats lons (length lats) = Py.Ok g
            /\ length g = length lats.
Proof.
  intros Hlen [->|Hgrid].
  - rewrite rainfall_field_empty. eexists. split; [reflexivity|].
    apply repeat_length.
  - unfold LiveSim.rainfall_field. destruct clean as [|s0 rest].
    + eexists. split; [reflexivity|].
      now rewrite length_map, repeat_length.
    + pose proof (accumulate_length (s0 :: rest) lats lons Hlen) as Hacc.
      destruct (np_max_some
                  (LiveSim.accumulate (s0 :: rest) lats lons (length lats)))
        as [m Hm].
      { intros E. rewrite E in Hacc. destruct lats; [congruence|discriminate]. }
      rewrite Hm. eexists. split; [reflexivity|].
      now rewrite !length_map.
Qed.

Lemma rainfall_field_on_empty_grid (s0 : LiveSim.Reading)
    (rest : list LiveSim.Reading) :
  LiveSim.rainfall_field (s0 :: rest) [] [] 0
  = Py.Raise (ValueError "zero-size array to reduction operation maximum").
Proof.
  unfold LiveSim.rainfall_field. now rewrite accumulate_empty_grid.
Qed.

(** X9. The interpolation block raises exactly when there are readings and
    the grid has no cell ([np.max] of a zero-size array); with no reading,
    or on any grid with a cell, it returns a field of the grid's size. *)
Theorem rainfall_field_raises_iff_empty_grid
    (clean : list LiveSim.Reading) (lats lons : list R) :
  length lats = length lons ->
  ((exists e, LiveSim.rainfall_field clean lats lons (length lats)
              = Py.Raise e)
   <-> clean <> [] /\ lats = [])
  /\ (clean = [] \/ lats <> [] ->
      exists g, LiveSim.rainfall_field clean lats lons (length lats)
                = Py.Ok g
                /\ length g = length lats).
Proof.
  intros Hlen.
  split; [|now apply rainfall_field_returns]. split.
  - intros [e He]. split.
    + intros ->. rewrite rainfall_field_empty in He. discriminate.
    + destruct lats as [|la lats]; [reflexivity|].
      destruct (rainfall_field_returns clean (la :: lats) lons Hlen)
        as (g & Hg & _); [right; discriminate|].
      rewrite Hg in He. discriminate.
  - intros [Hne ->]. destruct lons; [|discriminate].
    destruct clean as [|s0 rest]; [congruence|].
    simpl length. rewrite rainfall_field_on_empty_grid. eauto.
Qed.

Lemma rainfall_field_raises_iff_empty_grid_witness :
  exists e,
    LiveSim.rainfall_field [LiveSim.mkReading "S1" 31.10 77.10 20] [] []
      (length (@nil R)) = Py.Raise e.
Proof.
  apply (proj1 (rainfall_field_raises_iff_empty_grid
                  [LiveSim.mkReading "S1" 31.10 77.10 20] [] [] eq_refl)).
  split; [discriminate|reflexivity].
Defined.

Lemma base_rain_bounds (x : R) :
  0 <= Rmax 0.0 (25.0 + 25.0 * sin x) <= 50.
Proof.
  pose proof (SIN_bound x) as [Hlo Hhi].
  split; [eapply Rle_trans; [|apply Rmax_l]; lra|].
  apply Rmax_lub; lra.
Qed.

Lemma simulate_readings_meta (h : Host) (base_rain : R) (k : nat)
    (stations : list LiveSim.Station) :
  map (fun r => (LiveSim.id r, LiveSim.lat r, LiveSim.lon r))
      (LiveSim.simulate_readings h base_rain k stations)
  = map (fun s => (LiveSim.st_id s, LiveSim.st_lat s, LiveSim.st_lon s))
        stations.
Proof.
  revert k. induction stations as [|s rest IH]; intros k; simpl;
    [reflexivity|]. now rewrite IH.
Qed.

Lemma simulate_readings_values (h : Host) (base_rain : R) (k : nat)
    (stations : list LiveSim.Station) :
  (forall j, 0 <= random_tape h j < 1) ->
  0 <= base_rain <= 50 ->
  Forall (fun r => LiveSim.val r = 9999 \/ 0 <= LiveSim.val r < 55)
         (LiveSim.simulate_readings h base_rain k stations).
Proof.
  intros Htape Hbase. revert k.
  induction stations as [|s rest IH]; intros k; simpl; constructor;
    [|apply IH].
  simpl. destruct (Rlt_dec (random_tape h (S k)) 0.1).
  - left. rewrite Rmax_left by lra. lra.
  - right. unfold LiveSim.uniform. pose proof (Htape k) as [H0 H1].
    split; [eapply Rle_trans; [|apply Rmax_r]; lra|].
    apply Rmax_lub_lt; lra.
Qed.

(** X10. Every cycle produces one reading per station, in the stations'
    order and with their identifiers and coordinates; each value is either
    the fault value 9999 or lies in [0, 55). *)
Theorem cycle_readings_shape (h : Host) (cycle k : nat) :
  (forall j, 0 <= random_tape h j < 1) ->
  map (fun r => (LiveSim.id r, LiveSim.lat r, LiveSim.lon r))
      (LiveSim.simulate_readings h
         (Rmax 0.0 (25.0 + 25.0 * sin (INR cycle * 0.4))) k
         LiveSim.stations_meta)
  = [ ("S1", 31.10, 77.10); ("S2", 31.20, 77.20); ("S3", 31.05, 77.15) ]
  /\ Forall (fun r => LiveSim.val r = 9999 \/ 0 <= LiveSim.val r < 55)
       (LiveSim.simulate_readings h
          (Rmax 0.0 (25.0 + 25.0 * sin (INR cycle * 0.4))) k
          LiveSim.stations_meta).
Proof.
  intros Htape. split.
  - rewrite simulate_readings_meta. reflexivity.
  - apply simulate_readings_values; [exact Htape|apply base_rain_bounds].
Qed.

Lemma cycle_readings_shape_witness :
  map (fun r => (LiveSim.id r, LiveSim.lat r, LiveSim.lon r))
      (LiveSim.simulate_readings (example_host example_frame)
         (Rmax 0.0 (25.0 + 25.0 * sin (INR 1 * 0.4))) 0
         LiveSim.stations_meta)
  = [ ("S1", 31.10, 77.10); ("S2", 31.20, 77.20); ("S3", 31.05, 77.15) ]
  /\ Forall (fun r => LiveSim.val r = 9999 \/ 0 <= LiveSim.val r < 55)
       (LiveSim.simulate_readings (example_host example_frame)
          (Rmax 0.0 (25.0 + 25.0 * sin (INR 1 * 0.4))) 0
          LiveSim.stations_meta).
Proof.
  apply (cycle_readings_shape (example_host example_frame) 1 0).
  intros j. simpl. lra.
Defined.

(** ** run_live_sim.py: the saturation memory over cycles *)

Lemma update_saturation_map2 (saturation rain_grid : list R) :
  LiveSim.update_saturation saturation rain_grid =
  map2 (fun prev r => Np.clip (prev * 0.985 + r / 100.0 * 0.08) 0.05 1.0)
       saturation rain_grid.
Proof.
  unfold LiveSim.update_saturation, LiveSim.decay_rate. cbv zeta.
  now rewrite map_map2, map2_map_l, map2_map_r.
Qed.

Lemma map2_repeat_r {A B C} (f : A -> B -> C) (a : list A) (y : B) :
  map2 f a (repeat y (length a)) = map (fun x => f x y) a.
Proof. induction a as [|x a IH]; simpl; [reflexivity|]. now rewrite IH. Qed.

(** One cycle without rain. *)
Lemma dry_cycle (saturation : list R) :
  Forall (fun s => 0.05 <= s <= 1.0) saturation ->
  LiveSim.update_saturation saturation (repeat 0 (length saturation))
  = map (fun s => Rmax 0.05 (s * 0.985)) saturation.
Proof.
  intros Hs. rewrite update_saturation_map2, map2_repeat_r.
  apply map_ext_in. intros s Hin.
  rewrite Forall_forall in Hs. specialize (Hs s Hin).
  unfold Np.clip. replace (s * 0.985 + 0 / 100.0 * 0.08) with (s * 0.985) by lra.
  rewrite Rmin_left.
  - apply Rmax_comm.
  - apply Rmax_lub; lra.
Qed.

Lemma decay_pow_bounds (n : nat) : 0 < 0.985 ^ n <= 1.
Proof.
  induction n as [|n IH]; simpl; [lra|]. nra.
Qed.

Lemma floor_of_decay (s : R) (n : nat) :
  Rmax 0.05 (Rmax 0.05 (s * 0.985 ^ n) * 0.985)
  = Rmax 0.05 (s * 0.985 ^ S n).
Proof.
  simpl. unfold Rmax.
  destruct (Rle_dec 0.05 (s * 0.985 ^ n));
    destruct (Rle_dec 0.05 (s * 0.985 ^ n * 0.985));
    destruct (Rle_dec 0.05 (0.05 * 0.985));
    destruct (Rle_dec 0.05 (s * (0.985 * 0.985 ^ n))); nra.
Qed.

(** X11. A dry spell drains the memory geometrically down to its floor:
    after [n] cycles with an all-zero field, a cell that held [s] holds
    [max(0.05, s * 0.985^n)]. *)
Theorem dry_spell_decay (n : nat) (saturation : list R) :
  Forall (fun s => 0.05 <= s <= 1.0) saturation ->
  Nat.iter n
    (fun sat => LiveSim.update_saturation sat (repeat 0 (length sat)))
    saturation
  = map (fun s => Rmax 0.05 (s * 0.985 ^ n)) saturation.
Proof.
  intros Hs. induction n as [|n IH].
  - simpl. symmetry. rewrite <- (map_id saturation) at 2.
    apply map_ext_in. intros s Hin.
    rewrite Forall_forall in Hs. specialize (Hs s Hin).
    rewrite Rmult_1_r. apply Rmax_right. lra.
  - rewrite Nat.iter_succ, IH. rewrite dry_cycle.
    + rewrite map_map. apply map_ext. intros s. apply floor_of_decay.
    + apply Forall_map. eapply Forall_impl; [|exact Hs].
      intros s [Hlo Hhi]. pose proof (decay_pow_bounds n) as [Hp0 Hp1].
      split; [apply Rmax_l|]. apply Rmax_lub; nra.
Qed.

Lemma dry_spell_decay_witness :
  Nat.iter 3
    (fun sat => LiveSim.update_saturation sat (repeat 0 (length sat)))
    [0.2; 0.06]
  = map (fun s => Rmax 0.05 (s * 0.985 ^ 3)) [0.2; 0.06].
Proof.
  apply (dry_spell_decay 3 [0.2; 0.06]).
  apply Forall_cons; [lra|]. apply Forall_cons; [lra|apply Forall_nil].
Defined.

(** X12. The update is monotone: a memory that is cell-wise wetter and a
    field that is cell-wise heavier give a memory that is cell-wise no
    drier. *)
Theorem update_saturation_monotone (s1 s2 g1 g2 : list R) :
  Forall2 Rle s1 s2 ->
  Forall2 Rle g1 g2 ->
  Forall2 Rle (LiveSim.update_saturation s1 g1)
              (LiveSim.update_saturation s2 g2).
Proof.
  intros Hs Hg. rewrite !update_saturation_map2.
  revert g1 g2 Hg.
  induction Hs as [|a b s1 s2 Hab Hs IH]; intros g1 g2 Hg;
    destruct Hg as [|x y g1 g2 Hxy Hg]; simpl; constructor.
  - apply clip_mono. lra.
  - now apply IH.
Qed.

Lemma update_saturation_monotone_witness :
  Forall2 Rle (LiveSim.update_saturation [0.2; 0.3] [10; 0])
              (LiveSim.update_saturation [0.25; 0.3] [40; 5]).
Proof.
  apply (update_saturation_monotone [0.2; 0.3] [0.25; 0.3] [10; 0] [40; 5]).
  - apply Forall2_cons; [lra|]. apply Forall2_cons; [lra|apply Forall2_nil].
  - apply Forall2_cons; [lra|]. apply Forall2_cons; [lra|apply Forall2_nil].
Defined.

(** X13. A cell under 1250 mm/hr or more is driven to full saturation in
    one cycle, whatever non-negative value it held; the fault value 9999,
    which the filter lets through, does this. *)
Theorem heavy_rain_saturates_cell
    (saturation rain_grid : list R) (i : nat) (prev r : R) :
  nth_error saturation i = Some prev ->
  nth_error rain_grid i = Some r ->
  0 <= prev ->
  1250 <= r ->
  nth_error (LiveSim.update_saturation saturation rain_grid) i = Some 1.
Proof.
  intros Hprev Hr H0 Hbig.
  rewrite update_saturation_nth_error, Hprev, Hr. f_equal.
  unfold Np.clip, LiveSim.decay_rate.
  rewrite Rmax_left by lra. rewrite Rmin_right by lra. lra.
Qed.

Lemma heavy_rain_saturates_cell_witness :
  nth_error (LiveSim.update_saturation [0.2; 0.2] [9999; 12]) 0 = Some 1.
Proof.
  apply (heavy_rain_saturates_cell [0.2; 0.2] [9999; 12] 0 0.2 9999).
  - reflexivity.
  - reflexivity.
  - lra.
  - lra.
Defined.

(** ** run_live_sim.py: a cycle, the loop and the run *)

Lemma bind_print {A} (fmt : string) (args : list Py.value)
    (k : unit -> LiveSim.M A) (w : world) :
  Py.bind (LiveSim.print fmt args) k w = k tt (emit (Py.Line fmt args) w).
Proof. reflexivity. Qed.

Lemma bind_lift_ok {A B} (e : Py.ext A) (a : A) (k : A -> LiveSim.M B)
    (w : world) :
  snd e = Py.Ok a ->
  Py.bind (LiveSim.lift_ext e) k w
  = k a (fold_left (fun w l => emit l w) (fst e) w).
Proof.
  intros H. unfold Py.bind, LiveSim.lift_ext. now rewrite H.
Qed.

Lemma as_reals_length (g : list npfloat) (rs : list R) :
  LiveSim.as_reals g = Some rs -> length rs = length g.
Proof.
  revert rs. induction g as [|a g IH]; intros rs; simpl.
  - intros E. now injection E as <-.
  - destruct (is_finite a); [|discriminate].
    destruct (LiveSim.as_reals g) as [rs'|]; [|discriminate].
    intros E. injection E as <-. simpl. f_equal. now apply IH.
Qed.

Lemma update_saturation_length (saturation rain_grid : list R) :
  length (LiveSim.update_saturation saturation rain_grid)
  = Nat.min (length saturation) (length rain_grid).
Proof. rewrite update_saturation_map2. apply map2_length. Qed.

Lemma update_saturation_range (saturation rain_grid : list R) :
  Forall (fun s => 0.05 <= s <= 1.0)
         (LiveSim.update_saturation saturation rain_grid).
Proof.
  rewrite update_saturation_map2. apply map2_Forall.
  intros prev r. apply clip_range. lra.
Qed.

Lemma simulated_readings_nonempty (h : Host) (base_rain : R) (k : nat) :
  exists s0 rest,
    LiveSim.simulate_readings h base_rain k LiveSim.stations_meta
    = s0 :: rest.
Proof. unfold LiveSim.stations_meta. simpl. eauto. Qed.

(** Steps 3 to 5 go through on a field that fits a non-empty table. *)
Lemma advance_ok (df : Frame.DataFrame) (st : LiveSim.sat_state)
    (g : list R) (w : world) :
  g <> [] -> length g = Frame.len df -> memory_ok df st ->
  exists w' st',
    LiveSim.advance df st g w = (w', Py.Normal st') /\ memory_ok df st'.
Proof.
  intros Hne Hlen Hst. unfold LiveSim.advance.
  destruct (np_max_some g Hne) as [m Hm]. rewrite Hm, bind_print.
  destruct st as [s|].
  - destruct Hst as [Hs _]. cbv zeta. rewrite bind_print.
    destruct (cycle_fos_returns df (LiveSim.update_saturation s g) g Hne)
      as (fos & Hfos & _).
    { rewrite update_saturation_length, Hs, Hlen. apply Nat.min_id. }
    rewrite Hfos. cbv zeta. rewrite bind_print.
    assert (Hok : memory_ok df (LiveSim.Sat (LiveSim.update_saturation s g))).
    { split; [|apply update_saturation_range].
      rewrite update_saturation_length, Hs, Hlen. apply Nat.min_id. }
    destruct (Rlt_dec 0.05 _).
    + rewrite bind_print. eexists _, _. split; [reflexivity|exact Hok].
    + eexists _, _. split; [reflexivity|exact Hok].
  - rewrite !bind_print. eexists _, _. split; [reflexivity|exact I].
Qed.

(** A cycle on a non-empty table never raises and hands on a memory that
    fits the table. *)
Lemma cycle_body_ok (h : Host) (df : Frame.DataFrame) (cycle k : nat)
    (st : LiveSim.sat_state) (w : world) :
  Frame.rows df <> [] -> memory_ok df st ->
  exists w' st',
    LiveSim.cycle_body h df cycle k st w = (w', Py.Normal st')
    /\ memory_ok df st'.
Proof.
  intros Hrows Hst. unfold LiveSim.cycle_body. cbv zeta.
  rewrite !bind_print.
  unfold LiveSim.SensorFusionEngine.filter_anomalies.
  assert (Hlat : length (Frame.column Frame.lat df) = Frame.len df)
    by apply length_map.
  assert (Hlon : length (Frame.column Frame.lat df)
                 = length (Frame.column Frame.lon df))
    by (unfold Frame.column; now rewrite !length_map).
  destruct (rainfall_field_returns
              (LiveSim.simulate_readings h
                 (Rmax 0.0 (25.0 + 25.0 * sin (INR cycle * 0.4))) k
                 LiveSim.stations_meta)
              (Frame.column Frame.lat df) (Frame.column Frame.lon df) Hlon)
    as (g & Hg & Hglen).
  { right. unfold Frame.column. destruct (Frame.rows df);
      [congruence|discriminate]. }
  rewrite Hlat in Hg. rewrite Hg.
  change (Py.bind (LiveSim.lift_res (Py.Ok g)) ?k ?w) with (k g w).
  cbv beta.
  destruct (LiveSim.as_reals g) as [rs|] eqn:Hreal.
  - apply as_reals_length in Hreal.
    apply advance_ok; [|congruence|exact Hst].
    intros ->. simpl in Hreal. rewrite Hglen, Hlat in Hreal.
    unfold Frame.len in Hreal. destruct (Frame.rows df);
      [congruence|discriminate].
  - rewrite !bind_print. eexists _, _. split; [reflexivity|exact I].
Qed.

Lemma loop_ok (h : Host) (df : Frame.DataFrame)
    (max_cycles remaining cycle k : nat) (st : LiveSim.sat_state)
    (w : world) :
  Frame.rows df <> [] -> memory_ok df st ->
  exists w',
    LiveSim.loop h df max_cycles remaining cycle k st w = (w', Py.Normal tt).
Proof.
  intros Hrows. revert cycle k st w.
  induction remaining as [|remaining IH]; intros cycle k st w Hst; simpl.
  - eexists. reflexivity.
  - destruct (cycle_body_ok h df (S cycle) k st w Hrows Hst)
      as (w1 & st1 & Hc & Hst1).
    unfold Py.bind. rewrite Hc. apply IH. exact Hst1.
Qed.

(** On a table without rows the first cycle raises. *)
Lemma loop_on_empty_table (h : Host) (df : Frame.DataFrame)
    (max_cycles remaining cycle k : nat) (st : LiveSim.sat_state)
    (w : world) :
  Frame.rows df = [] ->
  exists w' e,
    LiveSim.loop h df max_cycles (S remaining) cycle k st w
    = (w', Py.Raised e).
Proof.
  intros Hrows. simpl. unfold LiveSim.cycle_body. cbv zeta.
  unfold Py.bind at 1. rewrite !bind_print.
  unfold LiveSim.SensorFusionEngine.filter_anomalies.
  destruct (simulated_readings_nonempty h
              (Rmax 0.0 (25.0 + 25.0 * sin (INR (S cycle) * 0.4))) k)
    as (s0 & rest & ->).
  unfold Frame.column, Frame.len. rewrite Hrows. simpl map. simpl length.
  rewrite rainfall_field_on_empty_grid. eexists _, _. reflexivity.
Qed.

Lemma initial_memory_ok (df : Frame.DataFrame) :
  memory_ok df (LiveSim.Sat (repeat 0.2 (Frame.len df))).
Proof.
  split; [apply repeat_length|].
  apply Forall_forall. intros x Hx. apply repeat_spec in Hx. lra.
Qed.

(** The [try] block, once the data set is there and the collaborators
    return. *)
Lemma live_body_after_load (h : Host) (csv_path : option string)
    (max_cycles : nat) (web_mode : bool) (df0 df : Frame.DataFrame)
    (w : world) :
  LiveSim.dataset_missing h csv_path = false ->
  snd (load_shimla_data h (LiveSim.path_of csv_path)) = Py.Ok df0 ->
  snd (estimate_soil_parameters h df0) = Py.Ok df ->
  exists w0,
    LiveSim.body h csv_path max_cycles web_mode w
    = LiveSim.loop h df max_cycles max_cycles 0 0
        (LiveSim.Sat (repeat 0.2 (Frame.len df))) w0.
Proof.
  intros Hmiss Hload Hest. unfold LiveSim.body.
  rewrite !bind_print, Hmiss.
  rewrite (bind_lift_ok _ df0) by exact Hload.
  rewrite (bind_lift_ok _ df) by exact Hest.
  eexists. reflexivity.
Qed.

(** X14. With the data set in place and the loader and soil estimator
    returning a table, the web-mode run ends with "Success" when the table
    has a row or no cycle is asked for, and with "Error" when a cycle is run
    on a table without rows. *)
Theorem live_run_status (h : Host) (csv_path : option string)
    (max_cycles : nat) (df0 df : Frame.DataFrame) (w : world) :
  LiveSim.dataset_missing h csv_path = false ->
  snd (load_shimla_data h (LiveSim.path_of csv_path)) = Py.Ok df0 ->
  snd (estimate_soil_parameters h df0) = Py.Ok df ->
  exists w' r,
    LiveSim.run_live_simulation h csv_path max_cycles true w
      = (w', Py.Ok (Some r))
    /\ logs r = captured w'
    /\ status r =
       if (max_cycles =? 0)%nat || negb (Frame.len df =? 0)%nat
       then "Success" else "Error".
Proof.
  intros Hmiss Hload Hest.
  unfold LiveSim.run_live_simulation, Py.call.
  unfold Py.bind at 1 2. unfold Py.modify at 1. simpl.
  unfold Py.try_except_finally.
  destruct (live_body_after_load h csv_path max_cycles true df0 df
              (fresh_buffer true w) Hmiss Hload Hest) as [w0 Hbody].
  rewrite Hbody.
  destruct max_cycles as [|n].
  - simpl. eexists _, _. repeat split.
  - destruct (Frame.rows df) as [|row rows] eqn:Hrows.
    + destruct (loop_on_empty_table h df (S n) n 0 0
                  (LiveSim.Sat (repeat 0.2 (Frame.len df))) w0 Hrows)
        as (w1 & e & ->).
      unfold Frame.len. rewrite Hrows. simpl. eexists _, _. repeat split.
    + destruct (loop_ok h df (S n) (S n) 0 0
                  (LiveSim.Sat (repeat 0.2 (Frame.len df))) w0)
        as (w1 & ->).
      { rewrite Hrows. discriminate. }
      { apply initial_memory_ok. }
      unfold Frame.len. rewrite Hrows. simpl. eexists _, _. repeat split.
Qed.

Lemma live_run_status_witness :
  exists w' r,
    LiveSim.run_live_simulation (example_host example_frame)
      (Some "api/uploads/grid.csv") 5 true (mkWorld false [] [])
      = (w', Py.Ok (Some r))
    /\ logs r = captured w'
    /\ status r = "Success".
Proof.
  apply (live_run_status (example_host example_frame)
           (Some "api/uploads/grid.csv") 5 example_frame example_frame
           (mkWorld false [] [])); reflexivity.
Defined.

(** X15. A cycle on a table with at least one row never raises, and the
    memory it hands to the next cycle still has one value per row, each in
    [0.05, 1.0] (or is the all-NaN memory left by a zero field). *)
Theorem cycle_keeps_memory (h : Host) (df : Frame.DataFrame) (cycle k : nat)
    (st : LiveSim.sat_state) (w : world) :
  Frame.rows df <> [] ->
  memory_ok df st ->
  exists w' st',
    LiveSim.cycle_body h df cycle k st w = (w', Py.Normal st')
    /\ memory_ok df st'.
Proof. intros Hrows Hst. now apply cycle_body_ok. Qed.

Lemma cycle_keeps_memory_witness :
  exists w' st',
    LiveSim.cycle_body (example_host example_frame) example_frame 1 0
      (LiveSim.Sat (repeat 0.2 (Frame.len example_frame)))
      (mkWorld true [] [])
    = (w', Py.Normal st')
    /\ memory_ok example_frame st'.
Proof.
  apply (cycle_keeps_memory (example_host example_frame) example_frame 1 0
           (LiveSim.Sat (repeat 0.2 (Frame.len example_frame)))
           (mkWorld true [] [])).
  - discriminate.
  - apply initial_memory_ok.
Defined.

(** ** Command-line mode: nothing is captured *)

Lemma emit_console (l : Py.line) (w : world) :
  redirected w = false ->
  redirected (emit l w) = false /\ captured (emit l w) = captured w.
Proof. intros H. unfold emit. rewrite H. simpl. auto. Qed.

Lemma console_only_ret {Ret A} (a : A) :
  console_only (@Py.ret world Ret A a).
Proof. intros w H. simpl. auto. Qed.

Lemma console_only_raise {Ret A} (e : Py.exn) :
  console_only (@Py.raise world Ret A e).
Proof. intros w H. simpl. auto. Qed.

Lemma console_only_return {Ret A} (r : Ret) :
  console_only (@Py.return_ world Ret A r).
Proof. intros w H. simpl. auto. Qed.

Lemma console_only_get {Ret} : console_only (@Py.get world Ret).
Proof. intros w H. simpl. auto. Qed.

Lemma console_only_bind {Ret A B} (m : Py.M world Ret A)
    (k : A -> Py.M world Ret B) :
  console_only m -> (forall a, console_only (k a)) ->
  console_only (Py.bind m k).
Proof.
  intros Hm Hk w Hw. unfold Py.bind. specialize (Hm w Hw).
  destruct (m w) as [w1 [a|r|e]]; simpl in *; try exact Hm.
  destruct Hm as [Hr Hc]. destruct (Hk a w1 Hr) as [Hr' Hc'].
  split; [exact Hr'|congruence].
Qed.

Lemma console_only_print (fmt : string) (args : list Py.value) :
  console_only (LiveSim.print fmt args).
Proof. intros w H. simpl. now apply emit_console. Qed.

Lemma console_only_lift_ext {A} (e : Py.ext A) :
  console_only (LiveSim.lift_ext e).
Proof.
  intros w H. unfold LiveSim.lift_ext. simpl.
  revert w H. induction (fst e) as [|l ls IH]; intros w H; simpl; [auto|].
  destruct (emit_console l w H) as [Hr Hc].
  destruct (IH (emit l w) Hr) as [Hr' Hc']. split; [exact Hr'|congruence].
Qed.

Lemma console_only_lift_res {A} (r : Py.res A) :
  console_only (LiveSim.lift_res r).
Proof. destruct r; [apply console_only_ret|apply console_only_raise]. Qed.

Ltac console_step :=
  first [ apply console_only_bind; [|intros ?]
        | apply console_only_print
        | apply console_only_lift_ext
        | apply console_only_lift_res
        | apply console_only_ret
        | apply console_only_raise
        | apply console_only_return
        | apply console_only_get ].

Lemma console_only_advance (df : Frame.DataFrame) (st : LiveSim.sat_state)
    (g : list R) : console_only (LiveSim.advance df st g).
Proof.
  unfold LiveSim.advance. destruct (Np.max g); [|console_step].
  console_step; [console_step|]. destruct st.
  - console_step; [console_step|].
    destruct (LiveSim.cycle_fos _ _ _); [|console_step].
    cbv zeta. console_step; [console_step|]. console_step; [|console_step].
    destruct (Rlt_dec _ _); console_step.
  - repeat console_step.
Qed.

Lemma console_only_cycle (h : Host) (df : Frame.DataFrame) (cycle k : nat)
    (st : LiveSim.sat_state) :
  console_only (LiveSim.cycle_body h df cycle k st).
Proof.
  unfold LiveSim.cycle_body. cbv zeta.
  do 3 (console_step; [console_step|]).
  destruct (LiveSim.as_reals _); [apply console_only_advance|].
  repeat console_step.
Qed.

Lemma console_only_loop (h : Host) (df : Frame.DataFrame)
    (max_cycles remaining cycle k : nat) (st : LiveSim.sat_state) :
  console_only (LiveSim.loop h df max_cycles remaining cycle k st).
Proof.
  revert cycle k st. induction remaining as [|remaining IH]; intros; simpl.
  - console_step.
  - console_step; [apply console_only_cycle|apply IH].
Qed.

Lemma console_only_live_body (h : Host) (csv_path : option string)
    (max_cycles : nat) :
  console_only (LiveSim.body h csv_path max_cycles false).
Proof.
  unfold LiveSim.body.
  do 3 (console_step; [console_step|]).
  destruct (LiveSim.dataset_missing h csv_path).
  - repeat console_step.
  - do 2 (console_step; [console_step|]). apply console_only_loop.
Qed.

(** How the [try] block of the live simulation can end on the command
    line. *)
Lemma live_body_outcome_cli (h : Host) (csv_path : option string)
    (max_cycles : nat) (w0 : world) :
  match LiveSim.body h csv_path max_cycles false w0 with
  | (w1, Py.Normal _) => LiveSim.dataset_missing h csv_path = false
  | (w1, Py.Return r) =>
      LiveSim.dataset_missing h csv_path = true /\ r = None
  | (w1, Py.Raised _) => LiveSim.dataset_missing h csv_path = false
  end.
Proof.
  unfold LiveSim.body.
  destruct (LiveSim.dataset_missing h csv_path) eqn:Hmiss.
  - unfold Py.bind, LiveSim.print, Py.modify, Py.return_. simpl. auto.
  - set (rest := Py.bind (LiveSim.lift_ext _) _).
    assert (Hrest : Py.no_return rest).
    { unfold rest. flow_step; [flow_step|]. flow_step; [flow_step|].
      apply live_no_return_loop. }
    unfold Py.bind at 1 2 3. unfold LiveSim.print, Py.modify. simpl.
    match goal with |- context [rest ?s] => specialize (Hrest s);
      destruct (rest s) as [w1 [a|r|e]] end; simpl in *; auto; contradiction.
Qed.

(** X16. Run from the command line ([web_mode=False]) with a bounded number
    of cycles, the live simulation prints to the console only: it returns
    [None] when the data set is missing and when it completes, and on an
    exception it returns an "Error" record whose log is empty. *)
Theorem live_run_on_command_line (h : Host) (csv_path : option string)
    (max_cycles : nat) (w : world) :
  redirected w = false ->
  exists w',
    LiveSim.run_live_simulation h csv_path max_cycles false w
    = (w',
       Py.Ok
         (if LiveSim.dataset_missing h csv_path then None
          else if Py.raises (LiveSim.body h csv_path max_cycles false)
                    (fresh_buffer false w)
               then Some (mkResponse "Error" [] NoExtra)
               else None))
    /\ redirected w' = false
    /\ captured w' = [].
Proof.
  intros Hw.
  assert (Hw0 : redirected (fresh_buffer false w) = false) by exact Hw.
  unfold LiveSim.run_live_simulation, Py.call, Py.raises.
  unfold Py.bind at 1 2. unfold Py.modify at 1. simpl.
  unfold Py.try_except_finally.
  pose proof (live_body_outcome_cli h csv_path max_cycles
                (fresh_buffer false w)) as Hb.
  pose proof (console_only_live_body h csv_path max_cycles
                (fresh_buffer false w) Hw0) as [Hr Hc].
  destruct (LiveSim.body h csv_path max_cycles false (fresh_buffer false w))
    as [w1 [a|r|e]]; simpl in *.
  - rewrite Hb. eexists. repeat split; assumption.
  - destruct Hb as [-> ->]. eexists. repeat split; assumption.
  - rewrite Hb. unfold LiveSim.error_response.
    destruct (emit_console
                (Py.Line "Error during simulation: {}"
                   [Py.VStr (match e with Py.Exception what => what end)])
                w1 Hr) as [Hr' Hc'].
    rewrite Hc in Hc'. simpl in Hc'.
    eexists. split; [|split].
    + unfold LiveSim.handler, LiveSim.print, Py.bind, Py.modify, Py.get,
        Py.return_. simpl. rewrite Hc'. reflexivity.
    + unfold LiveSim.handler, LiveSim.print, Py.bind, Py.modify, Py.get,
        Py.return_. simpl. exact Hr'.
    + unfold LiveSim.handler, LiveSim.print, Py.bind, Py.modify, Py.get,
        Py.return_. simpl. exact Hc'.
Qed.

Lemma live_run_on_command_line_witness :
  exists w',
    LiveSim.run_live_simulation (example_host example_frame) None 5 false
      (mkWorld false [] [])
    = (w', Py.Ok None)
    /\ redirected w' = false
    /\ captured w' = [].
Proof.
  apply (live_run_on_command_line (example_host example_frame) None 5
           (mkWorld false [] [])).
  reflexivity.
Defined.

(** ** run_backtest.py *)

Lemma search_found (h : Host) (cands : list string) (p : string) :
  Backtest.search h cands = Some p -> path_exists h p = true.
Proof.
  induction cands as [|c cands IH]; simpl; [discriminate|].
  destruct (path_exists h (Backtest.path_join (current_dir h) c)) eqn:E1.
  - intros E. now injection E as <-.
  - destruct (path_exists h c) eqn:E2; [|exact IH].
    intros E. now injection E as <-.
Qed.

Lemma search_none (h : Host) (cands : list string) :
  Backtest.search h cands = None
  <-> Forall (fun c =>
                path_exists h (Backtest.path_join (current_dir h) c) = false
                /\ path_exists h c = false) cands.
Proof.
  induction cands as [|c cands IH]; simpl.
  - split; [constructor|reflexivity].
  - destruct (path_exists h (Backtest.path_join (current_dir h) c)) eqn:E1.
    + split; [discriminate|]. intros H. inversion H as [|? ? [H1 _] _].
      congruence.
    + destruct (path_exists h c) eqn:E2.
      * split; [discriminate|]. intros H. inversion H as [|? ? [_ H2] _].
        congruence.
      * rewrite IH. split.
        -- intros H. constructor; auto.
        -- intros H. now inversion H.
Qed.

(** X17. The backtest only ever opens a path that [os.path.exists]
    confirmed: the given one when it is there, else the first of the three
    fallback names found next to the script or in the working directory;
    it gives up exactly when the given path is missing and none of the six
    places exists. *)
Theorem backtest_resolves_existing_path (h : Host)
    (csv_path : option string) :
  (forall p, Backtest.resolve h csv_path = Some p -> path_exists h p = true)
  /\ (Backtest.resolve h csv_path = None
      <-> LiveSim.dataset_missing h csv_path = true
          /\ Forall (fun c =>
                       path_exists h
                         (Backtest.path_join (current_dir h) c) = false
                       /\ path_exists h c = false)
                    Backtest.candidates)
  /\ (LiveSim.dataset_missing h csv_path = false ->
      Backtest.resolve h csv_path = csv_path).
Proof.
  unfold Backtest.resolve.
  destruct (LiveSim.dataset_missing h csv_path) eqn:Hmiss.
  - split; [|split].
    + intros p. apply search_found.
    + rewrite search_none. tauto.
    + discriminate.
  - split; [|split].
    + intros p ->. unfold LiveSim.dataset_missing in Hmiss.
      apply orb_false_iff in Hmiss. destruct Hmiss as [_ Hex].
      now apply negb_false_iff in Hex.
    + split; [|intros [? _]; discriminate].
      intros ->. discriminate.
    + reflexivity.
Qed.

Lemma bind_output {A} (fmt : string) (args : list Py.value)
    (k : unit -> Backtest.M A) (s : world * list Py.line) :
  Py.bind (Backtest.output fmt args) k s
  = k tt (fst s, snd s ++ [Py.Line fmt args]).
Proof. reflexivity. Qed.

Lemma bind_backtest_lift_ok {A B} (e : Py.ext A) (a : A)
    (k : A -> Backtest.M B) (s : world * list Py.line) :
  snd e = Py.Ok a ->
  Py.bind (Backtest.lift_ext e) k s
  = k a (fold_left (fun w l => emit l w) (fst e) (fst s), snd s).
Proof.
  intros H. unfold Py.bind, Backtest.lift_ext. now rewrite H.
Qed.

Lemma backtest_shape (df : Frame.DataFrame) (x : R) :
  Fos.same_shape (Frame.column Frame.slope df) (Frame.soil_params df)
    (repeat x (Frame.len df)) = true.
Proof.
  apply same_shape_true. unfold Frame.soil_params, Frame.column, Frame.len.
  simpl. rewrite !length_map, repeat_length. repeat split.
Qed.

(** One month: the model is called on arrays of one shape, so the pass
    completes; it cannot count more hotspots than the table has rows. *)
Lemma month_body_ok (df : Frame.DataFrame) (month : string)
    (s : world * list Py.line) :
  exists s' hotspots,
    Backtest.month_body df month s
    = (s', Py.Normal (month, hotspots,
                      if Backtest.is_july month then 45.0 else 10.0))
    /\ (hotspots <= Frame.len df)%nat.
Proof.
  unfold Backtest.month_body. cbv zeta. rewrite bind_output.
  unfold Fos.compute_fos_vectorized. rewrite backtest_shape.
  rewrite !bind_output. eexists _, _. split; [reflexivity|].
  eapply Nat.le_trans; [apply filter_length_le|].
  rewrite length_map, rows_length.
  - unfold Frame.column. now rewrite length_map.
  - unfold Frame.soil_params, Frame.column; simpl; now rewrite !length_map.
  - unfold Frame.soil_params, Frame.column; simpl; now rewrite !length_map.
  - unfold Frame.soil_params, Frame.column; simpl; now rewrite !length_map.
  - unfold Frame.soil_params, Frame.column; simpl; now rewrite !length_map.
  - unfold Frame.soil_params, Frame.column; simpl; now rewrite !length_map.
  - unfold Frame.column, Frame.len. now rewrite length_map, repeat_length.
Qed.

Lemma month_loop_ok (df : Frame.DataFrame) (ms : list string)
    (results : list (string * nat * R)) (s : world * list Py.line) :
  exists s' more,
    Backtest.month_loop df ms results s = (s', Py.Normal (results ++ more))
    /\ map (fun x => fst (fst x)) more = ms
    /\ Forall (fun x =>
                 (snd (fst x) <= Frame.len df)%nat
                 /\ snd x = if Backtest.is_july (fst (fst x))
                            then 45.0 else 10.0) more.
Proof.
  revert results s. induction ms as [|m ms IH]; intros results s; simpl.
  - exists s, []. rewrite app_nil_r. repeat split. constructor.
  - destruct (month_body_ok df m s) as (s1 & hs & Hm & Hle).
    unfold Py.bind at 1. rewrite Hm.
    destruct (IH (results ++ [(m, hs,
                               if Backtest.is_july m then 45.0 else 10.0)]) s1)
      as (s2 & more & Hloop & Hnames & Hall).
    exists s2, ((m, hs, if Backtest.is_july m then 45.0 else 10.0) :: more).
    rewrite Hloop, <- app_assoc. simpl. split; [reflexivity|].
    split; [now rewrite Hnames|]. constructor; [simpl; auto|exact Hall].
Qed.

Lemma summary_ok (results : list (string * nat * R))
    (s : world * list Py.line) :
  exists s', Backtest.summary results s = (s', Py.Normal tt).
Proof.
  revert s. induction results as [|[[m hs] i] rest IH]; intros s; simpl.
  - eexists. reflexivity.
  - rewrite bind_output. apply IH.
Qed.

(** X18. Once a data set is found and the loader and soil estimator return
    a table, the backtest always ends with "Success": it reports one result
    per monthly column that the table has, in the order June, July, each
    with 10 mm/hr (45 mm/hr for July) and with a hotspot count that does not
    exceed the number of rows; a table without these columns gives
    "Success" with no result. *)
Theorem backtest_success (h : Host) (csv_path : option string) (p : string)
    (df0 df : Frame.DataFrame) (w : world) :
  Backtest.resolve h csv_path = Some p ->
  snd (load_shimla_data h p) = Py.Ok df0 ->
  snd (estimate_soil_parameters h df0) = Py.Ok df ->
  exists s' r results,
    Backtest.backtest_event h csv_path w = (s', Py.Ok (Some r))
    /\ status r = "Success"
    /\ logs r = snd s'
    /\ payload r = Results results
    /\ map (fun x => fst (fst x)) results
       = filter (fun m => Frame.has_column m df) Backtest.months
    /\ Forall (fun x =>
                 (snd (fst x) <= Frame.len df)%nat
                 /\ snd x = if Backtest.is_july (fst (fst x))
                            then 45.0 else 10.0) results.
Proof.
  intros Hres Hload Hest.
  unfold Backtest.backtest_event, Py.call. unfold Py.bind at 1.
  destruct (Backtest.prologue (w, [])) as [s0 f0] eqn:Hpro.
  assert (Hf0 : f0 = Py.Normal tt) by (inversion Hpro; reflexivity).
  subst f0. rewrite Hres. unfold Py.try_except_finally, Backtest.body.
  rewrite (bind_backtest_lift_ok _ df0) by exact Hload.
  rewrite (bind_backtest_lift_ok _ df) by exact Hest.
  cbv zeta.
  set (ms := filter (fun m => Frame.has_column m df) Backtest.months).
  set (s1 := (fold_left (fun w l => emit l w) _ _, snd _)).
  assert (Hpre : exists s2,
             forall (k : unit -> Backtest.M unit),
               Py.bind
                 (match ms with
                  | [] =>
                      Py.bind
                        (Backtest.output
                           "Historical rainfall columns (2023-06-01, 2023-07-01) not found." [])
                        (fun _ =>
                           Backtest.output "Available columns: {}..."
                             [Py.VStrs (firstn 5 (Frame.columns df))])
                  | _ :: _ => Py.ret tt
                  end) k s1 = k tt s2).
  { destruct ms; eexists; intros k; reflexivity. }
  destruct Hpre as [s2 Hpre]. rewrite Hpre.
  destruct (month_loop_ok df ms [] s2) as (s3 & results & Hloop & Hn & Hall).
  unfold Py.bind at 1. rewrite Hloop. simpl app.
  rewrite bind_output.
  set (s4 := (fst s3, _)).
  assert (Hmid : exists s5,
             forall (k : unit -> Backtest.M unit),
               Py.bind
                 (match results with
                  | [] => Backtest.output "No historical data to process." []
                  | _ :: _ => Py.ret tt
                  end) k s4 = k tt s5).
  { destruct results; eexists; intros k; reflexivity. }
  destruct Hmid as [s5 Hmid]. rewrite Hmid.
  destruct (summary_ok results s5) as [s6 Hsum].
  unfold Py.bind at 1. rewrite Hsum.
  assert (Hend : exists s7,
             forall (k : unit -> Backtest.M unit),
               Py.bind
                 (match results with
                  | [] => Py.ret tt
                  | _ :: _ =>
                      Backtest.output
                        "Verification: July 2023 should have high alerts." []
                  end) k s6 = k tt s7).
  { destruct results; eexists; intros k; reflexivity. }
  destruct Hend as [s7 Hend]. rewrite Hend.
  simpl. exists s7, (mkResponse "Success" (snd s7) (Results results)), results.
  repeat split; assumption.
Qed.

Lemma backtest_success_witness :
  exists s' r results,
    Backtest.backtest_event (example_host example_frame)
      (Some "api/uploads/grid.csv") (mkWorld false [] [])
    = (s', Py.Ok (Some r))
    /\ status r = "Success"
    /\ logs r = snd s'
    /\ payload r = Results results
    /\ map (fun x => fst (fst x)) results
       = filter (fun m => Frame.has_column m example_frame) Backtest.months
    /\ Forall (fun x =>
                 (snd (fst x) <= Frame.len example_frame)%nat
                 /\ snd x = if Backtest.is_july (fst (fst x))
                            then 45.0 else 10.0) results.
Proof.
  apply (backtest_success (example_host example_frame)
           (Some "api/uploads/grid.csv") "api/uploads/grid.csv"
           example_frame example_frame (mkWorld false [] []));
    reflexivity.
Defined.

(** ** app_fastapi.py: the three routes *)

(** In web mode each entry point hands a record back. *)
Lemma live_web_returns (h : Host) (csv_path : option string)
    (max_cycles : nat) (w : world) :
  exists w' r,
    LiveSim.run_live_simulation h csv_path max_cycles true w
    = (w', Py.Ok (Some r)).
Proof.
  unfold LiveSim.run_live_simulation, Py.call.
  unfold Py.bind at 1 2. unfold Py.modify at 1. simpl.
  unfold Py.try_except_finally.
  pose proof (live_body_outcome h csv_path max_cycles (fresh_buffer true w))
    as Hb.
  destruct (LiveSim.body h csv_path max_cycles true (fresh_buffer true w))
    as [w1 [a|r|e]]; simpl in *.
  - eexists _, _. reflexivity.
  - destruct Hb as [_ ->]. eexists _, _. reflexivity.
  - eexists _, _. reflexivity.
Qed.

Lemma demo_web_returns (h : Host) (csv_path : option string) (w : world) :
  exists w' r,
    QuickDemo.run_demo_event h csv_path true w = (w', Py.Ok (Some r)).
Proof.
  unfold QuickDemo.run_demo_event, Py.call.
  unfold Py.bind at 1 2. unfold Py.modify at 1. simpl.
  unfold Py.try_except_finally.
  pose proof (demo_body_outcome h csv_path (fresh_buffer true w)) as Hb.
  destruct (QuickDemo.body h csv_path true (fresh_buffer true w))
    as [w1 [a|r|e]]; simpl in *.
  - eexists _, _. reflexivity.
  - destruct Hb as [_ ->]. eexists _, _. reflexivity.
  - eexists _, _. reflexivity.
Qed.

Lemma backtest_returns (h : Host) (csv_path : option string) (w : world) :
  exists s' r,
    Backtest.backtest_event h csv_path w = (s', Py.Ok (Some r)).
Proof.
  unfold Backtest.backtest_event, Py.call. unfold Py.bind at 1.
  destruct (Backtest.prologue (w, [])) as [s0 f0] eqn:Hpro.
  assert (Hf0 : f0 = Py.Normal tt) by (inversion Hpro; reflexivity).
  subst f0.
  destruct (Backtest.resolve h csv_path) as [p|].
  - unfold Py.try_except_finally.
    pose proof (backtest_body_outcome h p s0) as Hb.
    destruct (Backtest.body h p s0) as [s1 [a|r|e]]; simpl in *.
    + contradiction.
    + destruct Hb as [results ->]. eexists _, _. reflexivity.
    + eexists _, _. reflexivity.
  - simpl. eexists _, _. reflexivity.
Qed.

(** X19. A request whose JSON object has a string under "dataset_file" gets
    a status record from each of the three routes; a request without that
    key, or with a value that is not a string, makes each route raise
    before the entry point is called, with nothing printed: at this level
    the exception is not turned into a record. *)
Theorem routes_raise_on_bad_request (h : Host)
    (data : string -> option App.json) (w : world) :
  match data "dataset_file" with
  | Some (App.JStr name) =>
      (exists w' r, App.backtest h data w = (w', Py.Ok (Some r)))
      /\ (exists w' r, App.live_sim h data w = (w', Py.Ok (Some r)))
      /\ (exists w' r, App.quick_demo h data w = (w', Py.Ok (Some r)))
  | _ =>
      exists e,
        App.backtest h data w = (w, Py.Raise e)
        /\ App.live_sim h data w = (w, Py.Raise e)
        /\ App.quick_demo h data w = (w, Py.Raise e)
  end.
Proof.
  unfold App.backtest, App.live_sim, App.quick_demo, App.dataset_path.
  destruct (data "dataset_file") as [[name|]|].
  - split; [|split].
    + destruct (backtest_returns h
                  (Some (App.os_path_join App.UPLOAD_DIR name)) w)
        as (s' & r & ->). eexists _, _. reflexivity.
    + apply live_web_returns.
    + apply demo_web_returns.
  - eexists. repeat split.
  - eexists. repeat split.
Qed.

Lemma join_upload_dir (name : string) :
  App.os_path_join App.UPLOAD_DIR name
  = if App.starts_with_slash name then name
    else ("api/uploads/" ++ name)%string.
Proof.
  unfold App.os_path_join. destruct (App.starts_with_slash name);
    reflexivity.
Qed.

(** X20. The file name of a request is joined to the upload directory with
    [os.path.join]: a relative name is looked up under "api/uploads/", an
    absolute name replaces the directory and is opened as it stands.  The
    resulting path is never empty, so the data set counts as missing
    exactly when the path does not exist. *)
Theorem route_path_follows_os_path_join (h : Host)
    (data : string -> option App.json) (name : string) :
  data "dataset_file" = Some (App.JStr name) ->
  exists p,
    App.dataset_path data = Py.Ok p
    /\ p = (if App.starts_with_slash name then name
            else ("api/uploads/" ++ name)%string)
    /\ LiveSim.dataset_missing h (Some p) = negb (path_exists h p).
Proof.
  intros Hdata. unfold App.dataset_path. rewrite Hdata.
  rewrite join_upload_dir. eexists. split; [reflexivity|].
  split; [reflexivity|].
  unfold LiveSim.dataset_missing.
  destruct (App.starts_with_slash name) eqn:Hs.
  - destruct name as [|ch rest]; [discriminate|]. reflexivity.
  - reflexivity.
Qed.

Lemma route_path_follows_os_path_join_witness :
  exists p,
    App.dataset_path
      (fun key => if String.eqb key "dataset_file"
                  then Some (App.JStr "/etc/grid.csv") else None)
    = Py.Ok p
    /\ p = "/etc/grid.csv"
    /\ LiveSim.dataset_missing (example_host example_frame) (Some p)
       = negb (path_exists (example_host example_frame) p).
Proof.
  apply (route_path_follows_os_path_join (example_host example_frame)
           (fun key => if String.eqb key "dataset_file"
                       then Some (App.JStr "/etc/grid.csv") else None)
           "/etc/grid.csv").
  reflexivity.
Defined.

(** ** run_quick_demo.py *)

(** X21. The quick demo in web mode ends with "Success" and the image of
    the reporting stage whenever the data set exists, the loader and soil
    estimator return a table, the antecedent-rain column (if present) and
    the residual have one value per row, and the reporting stage accepts a
    FoS array of that size together with risks in [0, 1]; these are the
    arrays it is handed. *)
Theorem demo_success (h : Host) (csv_path : option string)
    (df0 df : Frame.DataFrame) (residual : list R) (w : world) :
  LiveSim.dataset_missing h csv_path = false ->
  snd (load_shimla_data h (LiveSim.path_of csv_path)) = Py.Ok df0 ->
  snd (estimate_soil_parameters h df0) = Py.Ok df ->
  length (QuickDemo.initial_sat df) = Frame.len df ->
  snd (predict_residual h (QuickDemo.ml_feats df)) = Py.Ok residual ->
  length residual = Frame.len df ->
  (forall fos risk,
      length fos = Frame.len df ->
      length risk = Frame.len df ->
      Forall (fun r => 0 <= r <= 1) risk ->
      exists img, snd (present h df fos risk true) = Py.Ok img) ->
  exists w' r img,
    QuickDemo.run_demo_event h csv_path true w = (w', Py.Ok (Some r))
    /\ status r = "Success"
    /\ payload r = Image img
    /\ logs r = captured w'.
Proof.
  intros Hmiss Hload Hest Hsat Hres Hreslen Hpresent.
  unfold QuickDemo.run_demo_event, Py.call.
  unfold Py.bind at 1 2. unfold Py.modify at 1. simpl.
  unfold Py.try_except_finally.
  assert (Hbody : exists w1 img,
             QuickDemo.body h csv_path true (fresh_buffer true w)
             = (w1, Py.Normal img)).
  { unfold QuickDemo.body. rewrite bind_print, Hmiss.
    rewrite (bind_lift_ok _ df0) by exact Hload.
    rewrite (bind_lift_ok _ df) by exact Hest.
    rewrite !bind_print.
    assert (Hshape : Fos.same_shape (Frame.column Frame.slope df)
                       (Frame.soil_params df) (QuickDemo.initial_sat df)
                     = true).
    { apply same_shape_true. unfold Frame.soil_params, Frame.column. simpl.
      rewrite !length_map. unfold Frame.len in Hsat. repeat split; auto. }
    unfold Fos.compute_fos_vectorized. rewrite Hshape.
    rewrite (bind_lift_ok _ residual) by exact Hres.
    set (fos_values := Fos.rows _ _ _ _ _ _ _ _ _).
    assert (Hfl : length fos_values = Frame.len df).
    { apply same_shape_true in Hshape.
      destruct Hshape as (H1 & H2 & H3 & H4 & H5 & H6).
      unfold fos_values. rewrite rows_length by assumption.
      apply length_map. }
    unfold QuickDemo.np_add. rewrite Hfl, Hreslen, Nat.eqb_refl.
    change (Py.bind (LiveSim.lift_res (Py.Ok ?x)) ?k ?s) with (k x s).
    cbv beta zeta.
    destruct (Hpresent (map2 Rplus fos_values residual)
                (map QuickDemo.fos_to_risk (map2 Rplus fos_values residual)))
      as [img Himg].
    - rewrite map2_length, Hfl, Hreslen. apply Nat.min_id.
    - rewrite length_map, map2_length, Hfl, Hreslen. apply Nat.min_id.
    - apply Forall_map, Forall_forall. intros f _.
      rewrite demo_risk_is_logistic. apply logistic_at_range.
    - unfold LiveSim.lift_ext. rewrite Himg. eexists _, _. reflexivity. }
  destruct Hbody as (w1 & img & ->). simpl.
  eexists _, _, img. repeat split.
Qed.

Lemma demo_success_witness :
  exists w' r img,
    QuickDemo.run_demo_event (example_host example_frame)
      (Some "api/uploads/grid.csv") true (mkWorld false [] [])
    = (w', Py.Ok (Some r))
    /\ status r = "Success"
    /\ payload r = Image img
    /\ logs r = captured w'.
Proof.
  apply (demo_success (example_host example_frame)
           (Some "api/uploads/grid.csv") example_frame example_frame
           (repeat 0 (length (QuickDemo.ml_feats example_frame)))
           (mkWorld false [] [])).
  - reflexivity.
  - reflexivity.
  - reflexivity.
  - reflexivity.
  - reflexivity.
  - reflexivity.
  - intros fos risk _ _ _. exists None. reflexivity.
Defined.

(** ** run_live_sim.py: the zero field is reached by the loop *)

Lemma sin_lb_value (a : R) :
  sin_lb a = a - a ^ 3 / 6 + a ^ 5 / 120 - a ^ 7 / 5040.
Proof.
  unfold sin_lb, sin_approx. cbn [sum_f_R0]. unfold sin_term.
  rewrite !INR_IZR_INZ.
  change (Z.of_nat (fact (2 * 0 + 1))) with 1%Z.
  change (Z.of_nat (fact (2 * 1 + 1))) with 6%Z.
  change (Z.of_nat (fact (2 * 2 + 1))) with 120%Z.
  change (Z.of_nat (fact (2 * 3 + 1))) with 5040%Z.
  cbn [pow Nat.mul Nat.add]. field.
Qed.

Lemma cos_lb_value (a : R) :
  cos_lb a = 1 - a ^ 2 / 2 + a ^ 4 / 24 - a ^ 6 / 720.
Proof.
  unfold cos_lb, cos_approx. cbn [sum_f_R0]. unfold cos_term.
  rewrite !INR_IZR_INZ.
  change (Z.of_nat (fact (2 * 0))) with 1%Z.
  change (Z.of_nat (fact (2 * 1))) with 2%Z.
  change (Z.of_nat (fact (2 * 2))) with 24%Z.
  change (Z.of_nat (fact (2 * 3))) with 720%Z.
  cbn [pow Nat.mul Nat.add]. field.
Qed.

Lemma sin_1_2_lower : 0.93 <= sin 1.2.
Proof.
  pose proof PI2_3_2 as Hpi.
  destruct (SIN 1.2) as [Hlb _]; [lra|lra|].
  rewrite sin_lb_value in Hlb. lra.
Qed.

Lemma cos_1_2_lower : 0.36 <= cos 1.2.
Proof.
  pose proof PI2_3_2 as Hpi.
  destruct (COS 1.2) as [Hlb _]; [lra|lra|].
  rewrite cos_lb_value in Hlb. lra.
Qed.

(** The sine that sets the base rain of cycle 12. *)
Lemma sin_4_8_upper : sin 4.8 <= -0.97.
Proof.
  pose proof sin_1_2_lower as Hs. pose proof cos_1_2_lower as Hc.
  pose proof (SIN_bound 1.2) as [_ Hs1].
  pose proof (COS_bound 1.2) as [_ Hc1].
  replace 4.8 with (2 * (2 * 1.2)) by lra.
  rewrite sin_2a, cos_2a_sin, sin_2a.
  set (s := sin 1.2) in *. set (c := cos 1.2) in *.
  assert (H1 : 1.33 <= 2 * (2 * s * c)) by nra.
  assert (H2 : 1 - 2 * s * s <= -0.72) by nra.
  assert (H3 : 2 * (2 * s * c) <= 4) by nra.
  nra.
Qed.

Lemma base_rain_of_cycle_12 :
  Rmax 0.0 (25.0 + 25.0 * sin (INR 12 * 0.4)) <= 0.75.
Proof.
  replace (INR 12 * 0.4) with 4.8 by (simpl; lra).
  pose proof sin_4_8_upper. apply Rmax_lub; lra.
Qed.

Lemma simulate_readings_zero_below (h : Host) (base_rain : R) (k : nat)
    (stations : list LiveSim.Station) :
  (forall j, 0.1 <= random_tape h j <= 0.42) ->
  base_rain <= 0.75 ->
  Forall (fun s => LiveSim.val s = 0)
         (LiveSim.simulate_readings h base_rain k stations).
Proof.
  intros Htape Hbase. revert k.
  induction stations as [|s rest IH]; intros k; simpl; constructor;
    [|apply IH].
  simpl. unfold LiveSim.uniform.
  pose proof (Htape k) as [Ha Hb]. pose proof (Htape (S k)) as [Hc Hd].
  destruct (Rlt_dec (random_tape h (S k)) 0.1) as [Hlt|_]; [lra|].
  rewrite Rmax_right by lra. lra.
Qed.

Lemma cycle_with_zero_readings (h : Host) (df : Frame.DataFrame)
    (cycle k : nat) (st : LiveSim.sat_state) (w : world) :
  Frame.rows df <> [] ->
  Forall (fun s => LiveSim.val s = 0)
         (LiveSim.simulate_readings h
            (Rmax 0.0 (25.0 + 25.0 * sin (INR cycle * 0.4))) k
            LiveSim.stations_meta) ->
  exists w',
    LiveSim.cycle_body h df cycle k st w = (w', Py.Normal LiveSim.SatNaN).
Proof.
  intros Hrows Hzero. unfold LiveSim.cycle_body. cbv zeta.
  rewrite !bind_print.
  unfold LiveSim.SensorFusionEngine.filter_anomalies.
  assert (Hlat : Frame.len df = length (Frame.column Frame.lat df))
    by (symmetry; apply length_map).
  rewrite Hlat.
  rewrite field_of_zero_readings.
  - change (Py.bind (LiveSim.lift_res (Py.Ok ?g)) ?k ?w) with (k g w).
    cbv beta.
    destruct (Frame.column Frame.lat df) as [|la lats] eqn:Hcol.
    + unfold Frame.column in Hcol. destruct (Frame.rows df);
        [congruence|discriminate].
    + change (length (la :: lats)) with (S (length lats)).
      rewrite as_reals_nan. rewrite !bind_print.
      eexists. reflexivity.
  - destruct (simulated_readings_nonempty h
                (Rmax 0.0 (25.0 + 25.0 * sin (INR cycle * 0.4))) k)
      as (s0 & rest & ->). discriminate.
  - exact Hzero.
  - unfold Frame.column. now rewrite !length_map.
  - unfold Frame.column. destruct (Frame.rows df);
      [congruence|discriminate].
Qed.

Lemma cycle_from_nan (h : Host) (df : Frame.DataFrame) (cycle k : nat)
    (w : world) :
  Frame.rows df <> [] ->
  exists w',
    LiveSim.cycle_body h df cycle k LiveSim.SatNaN w
    = (w', Py.Normal LiveSim.SatNaN).
Proof.
  intros Hrows. unfold LiveSim.cycle_body. cbv zeta.
  rewrite !bind_print.
  unfold LiveSim.SensorFusionEngine.filter_anomalies.
  assert (Hlat : length (Frame.column Frame.lat df) = Frame.len df)
    by apply length_map.
  assert (Hlon : length (Frame.column Frame.lat df)
                 = length (Frame.column Frame.lon df))
    by (unfold Frame.column; now rewrite !length_map).
  destruct (rainfall_field_returns
              (LiveSim.simulate_readings h
                 (Rmax 0.0 (25.0 + 25.0 * sin (INR cycle * 0.4))) k
                 LiveSim.stations_meta)
              (Frame.column Frame.lat df) (Frame.column Frame.lon df) Hlon)
    as (g & Hg & Hglen).
  { right. unfold Frame.column. destruct (Frame.rows df);
      [congruence|discriminate]. }
  rewrite Hlat in Hg. rewrite Hg.
  change (Py.bind (LiveSim.lift_res (Py.Ok g)) ?k ?w) with (k g w).
  cbv beta.
  destruct (LiveSim.as_reals g) as [rs|] eqn:Hreal.
  - apply as_reals_length in Hreal. unfold LiveSim.advance.
    destruct (np_max_some rs) as [m ->].
    { intros ->. simpl in Hreal. rewrite Hglen, Hlat in Hreal.
      unfold Frame.len in Hreal. destruct (Frame.rows df);
        [congruence|discriminate]. }
    rewrite !bind_print. eexists. reflexivity.
  - rewrite !bind_print. eexists. reflexivity.
Qed.

(** X22. The all-zero reading set is reached by the loop itself: in cycle
    12 the base rain is below 0.75 mm/hr, so when its draws lie in
    [0.1, 0.42] all three stations report exactly 0 and, on any table with
    a row, the cycle leaves the saturation memory all NaN; once it is NaN no
    later cycle, whatever its readings, brings it back. *)
Theorem cycle_12_poisons_memory (h : Host) (df : Frame.DataFrame)
    (k : nat) (st : LiveSim.sat_state) (w : world) :
  (forall j, 0.1 <= random_tape h j <= 0.42) ->
  Frame.rows df <> [] ->
  (exists w',
     LiveSim.cycle_body h df 12 k st w = (w', Py.Normal LiveSim.SatNaN))
  /\ (forall cycle k' w1,
        exists w',
          LiveSim.cycle_body h df cycle k' LiveSim.SatNaN w1
          = (w', Py.Normal LiveSim.SatNaN)).
Proof.
  intros Htape Hrows. split.
  - apply cycle_with_zero_readings; [exact Hrows|].
    apply simulate_readings_zero_below;
      [exact Htape|apply base_rain_of_cycle_12].
  - intros cycle k' w1. now apply cycle_from_nan.
Qed.

Lemma cycle_12_poisons_memory_witness :
  (exists w',
     LiveSim.cycle_body
       (mkHost (fun _ => true) "/srv/scripts"
          (fun _ => ([], Py.Ok example_frame)) (fun d => ([], Py.Ok d))
          (fun _ => 0.25)
          (fun feats => ([], Py.Ok (repeat 0 (length feats))))
          (fun _ _ _ _ => ([], Py.Ok None)))
       example_frame 12 66
       (LiveSim.Sat (repeat 0.2 (Frame.len example_frame)))
       (mkWorld true [] [])
     = (w', Py.Normal LiveSim.SatNaN))
  /\ (forall cycle k' w1,
        exists w',
          LiveSim.cycle_body
            (mkHost (fun _ => true) "/srv/scripts"
               (fun _ => ([], Py.Ok example_frame)) (fun d => ([], Py.Ok d))
               (fun _ => 0.25)
               (fun feats => ([], Py.Ok (repeat 0 (length feats))))
               (fun _ _ _ _ => ([], Py.Ok None)))
            example_frame cycle k' LiveSim.SatNaN w1
          = (w', Py.Normal LiveSim.SatNaN)).
Proof.
  apply (cycle_12_poisons_memory
           (mkHost (fun _ => true) "/srv/scripts"
              (fun _ => ([], Py.Ok example_frame)) (fun d => ([], Py.Ok d))
              (fun _ => 0.25)
              (fun feats => ([], Py.Ok (repeat 0 (length feats))))
              (fun _ _ _ _ => ([], Py.Ok None)))
           example_frame 66
           (LiveSim.Sat (repeat 0.2 (Frame.len example_frame)))
           (mkWorld true [] [])).
  - intros j. simpl. lra.
  - discriminate.
Defined.
